(** * DeepShare IP registration server: a shallow embedding of the
      registration pipeline ([app.post('/register-ip')] and its helpers)
      and the properties of it that the design document states.

    The server is JavaScript.  The embedding keeps the values the handler
    manipulates as JavaScript values (a JSON body can put anything in any
    field), the exceptions as an error monad, the process-wide collection
    cache as explicit state, and every call to an external collaborator
    (storage gateway, pinning service, chain SDK, record store) as an event
    appended to a history, answered by an oracle of the world. *)

From Stdlib Require Import ZArith List String Ascii Bool Lia DecimalString.
Import ListNotations.

Set Warnings "-register-all".

Local Open Scope Z_scope.
Local Open Scope list_scope.

Notation "a +++ b" := (String.append a b) (right associativity, at level 60).

(* ================================================================== *)
(** * JavaScript values *)
(* ================================================================== *)

(** Numbers.  The handler only ever meets integer-valued numbers and the
    result of a failed [parseInt]; [Int z] is the number whose value is the
    integer [z], [NaN] is not-a-number.  (Fractions and the exponent
    notation of integers from 1e21 on are outside the embedding.) *)
Inductive number : Type :=
| NaN
| Int (z : Z).

(** A value as [JSON.parse] produces it, plus [undefined] (an absent
    field).  [VObj] lists the own properties in enumeration order. *)
Inductive value : Type :=
| VUndefined
| VNull
| VBool (b : bool)
| VNum (n : number)
| VStr (s : string)
| VArr (items : list value)
| VObj (fields : list (string * value)).

(** What a [throw] carries: an [Error] with its [message]; an axios error
    may also carry the HTTP [response] (status, body). *)
Record error : Type := mkError {
  message : string;
  response : option (Z * value)
}.

Definition Error (msg : string) : error := mkError msg None.
Definition TypeError (msg : string) : error := mkError msg None.

(** The result of evaluating an expression that may throw. *)
Inductive outcome (A : Type) : Type :=
| Ok (a : A)
| Throw (e : error).
Arguments Ok {A} a.
Arguments Throw {A} e.

Definition obind {A B} (o : outcome A) (k : A -> outcome B) : outcome B :=
  match o with
  | Ok a => k a
  | Throw e => Throw e
  end.

(** ** Truthiness, property access, strict equality *)

Definition number_truthy (n : number) : bool :=
  match n with
  | NaN => false
  | Int z => negb (z =? 0)
  end.

Definition truthy (v : value) : bool :=
  match v with
  | VUndefined | VNull => false
  | VBool b => b
  | VNum n => number_truthy n
  | VStr s => negb (String.eqb s EmptyString)
  | VArr _ | VObj _ => true
  end.

(** [x !== undefined] *)
Definition is_undefined (v : value) : bool :=
  match v with
  | VUndefined => true
  | _ => false
  end.

Fixpoint lookup (k : string) (fs : list (string * value)) : option value :=
  match fs with
  | [] => None
  | (k', v) :: r => if String.eqb k k' then Some v else lookup k r
  end.

Definition has_own (k : string) (fs : list (string * value)) : bool :=
  match lookup k fs with
  | Some _ => true
  | None => false
  end.

(** [v.k] for the property names the server reads ([data], [depthData],
    [IpfsHash], [length], [ip], [tx_hash]): a [TypeError] on [undefined]
    and [null], the own property of an object, [length] of an array or a
    string, [undefined] otherwise.  (The length of a string is counted on
    its UTF-8 bytes; the server only looks at whether it is zero.) *)
Definition get (v : value) (k : string) : outcome value :=
  match v with
  | VUndefined =>
      Throw (TypeError ("Cannot read properties of undefined (reading '" +++ k +++ "')"))
  | VNull =>
      Throw (TypeError ("Cannot read properties of null (reading '" +++ k +++ "')"))
  | VObj fs =>
      match lookup k fs with
      | Some x => Ok x
      | None => Ok VUndefined
      end
  | VArr l =>
      if String.eqb k "length" then Ok (VNum (Int (Z.of_nat (List.length l))))
      else Ok VUndefined
  | VStr s =>
      if String.eqb k "length" then Ok (VNum (Int (Z.of_nat (String.length s))))
      else Ok VUndefined
  | VBool _ | VNum _ => Ok VUndefined
  end.

(** [v[0]] on a value that is neither [undefined] nor [null]. *)
Definition first (v : value) : value :=
  match v with
  | VArr (x :: _) => x
  | VStr (String c _) => VStr (String c EmptyString)
  | VObj fs =>
      match lookup "0" fs with
      | Some x => x
      | None => VUndefined
      end
  | _ => VUndefined
  end.

Definition number_eqb (a b : number) : bool :=
  match a, b with
  | Int x, Int y => x =? y
  | _, _ => false
  end.

(** [a === b]; two objects (or arrays) that come from different places are
    never the same object. *)
Definition strict_eq (a b : value) : bool :=
  match a, b with
  | VUndefined, VUndefined => true
  | VNull, VNull => true
  | VBool x, VBool y => Bool.eqb x y
  | VNum x, VNum y => number_eqb x y
  | VStr x, VStr y => String.eqb x y
  | _, _ => false
  end.

(** [a < b] and [a > b] on numbers: false as soon as one side is [NaN]. *)
Definition number_lt (a b : number) : bool :=
  match a, b with
  | Int x, Int y => x <? y
  | _, _ => false
  end.

Definition number_gt (a b : number) : bool := number_lt b a.

(** ** Conversion to string *)

Definition decimal (z : Z) : string := NilZero.string_of_int (Z.to_int z).

Definition Number_toString (n : number) : string :=
  match n with
  | NaN => "NaN"
  | Int z => decimal z
  end.

(** The abstract operation ToString, as template literals and [parseInt]
    apply it, which is also what [v.toString()] gives on a truthy value.
    An array joins its elements with commas ([undefined] and [null] give
    the empty string); a plain object gives ["[object Object]"], unless the
    JSON gave it an own [toString] property, which is not callable. *)
Fixpoint ToString (v : value) : outcome string :=
  match v with
  | VUndefined => Ok "undefined"%string
  | VNull => Ok "null"%string
  | VBool b => Ok (if b then "true" else "false")%string
  | VNum n => Ok (Number_toString n)
  | VStr s => Ok s
  | VArr l =>
      (fix join (l : list value) (head : bool) : outcome string :=
         match l with
         | [] => Ok EmptyString
         | x :: r =>
             obind (match x with
                    | VUndefined | VNull => Ok EmptyString
                    | _ => ToString x
                    end)
               (fun sx =>
                  obind (join r false)
                    (fun sr => Ok ((if head then EmptyString else ",")%string +++ sx +++ sr)))
         end) l true
  | VObj fs =>
      if has_own "toString" fs
      then Throw (TypeError "Cannot convert object to primitive value")
      else Ok "[object Object]"%string
  end.

(** A template literal: literal chunks and interpolated values, converted
    left to right. *)
Inductive part : Type :=
| Lit (s : string)
| Sub (v : value).

Fixpoint template (ps : list part) : outcome string :=
  match ps with
  | [] => Ok EmptyString
  | Lit s :: r => obind (template r) (fun t => Ok (s +++ t))
  | Sub v :: r => obind (ToString v) (fun sv => obind (template r) (fun t => Ok (sv +++ t)))
  end.

(** ** parseInt *)

Definition code (c : ascii) : Z := Z.of_N (N_of_ascii c).

(** Leading white space and line terminators, on the UTF-8 bytes of the
    string: TAB, LF, VT, FF, CR, SP, U+00A0, U+1680, U+2000..U+200A,
    U+2028, U+2029, U+202F, U+205F, U+3000, U+FEFF. *)
Fixpoint trim_start (s : string) : string :=
  match s with
  | String a r =>
      let ca := code a in
      if ((9 <=? ca) && (ca <=? 13)) || (ca =? 32) then trim_start r
      else
        match r with
        | String b r2 =>
            let cb := code b in
            if (ca =? 194) && (cb =? 160) then trim_start r2
            else
              match r2 with
              | String c r3 =>
                  let cc := code c in
                  if ((ca =? 225) && (cb =? 154) && (cc =? 128))
                     || ((ca =? 226) && (cb =? 128)
                         && (((128 <=? cc) && (cc <=? 138)) || (cc =? 168)
                             || (cc =? 169) || (cc =? 175)))
                     || ((ca =? 226) && (cb =? 129) && (cc =? 159))
                     || ((ca =? 227) && (cb =? 128) && (cc =? 128))
                     || ((ca =? 239) && (cb =? 187) && (cc =? 191))
                  then trim_start r3
                  else s
              | EmptyString => s
              end
        | EmptyString => s
        end
  | EmptyString => s
  end.

Definition digit_value (c : ascii) : option Z :=
  let n := code c in
  if (48 <=? n) && (n <=? 57) then Some (n - 48)
  else if (97 <=? n) && (n <=? 122) then Some (n - 87)
  else if (65 <=? n) && (n <=? 90) then Some (n - 55)
  else None.

(** The longest prefix of digits of the radix, read as an integer from the
    accumulator [acc]; [seen] says whether a digit was read. *)
Fixpoint parse_digits (radix : Z) (s : string) (acc : Z) (seen : bool) : option Z :=
  match s with
  | String c r =>
      match digit_value c with
      | Some d =>
          if d <? radix then parse_digits radix r (acc * radix + d) true
          else if seen then Some acc else None
      | None => if seen then Some acc else None
      end
  | EmptyString => if seen then Some acc else None
  end.

(** [parseInt(s)] with no radix, on a string. *)
Definition parseInt_string (s : string) : number :=
  let s1 := trim_start s in
  let '(sign, s2) :=
    match s1 with
    | String "-"%char r => (-1, r)
    | String "+"%char r => (1, r)
    | _ => (1, s1)
    end in
  let '(radix, s3) :=
    match s2 with
    | String "0"%char (String "x"%char r) => (16, r)
    | String "0"%char (String "X"%char r) => (16, r)
    | _ => (10, s2)
    end in
  match parse_digits radix s3 0 false with
  | Some n => Int (sign * n)
  | None => NaN
  end.

(** [parseInt(v)]: the argument is first converted to a string. *)
Definition parseInt (v : value) : outcome number :=
  obind (ToString v) (fun s => Ok (parseInt_string s)).

(** ** JSON.stringify *)

Definition hex_digit (n : Z) : ascii :=
  ascii_of_N (Z.to_N (if n <? 10 then 48 + n else 87 + n)).

Definition dquote : string := String (ascii_of_N 34) EmptyString.

(** One character of a JSON string literal. *)
Definition quote_char (c : ascii) : string :=
  let n := code c in
  if n =? 34 then "\"%string +++ dquote
  else if n =? 92 then "\\"%string
  else if n =? 8 then "\b"%string
  else if n =? 12 then "\f"%string
  else if n =? 10 then "\n"%string
  else if n =? 13 then "\r"%string
  else if n =? 9 then "\t"%string
  else if n <? 32 then
    "\u00"%string +++ String (hex_digit (n / 16)) (String (hex_digit (n mod 16)) EmptyString)
  else String c EmptyString.

Fixpoint quote_chars (s : string) : string :=
  match s with
  | EmptyString => EmptyString
  | String c r => quote_char c +++ quote_chars r
  end.

Definition quote (s : string) : string := dquote +++ quote_chars s +++ dquote.

(** [JSON.stringify(v)]; [None] is the [undefined] it returns for
    [undefined].  A property whose value is [undefined] is left out, an
    [undefined] array element is written [null], and so is [NaN]. *)
Fixpoint JSON_stringify (v : value) : option string :=
  match v with
  | VUndefined => None
  | VNull => Some "null"%string
  | VBool b => Some (if b then "true" else "false")%string
  | VNum NaN => Some "null"%string
  | VNum (Int z) => Some (decimal z)
  | VStr s => Some (quote s)
  | VArr l =>
      Some ("[" +++
            (fix elements (l : list value) (head : bool) : string :=
               match l with
               | [] => EmptyString
               | x :: r =>
                   (if head then EmptyString else ",")%string
                   +++ match JSON_stringify x with
                       | Some sx => sx
                       | None => "null"%string
                       end
                   +++ elements r false
               end) l true
            +++ "]")
  | VObj fs =>
      Some ("{" +++
            (fix members (fs : list (string * value)) (head : bool) : string :=
               match fs with
               | [] => EmptyString
               | (k, x) :: r =>
                   match JSON_stringify x with
                   | Some sx =>
                       (if head then EmptyString else ",")%string
                       +++ quote k +++ ":" +++ sx +++ members r false
                   | None => members r head
                   end
               end) fs true
            +++ "}")
  end.

(* ================================================================== *)
(** * SHA-256 ([createHash('sha256').update(s).digest('hex')]) *)
(* ================================================================== *)

Module SHA256.

Definition w32 (x : Z) : Z := x mod 2 ^ 32.

Definition rotr (n x : Z) : Z :=
  w32 (Z.lor (Z.shiftr x n) (Z.shiftl x (32 - n))).

Definition Ch (x y z : Z) : Z :=
  Z.lxor (Z.land x y) (Z.land (w32 (Z.lnot x)) z).

Definition Maj (x y z : Z) : Z :=
  Z.lxor (Z.lxor (Z.land x y) (Z.land x z)) (Z.land y z).

Definition Sigma0 (x : Z) : Z := Z.lxor (Z.lxor (rotr 2 x) (rotr 13 x)) (rotr 22 x).
Definition Sigma1 (x : Z) : Z := Z.lxor (Z.lxor (rotr 6 x) (rotr 11 x)) (rotr 25 x).
Definition sigma0 (x : Z) : Z := Z.lxor (Z.lxor (rotr 7 x) (rotr 18 x)) (Z.shiftr x 3).
Definition sigma1 (x : Z) : Z := Z.lxor (Z.lxor (rotr 17 x) (rotr 19 x)) (Z.shiftr x 10).

(** The integer part of the [k]-th root of [n], found bit by bit from bit
    [bits] down. *)
Fixpoint root (k : Z) (n : Z) (bits : nat) (acc : Z) : Z :=
  match bits with
  | O => acc
  | S b =>
      let candidate := acc + 2 ^ Z.of_nat b in
      if candidate ^ k <=? n then root k n b candidate else root k n b acc
  end.

Definition is_prime (n : Z) : bool :=
  forallb (fun d => negb (n mod Z.of_nat d =? 0)) (seq 2 (Z.to_nat n - 2)).

(** The first 64 primes. *)
Definition primes : list Z :=
  Eval vm_compute in filter is_prime (map Z.of_nat (seq 2 310)).

(** The round constants: the first 32 bits of the fractional parts of the
    cube roots of the first 64 primes. *)
Definition K : list Z :=
  Eval vm_compute in map (fun p => w32 (root 3 (p * 2 ^ 96) 40 0)) primes.

(** The initial hash value: the same of the square roots of the first 8
    primes. *)
Definition H0 : list Z :=
  Eval vm_compute in map (fun p => w32 (root 2 (p * 2 ^ 64) 40 0)) (firstn 8 primes).

Fixpoint bytes (s : string) : list Z :=
  match s with
  | EmptyString => []
  | String c r => code c :: bytes r
  end.

(** The message, a 1 bit, zeros up to 56 modulo 64 bytes, and the length
    in bits on 8 bytes, big-endian. *)
Definition pad (m : list Z) : list Z :=
  let n := Z.of_nat (List.length m) in
  let zeros := Z.to_nat ((55 - n) mod 64) in
  m ++ [128] ++ repeat 0 zeros
    ++ map (fun i => Z.shiftr (8 * n) (8 * (7 - Z.of_nat i)) mod 256) (seq 0 8).

(** Big-endian 32-bit words of a byte list. *)
Fixpoint words (fuel : nat) (bs : list Z) : list Z :=
  match fuel, bs with
  | S f, a :: b :: c :: d :: r =>
      (((a * 256 + b) * 256 + c) * 256 + d) :: words f r
  | _, _ => []
  end.

(** The message schedule, most recent word first: [sched] holds
    W(t-1), W(t-2), ...; sixteen words are there to begin with. *)
Fixpoint extend (n : nat) (sched : list Z) : list Z :=
  match n with
  | O => sched
  | S n' =>
      let w := w32 (sigma1 (nth 1 sched 0) + nth 6 sched 0
                    + sigma0 (nth 14 sched 0) + nth 15 sched 0) in
      extend n' (w :: sched)
  end.

Definition round (st : list Z) (kw : Z * Z) : list Z :=
  match st with
  | [a; b; c; d; e; f; g; h] =>
      let t1 := h + Sigma1 e + Ch e f g + fst kw + snd kw in
      let t2 := Sigma0 a + Maj a b c in
      [w32 (t1 + t2); a; b; c; w32 (d + t1); e; f; g]
  | _ => st
  end.

Definition compress (h : list Z) (block : list Z) : list Z :=
  let w := rev (extend 48 (rev block)) in
  let st := fold_left round (combine K w) h in
  map (fun p => w32 (fst p + snd p)) (combine h st).

Fixpoint blocks (fuel : nat) (ws : list Z) (h : list Z) : list Z :=
  match fuel with
  | O => h
  | S f =>
      match ws with
      | [] => h
      | _ => blocks f (skipn 16 ws) (compress h (firstn 16 ws))
      end
  end.

Definition digest (s : string) : list Z :=
  let p := pad (bytes s) in
  let ws := words (List.length p) p in
  blocks (List.length ws) ws H0.

Fixpoint hex_word (n : nat) (x : Z) (k : string) : string :=
  match n with
  | O => k
  | S n' => hex_word n' (x / 16) (String (hex_digit (x mod 16)) k)
  end.

(** The digest as 64 lower-case hexadecimal digits. *)
Definition hex (s : string) : string :=
  fold_right (fun w k => hex_word 8 w k) EmptyString (digest s).

End SHA256.

(* ================================================================== *)
(** * Dates ([new Date().toISOString()]) *)
(* ================================================================== *)

Fixpoint zero_pad (fuel width : nat) (s : string) : string :=
  match fuel with
  | O => s
  | S f => if (String.length s <? width)%nat then zero_pad f width (String "0"%char s) else s
  end.

(** The decimal numeral of [z], padded with zeros on the left to [width]. *)
Definition digits (width : nat) (z : Z) : string := zero_pad width width (decimal z).

(** The ISO 8601 rendering of an instant given in milliseconds since the
    epoch (proleptic Gregorian calendar, UTC). *)
Definition toISOString (ms : Z) : string :=
  let r := ms mod 86400000 in
  let z := ms / 86400000 + 719468 in
  let era := z / 146097 in
  let doe := z mod 146097 in
  let yoe := (doe - doe / 1460 + doe / 36524 - doe / 146096) / 365 in
  let doy := doe - (365 * yoe + yoe / 4 - yoe / 100) in
  let mp := (5 * doy + 2) / 153 in
  let d := doy - (153 * mp + 2) / 5 + 1 in
  let m := if mp <? 10 then mp + 3 else mp - 9 in
  let y := yoe + era * 400 + (if m <=? 2 then 1 else 0) in
  let year :=
    if (0 <=? y) && (y <=? 9999) then digits 4 y
    else ((if y <? 0 then "-"%string else "+"%string) +++ digits 6 (Z.abs y)) in
  year +++ "-" +++ digits 2 m +++ "-" +++ digits 2 d
  +++ "T" +++ digits 2 (r / 3600000) +++ ":" +++ digits 2 (r / 60000 mod 60)
  +++ ":" +++ digits 2 (r / 1000 mod 60) +++ "." +++ digits 3 (r mod 1000) +++ "Z".

(* ================================================================== *)
(** * The world the server runs in *)
(* ================================================================== *)

(** What an awaited promise settles to. *)
Inductive reply (A : Type) : Type :=
| Resolved (a : A)
| Rejected (e : error).
Arguments Resolved {A} a.
Arguments Rejected {A} e.

Definition settle {A} (r : reply A) : outcome A :=
  match r with
  | Resolved a => Ok a
  | Rejected e => Throw e
  end.

(** An axios response: [status] and [data]. *)
Definition http_response : Type := (Z * value)%type.

(** What [createNFTCollection] resolves to (the SDK declares both fields
    optional). *)
Record Collection : Type := mkCollection {
  collection_spgNftContract : option string;
  collection_txHash : option string
}.

(** What [registerIpAsset] resolves to (all fields optional in the SDK;
    the two identifiers are bigints). *)
Record Registration : Type := mkRegistration {
  ipId : option string;
  tokenId : option Z;
  licenseTermsIds : option (list Z);
  txHash : option string
}.

(** The argument of [registerIpAsset]: the collection to mint into, the
    parameters given to [PILFlavor.commercialRemix] (the currency is the
    constant [WIP_TOKEN_ADDRESS]), and the four metadata fields.  The SDK
    evaluates the license flavour and submits the transaction in one step
    of the handler; a refusal of either is a rejection of the call. *)
Record RegisterRequest : Type := mkRegisterRequest {
  nft_spgNftContract : value;
  terms_commercialRevShare : number;
  terms_defaultMintingFee : Z;
  ipMetadataURI : string;
  ipMetadataHash : string;
  nftMetadataURI : string;
  nftMetadataHash : string
}.

(** A call to an external collaborator, with what it settled to. *)
Inductive event : Type :=
| StorageFetch (url : string) (r : reply http_response)
| StoragePublish (url : string) (doc : value) (r : reply http_response)
| ChainCreateCollection (r : reply Collection)
| ChainRegister (a : RegisterRequest) (r : reply Registration)
| RecordGet (url : string) (r : reply http_response)
| RecordPatch (url : string) (data : value) (r : reply http_response).

(** The configuration read from the environment at start-up. *)
Record Config : Type := mkConfig {
  IPFS_GATEWAY : string;
  SUPABASE_URL : option string;
  SUPABASE_KEY : option string;
  DEFAULT_MINTING_FEE : string;
  DEFAULT_COMMERCIAL_REV_SHARE : number
}.

(** Everything outside the server: its configuration, the library
    functions it calls ([parseEther] of viem, which throws on a string that
    is not a decimal number; [generateIpMetadata] of the SDK), the two
    computations on floating-point or coerced operands that the embedding
    leaves to the runtime, the clock, and the collaborators, each answering
    from the history of the calls made so far. *)
Record World : Type := mkWorld {
  config : Config;
  parseEther : string -> outcome Z;
  generateIpMetadata : value -> value;
  (** [Number(wei) / 1e18] *)
  tokens_of_wei : Z -> value;
  (** [a > b] when an operand is not a number and has to be coerced *)
  coerced_gt : value -> value -> outcome bool;
  (** the instant read by the n-th use of the clock *)
  Date_now : nat -> Z;
  axios_get : list event -> string -> reply http_response;
  axios_post : list event -> string -> value -> reply http_response;
  axios_patch : list event -> string -> value -> reply http_response;
  createNFTCollection : list event -> reply Collection;
  registerIpAsset : list event -> RegisterRequest -> reply Registration
}.

(** The state of the server process: the collection cache
    ([let spgNftContract = null]), the calls made so far, and how many
    times the clock was read. *)
Record Process : Type := mkProcess {
  spgNftContract : value;
  history : list event;
  clock : nat
}.

Definition startup : Process := mkProcess VNull [] 0%nat.

(** The destructured request body. *)
Record Request : Type := mkRequest {
  imageCid : value;
  metadataCid : value;
  depthMetadata : value;
  deviceAddress : value;
  mintingFee : value;
  commercialRevShare : value
}.

Definition field (body : value) (k : string) : value :=
  match body with
  | VObj fs =>
      match lookup k fs with
      | Some x => x
      | None => VUndefined
      end
  | _ => VUndefined
  end.

(** [const { imageCid, ... } = req.body] on a parsed JSON body. *)
Definition destructure (body : value) : Request :=
  mkRequest (field body "imageCid") (field body "metadataCid")
            (field body "depthMetadata") (field body "deviceAddress")
            (field body "mintingFee") (field body "commercialRevShare").

(** What the handler sends back. *)
Record Response : Type := mkResponse {
  status : Z;
  body : value
}.

(** ** The monad of the handler: state and exceptions *)

Definition M (A : Type) : Type := Process -> outcome A * Process.

Definition ret {A} (a : A) : M A := fun p => (Ok a, p).

Definition throw {A} (e : error) : M A := fun p => (Throw e, p).

Definition lift {A} (o : outcome A) : M A := fun p => (o, p).

Definition bind {A B} (m : M A) (k : A -> M B) : M B :=
  fun p =>
    match m p with
    | (Ok a, p') => k a p'
    | (Throw e, p') => (Throw e, p')
    end.

(** [try { m } catch (error) { h error }] *)
Definition try_catch {A} (m : M A) (h : error -> M A) : M A :=
  fun p =>
    match m p with
    | (Ok a, p') => (Ok a, p')
    | (Throw e, p') => h e p'
    end.

Notation "x <- m ;; k" := (bind m (fun x => k))
  (at level 61, m at next level, right associativity).
Notation "m ;;; k" := (bind m (fun _ => k))
  (at level 61, right associativity).

Definition record (e : event) (p : Process) : Process :=
  mkProcess (spgNftContract p) (history p ++ [e]) (clock p).

(** [await] of a call to a collaborator: the call is recorded with its
    answer, and a rejection is thrown. *)
Definition await {A} (answer : list event -> reply A) (ev : reply A -> event) : M A :=
  fun p => let r := answer (history p) in (settle r, record (ev r) p).

(** A line written to the console.  The text is not kept; the values
    interpolated in it are converted to strings, which may throw. *)
Definition console_log (interpolated : list value) : M unit :=
  lift (obind (template (map Sub interpolated)) (fun _ => Ok tt)).

Definition opt_value (o : option string) : value :=
  match o with
  | Some s => VStr s
  | None => VUndefined
  end.

Definition env_truthy (o : option string) : bool := truthy (opt_value o).

(** [createHash('sha256').update(v).digest('hex')]: [update] takes a
    string (or a buffer, which a JSON body cannot hold).  The texts of the
    runtime's own [TypeError]s are indicative. *)
Definition sha256_hex (v : value) : outcome string :=
  match v with
  | VStr s => Ok (SHA256.hex s)
  | _ =>
      Throw (TypeError
        "The 'data' argument must be of type string or an instance of Buffer, TypedArray, or DataView.")
  end.

(* ================================================================== *)
(** * The server *)
(* ================================================================== *)

Section Server.

Variable w : World.

Let cfg := config w.

(** [Date.now()] *)
Definition read_clock (p : Process) : Z * Process :=
  (Date_now w (clock p), mkProcess (spgNftContract p) (history p) (S (clock p))).

Definition now : M Z := fun p => (Ok (fst (read_clock p)), snd (read_clock p)).

(** ** fetchFromIPFS *)
Definition fetchFromIPFS (cid : value) : M value :=
  url <- lift (template [Lit (IPFS_GATEWAY cfg); Lit "/ipfs/"; Sub cid]) ;;
  try_catch
    (resp <- await (fun h => axios_get w h url) (StorageFetch url) ;;
     ret (snd resp))
    (fun error =>
       msg <- lift (template [Lit "Failed to fetch CID "; Sub cid;
                              Lit " from IPFS: "; Lit (message error)]) ;;
       throw (Error msg)).

Definition pinJSONToIPFS : string := "https://api.pinata.cloud/pinning/pinJSONToIPFS".

(** ** uploadJSONToIPFS *)
Definition uploadJSONToIPFS (jsonData : value) : M value :=
  try_catch
    (resp <- await (fun h => axios_post w h pinJSONToIPFS jsonData)
                   (StoragePublish pinJSONToIPFS jsonData) ;;
     ipfsHash <- lift (get (snd resp) "IpfsHash") ;;
     console_log [ipfsHash] ;;;
     ret ipfsHash)
    (fun error => throw (Error ("Failed to upload JSON to IPFS: " +++ message error))).

(** [a > b] *)
Definition gt (a b : value) : outcome bool :=
  match a, b with
  | VNum x, VNum y => Ok (number_gt x y)
  | _, _ => coerced_gt w a b
  end.

(** ** updateSupabaseWithIPData *)
Definition updateSupabaseWithIPData (imageCid : value) (ipUrl : string) (txHash : value)
  : M value :=
  if negb (env_truthy (SUPABASE_URL cfg)) || negb (env_truthy (SUPABASE_KEY cfg)) then
    ret VNull
  else
    console_log [imageCid] ;;;
    console_log [VStr ipUrl] ;;;
    console_log [txHash] ;;;
    try_catch
      (let baseUrl := Sub (opt_value (SUPABASE_URL cfg)) in
       (* First, check if row exists *)
       checkUrl <- lift (template [baseUrl; Lit "/rest/v1/images"; Lit "?image_cid=eq."; Sub imageCid;
                                   Lit "&select=wallet_address,image_cid,metadata_cid"]) ;;
       checkResponse <- await (fun h => axios_get w h checkUrl) (RecordGet checkUrl) ;;
       let data := snd checkResponse in
       absent <- (if negb (truthy data) then ret true
                  else len <- lift (get data "length") ;;
                       ret (strict_eq len (VNum (Int 0)))) ;;
       if (absent : bool) then ret VNull
       else
         (* Update the row *)
         updateUrl <- lift (template [baseUrl; Lit "/rest/v1/images"; Lit "?image_cid=eq.";
                                      Sub imageCid]) ;;
         let updateData := VObj [("ip", VStr ipUrl); ("tx_hash", txHash)]%string in
         await (fun h => axios_patch w h updateUrl updateData)
               (RecordPatch updateUrl updateData) ;;;
         (* Verify the update actually worked by fetching the row again *)
         verifyUrl <- lift (template [baseUrl; Lit "/rest/v1/images"; Lit "?image_cid=eq.";
                                      Sub imageCid; Lit "&select=image_cid,ip,tx_hash"]) ;;
         verifyResponse <- await (fun h => axios_get w h verifyUrl) (RecordGet verifyUrl) ;;
         let vdata := snd verifyResponse in
         present <- (if truthy vdata
                     then len <- lift (get vdata "length") ;;
                          lift (gt len (VNum (Int 0)))
                     else ret false) ;;
         if (present : bool) then
           let row := first vdata in
           row_ip <- lift (get row "ip") ;;
           confirmed <- (if strict_eq row_ip (VStr ipUrl)
                         then row_tx <- lift (get row "tx_hash") ;;
                              ret (strict_eq row_tx txHash)
                         else ret false) ;;
           if (confirmed : bool) then ret row
           else
             console_log [VStr ipUrl] ;;;
             console_log [row_ip] ;;;
             console_log [txHash] ;;;
             row_tx <- lift (get row "tx_hash") ;;
             console_log [row_tx] ;;;
             ret VNull
         else ret VNull)
      (fun error =>
         (* Don't throw - we don't want Supabase errors to break IP registration *)
         ret VNull).

(** ** getOrCreateCollection *)
Definition getOrCreateCollection : M value :=
  fun p =>
    (* Check if we already have a collection *)
    if truthy (spgNftContract p) then (Ok (spgNftContract p), p)
    else
      (newCollection <- await (createNFTCollection w) ChainCreateCollection ;;
       fun p' =>
         let created := opt_value (collection_spgNftContract newCollection) in
         (Ok created, mkProcess created (history p') (clock p'))) p.

(** ** app.post('/register-ip') *)

Definition gatewayUrl (cid : value) : outcome string :=
  template [Lit "https://gateway.pinata.cloud/ipfs/"; Sub cid].

Definition ipfsUri (cid : value) : outcome string :=
  template [Lit "ipfs://"; Sub cid].

(** [x || 'N/A'] *)
Definition or_NA (x : value) : value := if truthy x then x else VStr "N/A".

(** If metadataCid provided, fetch it from IPFS: the value of
    [finalDepthMetadata] when the two blocks that assign it are done. *)
Definition resolveDepthMetadata (req : Request) : M value :=
  finalDepthMetadata <-
    (if truthy (metadataCid req) && negb (truthy (depthMetadata req)) then
       console_log [metadataCid req] ;;;
       try_catch
         (fullMetadata <- fetchFromIPFS (metadataCid req) ;;
          (* Extract depth data from the full metadata *)
          data <- lift (get fullMetadata "data") ;;
          if truthy data then
            depthData <- lift (get data "depthData") ;;
            if truthy depthData then ret depthData else ret fullMetadata
          else ret fullMetadata)
         (fun error => ret (VObj [("metadataCid"%string, metadataCid req)]))
     else ret (depthMetadata req)) ;;
  if negb (truthy finalDepthMetadata)
  then ret (VObj [("note", VStr "No depth metadata provided")]%string)
  else ret finalDepthMetadata.

(** Use provided values or defaults *)
Definition resolveMintingFee (req : Request) : outcome Z :=
  if truthy (mintingFee req)
  then obind (ToString (mintingFee req)) (parseEther w)
  else parseEther w (DEFAULT_MINTING_FEE cfg).

Definition resolveRevShare (req : Request) : outcome number :=
  if negb (is_undefined (commercialRevShare req))
  then parseInt (commercialRevShare req)
  else Ok (DEFAULT_COMMERCIAL_REV_SHARE cfg).

(** Validate ranges *)
Definition out_of_range (finalRevShare : number) : bool :=
  number_lt finalRevShare (Int 0) || number_gt finalRevShare (Int 100).

(** Create IP Metadata - Story Protocol format: the object handed to
    [generateIpMetadata]. *)
Definition ipMetadataFields (req : Request) (metadataHttpUrl : string) : M value :=
  t_title <- now ;;
  description <-
    lift (if truthy (metadataCid req)
          then Ok ("Evidence capture with depth mapping. Full depth data stored at: "
                   +++ metadataHttpUrl)
          else template [Lit "Evidence capture. Device: "; Sub (deviceAddress req)]) ;;
  t_created <- now ;;
  image <- lift (ipfsUri (imageCid req)) ;;
  imageHash <- lift (sha256_hex (imageCid req)) ;;
  mediaUrl <- lift (if truthy (metadataCid req) then ipfsUri (metadataCid req)
                    else ipfsUri (imageCid req)) ;;
  mediaHash <- lift (if truthy (metadataCid req) then sha256_hex (metadataCid req)
                     else sha256_hex (imageCid req)) ;;
  ret (VObj
    [ ("title", VStr ("DeepShare Evidence - " +++ decimal t_title));
      ("description", VStr description);
      ("createdAt", VStr (decimal (t_created / 1000)));
      ("creators", VArr [VObj [ ("name", VStr "DeepShare Device");
                                ("address", deviceAddress req);
                                ("contributionPercent", VNum (Int 100)) ]]);
      ("image", VStr image);
      ("imageHash", VStr ("0x" +++ imageHash));
      ("mediaUrl", VStr mediaUrl);
      ("mediaHash", VStr ("0x" +++ mediaHash));
      ("mediaType", VStr (if truthy (metadataCid req) then "application/json"
                          else "image/jpeg"));
      ("attributes", VArr
        [ VObj [("key", VStr "Platform"); ("value", VStr "DeepShare")];
          VObj [("key", VStr "Type"); ("value", VStr "Evidence with Depth Mapping")];
          VObj [("key", VStr "Device"); ("value", deviceAddress req)];
          VObj [("key", VStr "ImageCID"); ("value", imageCid req)];
          VObj [("key", VStr "MetadataCID"); ("value", or_NA (metadataCid req))];
          VObj [("key", VStr "DepthDataURL");
                ("value", VStr (if truthy (metadataCid req) then metadataHttpUrl
                                else "N/A"))] ]) ]%string).

(** Create NFT Metadata - OpenSea compatible *)
Definition nftMetadataFields (req : Request) (imageHttpUrl metadataHttpUrl : string)
  : M value :=
  t_name <- now ;;
  image <- lift (ipfsUri (imageCid req)) ;;
  animation_url <- lift (if truthy (metadataCid req)
                         then obind (ipfsUri (metadataCid req)) (fun u => Ok (VStr u))
                         else Ok VUndefined) ;;
  t_stamp <- now ;;
  ret (VObj
    [ ("name", VStr ("DeepShare Evidence " +++ decimal t_name));
      ("description",
        VStr (if truthy (metadataCid req)
              then "Evidence captured with depth mapping technology. Full depth data available in metadata."
              else "Evidence captured with depth mapping technology"));
      ("image", VStr image);
      ("animation_url", animation_url);
      ("external_url", VStr (if truthy (metadataCid req) then metadataHttpUrl
                             else imageHttpUrl));
      ("attributes", VArr
        [ VObj [("trait_type", VStr "Platform"); ("value", VStr "DeepShare")];
          VObj [("trait_type", VStr "Device"); ("value", deviceAddress req)];
          VObj [("trait_type", VStr "Timestamp"); ("value", VStr (toISOString t_stamp))];
          VObj [("trait_type", VStr "Has Depth Data");
                ("value", VStr (if truthy (metadataCid req) then "Yes" else "No"))];
          VObj [("trait_type", VStr "Image CID"); ("value", imageCid req)];
          VObj [("trait_type", VStr "Metadata CID");
                ("value", or_NA (metadataCid req))] ]) ]%string).

(** [createHash('sha256').update(JSON.stringify(doc)).digest('hex')] *)
Definition documentHash (doc : value) : outcome string :=
  sha256_hex (match JSON_stringify doc with
              | Some s => VStr s
              | None => VUndefined
              end).

Definition optional_string (o : option string) : string :=
  match o with
  | Some s => s
  | None => "undefined"
  end.

(** The [data] of the success response. *)
Definition registrationResult (req : Request) (resp : Registration) (nftContract : value)
    (imageHttpUrl metadataHttpUrl : string) (finalDepthMetadata : value)
    (finalMintingFee : Z) (finalRevShare : number) (ipExplorerUrl : string) : value :=
  VObj
    [ ("ipId", opt_value (ipId resp));
      ("tokenId", match tokenId resp with
                  | Some t => VStr (decimal t)
                  | None => VUndefined
                  end);
      ("licenseTermsIds", match licenseTermsIds resp with
                          | Some ids => VArr (map (fun id => VStr (decimal id)) ids)
                          | None => VUndefined
                          end);
      ("txHash", opt_value (txHash resp));
      ("nftContract", nftContract);
      ("imageUrl", VStr imageHttpUrl);
      ("imageCid", imageCid req);
      ("metadataUrl", VStr metadataHttpUrl);
      ("metadataCid", if truthy (metadataCid req) then metadataCid req else VNull);
      ("depthMetadata", finalDepthMetadata);
      ("mintingFee", tokens_of_wei w finalMintingFee);
      ("commercialRevShare", VNum finalRevShare);
      ("explorerUrl", VStr ipExplorerUrl);
      ("transactionUrl",
        VStr ("https://aeneid.storyscan.io/tx/" +++ optional_string (txHash resp))) ]%string.

(** The handler from the first console line after validation down to the
    success response. *)
Definition registerValidated (req : Request) (finalDepthMetadata : value)
    (finalMintingFee : Z) (finalRevShare : number) : M Response :=
  console_log [imageCid req] ;;;
  console_log [deviceAddress req] ;;;
  (* Get or create collection *)
  nftContract <- getOrCreateCollection ;;
  (* Prepare IPFS URLs - use HTTP gateway for browser compatibility *)
  imageHttpUrl <- lift (gatewayUrl (imageCid req)) ;;
  metadataHttpUrl <- lift (if truthy (metadataCid req) then gatewayUrl (metadataCid req)
                           else Ok imageHttpUrl) ;;
  fields <- ipMetadataFields req metadataHttpUrl ;;
  let ipMetadata := generateIpMetadata w fields in
  (* Upload IP metadata JSON to IPFS *)
  ipIpfsHash <- uploadJSONToIPFS ipMetadata ;;
  ipHash <- lift (documentHash ipMetadata) ;;
  nftMetadata <- nftMetadataFields req imageHttpUrl metadataHttpUrl ;;
  (* Upload NFT metadata JSON to IPFS *)
  nftIpfsHash <- uploadJSONToIPFS nftMetadata ;;
  nftHash <- lift (documentHash nftMetadata) ;;
  console_log [ipIpfsHash] ;;;
  console_log [nftIpfsHash] ;;;
  (* Register IP Asset with Commercial License *)
  ipUri <- lift (template [Lit "https://ipfs.io/ipfs/"; Sub ipIpfsHash]) ;;
  nftUri <- lift (template [Lit "https://ipfs.io/ipfs/"; Sub nftIpfsHash]) ;;
  let args := mkRegisterRequest nftContract finalRevShare finalMintingFee
                ipUri ("0x" +++ ipHash) nftUri ("0x" +++ nftHash) in
  resp <- await (fun h => registerIpAsset w h args) (ChainRegister args) ;;
  (* Construct IP explorer URL *)
  let ipExplorerUrl :=
    "https://aeneid.explorer.story.foundation/ipa/" +++ optional_string (ipId resp) in
  (* Update Supabase with IP URL and transaction hash *)
  updateSupabaseWithIPData (imageCid req) ipExplorerUrl (opt_value (txHash resp)) ;;;
  (* Return success response *)
  t <- now ;;
  ret (mkResponse 200
         (VObj [ ("success", VBool true);
                 ("data", registrationResult req resp nftContract imageHttpUrl
                            metadataHttpUrl finalDepthMetadata finalMintingFee
                            finalRevShare ipExplorerUrl);
                 ("timestamp", VStr (toISOString t)) ]%string)).

(** The body of the handler's [try]. *)
Definition register_ip_try (req : Request) : M Response :=
  (* Validation - need either imageCid or both *)
  if negb (truthy (imageCid req)) || negb (truthy (deviceAddress req)) then
    ret (mkResponse 400
           (VObj [ ("error", VStr "Missing required fields");
                   ("required", VArr [VStr "imageCid"; VStr "deviceAddress"]) ]%string))
  else
    finalDepthMetadata <- resolveDepthMetadata req ;;
    finalMintingFee <- lift (resolveMintingFee req) ;;
    finalRevShare <- lift (resolveRevShare req) ;;
    if out_of_range finalRevShare then
      ret (mkResponse 400
             (VObj [ ("error", VStr "Commercial revenue share must be between 0 and 100");
                     ("provided", VNum finalRevShare) ]%string))
    else registerValidated req finalDepthMetadata finalMintingFee finalRevShare.

(** The handler: the response it sends and the process it leaves. *)
Definition register_ip (req : Request) (p : Process) : Response * Process :=
  match register_ip_try req p with
  | (Ok res, p') => (res, p')
  | (Throw error, p') =>
      let (t, p'') := read_clock p' in
      (mkResponse 500
         (VObj [ ("success", VBool false);
                 ("error", VStr (message error));
                 ("timestamp", VStr (toISOString t)) ]%string), p'')
  end.

(** The calls to collaborators made while the request is handled. *)
Definition calls (req : Request) (p : Process) : list event :=
  skipn (List.length (history p)) (history (snd (register_ip req p))).

(** The life of a process whose requests do not overlap: each is handled
    to its response before the next one is taken.  (Handlers that overlap
    interleave at their [await]s; for the one piece of state they share, the
    collection cache, see [overlappingCalls] below.) *)
Fixpoint serve (reqs : list Request) (p : Process) : list Response * Process :=
  match reqs with
  | [] => ([], p)
  | req :: rest =>
      let (res, p1) := register_ip req p in
      let (more, p2) := serve rest p1 in
      (res :: more, p2)
  end.

End Server.

(* ================================================================== *)
(** * The shapes of runs *)
(* ================================================================== *)

(** The predicates below describe, stage by stage, which calls a run makes
    and what it returns; the lemmas further down show that every run of the
    server has one of these shapes. *)

Section Shapes.

Variable w : World.

Definition is_fetch (e : event) : Prop :=
  match e with StorageFetch _ _ => True | _ => False end.

Definition is_publish (e : event) : Prop :=
  match e with StoragePublish _ _ _ => True | _ => False end.


Definition is_register (e : event) : Prop :=
  match e with ChainRegister _ _ => True | _ => False end.

Definition is_record (e : event) : Prop :=
  match e with RecordGet _ _ | RecordPatch _ _ _ => True | _ => False end.

Definition is_create (e : event) : Prop :=
  match e with ChainCreateCollection _ => True | _ => False end.

Definition is_createb (e : event) : bool :=
  match e with ChainCreateCollection _ => true | _ => false end.

(** How many collection-creation transactions a history holds. *)
Definition creations (h : list event) : nat := List.length (filter is_createb h).

Definition creates_handle (e : event) : bool :=
  match e with
  | ChainCreateCollection (Resolved c) =>
      match collection_spgNftContract c with
      | Some address => negb (String.eqb address EmptyString)
      | None => false
      end
  | _ => false
  end.

(** How many of them returned a collection handle. *)
Definition handles_created (h : list event) : nat :=
  List.length (filter creates_handle h).

(** A computation that calls only collaborators of kind [K] and leaves the
    collection cache and the clock alone. *)
Definition tame {A} (K : event -> Prop) (m : M A) : Prop :=
  forall p,
    spgNftContract (snd (m p)) = spgNftContract p
    /\ clock (snd (m p)) = clock p
    /\ exists evs, history (snd (m p)) = history p ++ evs /\ Forall K evs.

(** ** Resolving the depth metadata *)

Definition placeholder (req : Request) : value :=
  VObj [("metadataCid"%string, metadataCid req)].

Definition no_depth_note : value :=
  VObj [("note", VStr "No depth metadata provided")]%string.

(** What the handler makes of a payload the gateway served. *)
Definition extractDepth (req : Request) (fullMetadata : value) : value :=
  match get fullMetadata "data" with
  | Throw _ => placeholder req
  | Ok data =>
      if truthy data then
        match get data "depthData" with
        | Ok depthData => if truthy depthData then depthData else fullMetadata
        | Throw _ => placeholder req
        end
      else fullMetadata
  end.

Definition or_note (v : value) : value := if truthy v then v else no_depth_note.

Definition fetch_needed (req : Request) : bool :=
  truthy (metadataCid req) && negb (truthy (depthMetadata req)).

(** The runs of [resolveDepthMetadata]: the calls made, the result, the
    process left. *)
Inductive resolution (req : Request) (p : Process)
  : list event -> outcome value -> Process -> Prop :=
| res_inline :
    truthy (depthMetadata req) = true ->
    resolution req p [] (Ok (depthMetadata req)) p
| res_absent :
    truthy (metadataCid req) = false -> truthy (depthMetadata req) = false ->
    resolution req p [] (Ok no_depth_note) p
| res_unprintable e :
    fetch_needed req = true -> ToString (metadataCid req) = Throw e ->
    resolution req p [] (Throw e) p
| res_fetched url resp :
    fetch_needed req = true ->
    axios_get w (history p) url = Resolved resp ->
    resolution req p [StorageFetch url (Resolved resp)]
               (Ok (or_note (extractDepth req (snd resp))))
               (record (StorageFetch url (Resolved resp)) p)
| res_fallback url e :
    fetch_needed req = true ->
    axios_get w (history p) url = Rejected e ->
    resolution req p [StorageFetch url (Rejected e)]
               (Ok (placeholder req))
               (record (StorageFetch url (Rejected e)) p).

(** ** Publishing *)

Definition upload_failure (e : error) : error :=
  Error ("Failed to upload JSON to IPFS: " +++ message e).

(** What an upload returns, from what the pinning service answered. *)
Definition upload_outcome (r : reply http_response) : outcome value :=
  match r with
  | Rejected e => Throw (upload_failure e)
  | Resolved resp =>
      match get (snd resp) "IpfsHash" with
      | Throw e => Throw (upload_failure e)
      | Ok ipfsHash =>
          match ToString ipfsHash with
          | Throw e => Throw (upload_failure e)
          | Ok _ => Ok ipfsHash
          end
      end
  end.

Definition publish (doc : value) (r : reply http_response) : event :=
  StoragePublish pinJSONToIPFS doc r.

(** ** Provisioning the collection *)

Definition cache (handle : value) (p : Process) : Process :=
  mkProcess handle (history p) (clock p).

(** The runs of [getOrCreateCollection]. *)
Inductive provision (p : Process) : list event -> outcome value -> Process -> Prop :=
| provision_cached :
    truthy (spgNftContract p) = true ->
    provision p [] (Ok (spgNftContract p)) p
| provision_created c :
    truthy (spgNftContract p) = false ->
    createNFTCollection w (history p) = Resolved c ->
    provision p [ChainCreateCollection (Resolved c)]
              (Ok (opt_value (collection_spgNftContract c)))
              (cache (opt_value (collection_spgNftContract c))
                     (record (ChainCreateCollection (Resolved c)) p))
| provision_failed e :
    truthy (spgNftContract p) = false ->
    createNFTCollection w (history p) = Rejected e ->
    provision p [ChainCreateCollection (Rejected e)] (Throw e)
              (record (ChainCreateCollection (Rejected e)) p).

(** ** The documents and the registration *)

(** The content identifier the media fields point to. *)
Definition media_id (req : Request) : value :=
  if truthy (metadataCid req) then metadataCid req else imageCid req.

(** The hash and media-type fields of the object handed to
    [generateIpMetadata]. *)
Definition asset_fields (req : Request) (fields : value) : Prop :=
  exists cid mid fs,
    imageCid req = VStr cid /\ media_id req = VStr mid /\ fields = VObj fs
    /\ lookup "imageHash" fs = Some (VStr ("0x" +++ SHA256.hex cid))
    /\ lookup "mediaHash" fs = Some (VStr ("0x" +++ SHA256.hex mid))
    /\ lookup "mediaType" fs
       = Some (VStr (if truthy (metadataCid req) then "application/json"
                     else "image/jpeg")).

(** A document built by [nftMetadataFields] for the request. *)
Definition collectible_document (req : Request) (nftMetadata : value) : Prop :=
  exists imageHttpUrl metadataHttpUrl q q',
    nftMetadataFields w req imageHttpUrl metadataHttpUrl q = (Ok nftMetadata, q').

(** The argument of the registration call, from the collection, the
    resolved terms and the two published documents. *)
Definition registration_args (nft : value) (fee : Z) (rev : number)
    (ipMetadata nftMetadata : value) (args : RegisterRequest) : Prop :=
  exists s1 s2,
    JSON_stringify ipMetadata = Some s1 /\ JSON_stringify nftMetadata = Some s2
    /\ nft_spgNftContract args = nft
    /\ terms_commercialRevShare args = rev
    /\ terms_defaultMintingFee args = fee
    /\ ipMetadataHash args = "0x" +++ SHA256.hex s1
    /\ nftMetadataHash args = "0x" +++ SHA256.hex s2.

Definition explorerUrl (resp : Registration) : string :=
  "https://aeneid.explorer.story.foundation/ipa/" +++ optional_string (ipId resp).

Definition success (data : value) (t : Z) : Response :=
  mkResponse 200
    (VObj [ ("success", VBool true); ("data", data);
            ("timestamp", VStr (toISOString t)) ]%string).

Definition failure (e : error) (t : Z) : Response :=
  mkResponse 500
    (VObj [ ("success", VBool false); ("error", VStr (message e));
            ("timestamp", VStr (toISOString t)) ]%string).

Definition missing_fields : Response :=
  mkResponse 400
    (VObj [ ("error", VStr "Missing required fields");
            ("required", VArr [VStr "imageCid"; VStr "deviceAddress"]) ]%string).

Definition share_out_of_range (provided : number) : Response :=
  mkResponse 400
    (VObj [ ("error", VStr "Commercial revenue share must be between 0 and 100");
            ("provided", VNum provided) ]%string).

(** The runs of [registerValidated] from process [p]: the calls made, what
    it returns or throws, and the collection cache it leaves. *)
Inductive pipeline (req : Request) (fdm : value) (fee : Z) (rev : number) (p : Process)
  : list event -> outcome Response -> value -> Prop :=
| pl_unprintable e :
    pipeline req fdm fee rev p [] (Throw e) (spgNftContract p)
| pl_unprovisioned cre e q :
    provision p cre (Throw e) q ->
    pipeline req fdm fee rev p cre (Throw e) (spgNftContract q)
| pl_unbuilt cre nft q e :
    provision p cre (Ok nft) q ->
    pipeline req fdm fee rev p cre (Throw e) (spgNftContract q)
| pl_asset_unpublished cre nft q fields r e :
    provision p cre (Ok nft) q ->
    asset_fields req fields ->
    upload_outcome r = Throw e ->
    pipeline req fdm fee rev p
             (cre ++ [publish (generateIpMetadata w fields) r])
             (Throw e) (spgNftContract q)
| pl_collectible_unbuilt cre nft q fields r1 h1 e :
    provision p cre (Ok nft) q ->
    asset_fields req fields ->
    upload_outcome r1 = Ok h1 ->
    pipeline req fdm fee rev p
             (cre ++ [publish (generateIpMetadata w fields) r1])
             (Throw e) (spgNftContract q)
| pl_collectible_unpublished cre nft q fields r1 h1 nftMetadata r2 e :
    provision p cre (Ok nft) q ->
    asset_fields req fields ->
    upload_outcome r1 = Ok h1 ->
    collectible_document req nftMetadata ->
    upload_outcome r2 = Throw e ->
    pipeline req fdm fee rev p
             (cre ++ [publish (generateIpMetadata w fields) r1; publish nftMetadata r2])
             (Throw e) (spgNftContract q)
| pl_unhashed cre nft q fields r1 h1 nftMetadata r2 h2 e :
    provision p cre (Ok nft) q ->
    asset_fields req fields ->
    upload_outcome r1 = Ok h1 ->
    collectible_document req nftMetadata ->
    upload_outcome r2 = Ok h2 ->
    pipeline req fdm fee rev p
             (cre ++ [publish (generateIpMetadata w fields) r1; publish nftMetadata r2])
             (Throw e) (spgNftContract q)
| pl_unregistered cre nft q fields r1 h1 nftMetadata r2 h2 args e :
    provision p cre (Ok nft) q ->
    asset_fields req fields ->
    upload_outcome r1 = Ok h1 ->
    collectible_document req nftMetadata ->
    upload_outcome r2 = Ok h2 ->
    registration_args nft fee rev (generateIpMetadata w fields) nftMetadata args ->
    pipeline req fdm fee rev p
             (cre ++ [publish (generateIpMetadata w fields) r1; publish nftMetadata r2;
                      ChainRegister args (Rejected e)])
             (Throw e) (spgNftContract q)
| pl_registered cre nft q fields r1 h1 nftMetadata r2 h2 args resp recs
                imageHttpUrl metadataHttpUrl t :
    provision p cre (Ok nft) q ->
    asset_fields req fields ->
    upload_outcome r1 = Ok h1 ->
    collectible_document req nftMetadata ->
    upload_outcome r2 = Ok h2 ->
    registration_args nft fee rev (generateIpMetadata w fields) nftMetadata args ->
    Forall is_record recs ->
    pipeline req fdm fee rev p
             (cre ++ [publish (generateIpMetadata w fields) r1; publish nftMetadata r2;
                      ChainRegister args (Resolved resp)] ++ recs)
             (Ok (success (registrationResult w req resp nft imageHttpUrl metadataHttpUrl
                             fdm fee rev (explorerUrl resp)) t))
             (spgNftContract q).

(** The runs of the handler from process [p]: the calls made, the response
    sent, and the collection cache left. *)
Inductive handled (req : Request) (p : Process) : list event -> Response -> value -> Prop :=
| h_missing :
    truthy (imageCid req) && truthy (deviceAddress req) = false ->
    handled req p [] missing_fields (spgNftContract p)
| h_unresolved fetch o q e t :
    truthy (imageCid req) && truthy (deviceAddress req) = true ->
    resolveDepthMetadata w req p = (o, q) ->
    resolution req p fetch o q ->
    o = Throw e
    \/ resolveMintingFee w req = Throw e
    \/ resolveRevShare w req = Throw e ->
    handled req p fetch (failure e t) (spgNftContract p)
| h_out_of_range fetch fdm q fee rev :
    truthy (imageCid req) && truthy (deviceAddress req) = true ->
    resolveDepthMetadata w req p = (Ok fdm, q) ->
    resolution req p fetch (Ok fdm) q ->
    resolveMintingFee w req = Ok fee ->
    resolveRevShare w req = Ok rev ->
    out_of_range rev = true ->
    handled req p fetch (share_out_of_range rev) (spgNftContract p)
| h_aborted fetch fdm q fee rev evs e c t :
    truthy (imageCid req) && truthy (deviceAddress req) = true ->
    resolveDepthMetadata w req p = (Ok fdm, q) ->
    resolution req p fetch (Ok fdm) q ->
    resolveMintingFee w req = Ok fee ->
    resolveRevShare w req = Ok rev ->
    out_of_range rev = false ->
    pipeline req fdm fee rev q evs (Throw e) c ->
    handled req p (fetch ++ evs) (failure e t) c
| h_completed fetch fdm q fee rev evs res c :
    truthy (imageCid req) && truthy (deviceAddress req) = true ->
    resolveDepthMetadata w req p = (Ok fdm, q) ->
    resolution req p fetch (Ok fdm) q ->
    resolveMintingFee w req = Ok fee ->
    resolveRevShare w req = Ok rev ->
    out_of_range rev = false ->
    pipeline req fdm fee rev q evs (Ok res) c ->
    handled req p (fetch ++ evs) res c.

(** 1 when a handle is cached, 0 when none is. *)
Definition flag (b : bool) : nat := if b then 1%nat else 0%nat.

(** A field of the [data] object of a response. *)
Definition echoed (res : Response) (k : string) : value :=
  field (field (body res) "data") k.

(** A request that nothing but the revenue share can stop before the range
    check: the two required fields are there, the metadata identifier (when
    it has to be fetched) converts to a string, and the minting fee
    resolves. *)
Definition otherwise_valid (req : Request) : Prop :=
  truthy (imageCid req) && truthy (deviceAddress req) = true
  /\ (fetch_needed req = true -> exists s, ToString (metadataCid req) = Ok s)
  /\ exists fee, resolveMintingFee w req = Ok fee.

(** The handler's [try] from the resolution of the terms on, once
    [finalDepthMetadata] has its value. *)
Definition afterResolution (req : Request) (finalDepthMetadata : value) : M Response :=
  finalMintingFee <- lift (resolveMintingFee w req) ;;
  finalRevShare <- lift (resolveRevShare w req) ;;
  if out_of_range finalRevShare then ret (share_out_of_range finalRevShare)
  else registerValidated w req finalDepthMetadata finalMintingFee finalRevShare.

End Shapes.

(* ================================================================== *)
(** * Start-up and the diagnostic script *)
(* ================================================================== *)

Section Startup.

Local Open Scope string_scope.

(** [process.env]: the value of a variable, when it is set. *)
Definition Environment : Type := string -> option string.

(** [a || b] on two values that are strings or [undefined]. *)
Definition or_else (a b : option string) : option string :=
  if env_truthy a then a else b.

(** [process.env.NAME || "default"] *)
Definition env_or (v : option string) (default : string) : string :=
  match or_else v (Some default) with
  | Some s => s
  | None => default
  end.

(** Ensure private key has 0x prefix *)
Definition formatPrivateKey (PRIVATE_KEY : string) : string :=
  if String.prefix "0x" PRIVATE_KEY then PRIVATE_KEY else "0x" +++ PRIVATE_KEY.

(** What the server holds once the top of the file has run. *)
Record Startup : Type := mkStartup {
  PORT : value;
  settings : Config;
  RPC_URL : string;
  CHAIN_ID : string;
  formattedPrivateKey : string
}.

(** The top of the server file, lines 17 to 69: [None] is
    [process.exit(1)], taken when [PRIVATE_KEY] is missing.  (The two
    credentials of the pinning service only go into request headers, which
    the events do not carry.) *)
Definition loadStartup (env : Environment) : option Startup :=
  match env "PRIVATE_KEY" with
  | Some PRIVATE_KEY =>
      if String.eqb PRIVATE_KEY EmptyString then None
      else
        Some (mkStartup
                (match or_else (env "PORT") None with
                 | Some port => VStr port
                 | None => VNum (Int 3003)
                 end)
                (mkConfig
                   (env_or (env "IPFS_GATEWAY") "https://gateway.pinata.cloud")
                   (env "SUPABASE_URL")
                   (or_else (env "SUPABASE_SERVICE_ROLE_KEY") (env "SUPABASE_ANON_KEY"))
                   (env_or (env "DEFAULT_MINTING_FEE") "0.1")
                   (parseInt_string (env_or (env "DEFAULT_COMMERCIAL_REV_SHARE") "10")))
                (env_or (env "RPC_URL") "https://aeneid.storyrpc.io")
                (env_or (env "CHAIN_ID") "aeneid")
                (formatPrivateKey PRIVATE_KEY))
  | None => None
  end.

End Startup.

(** ['k' in v], for the two column names the script looks for: a
    [TypeError] on anything that is not an object. *)
Definition has_property (k : string) (v : value) : outcome bool :=
  match v with
  | VObj fs => Ok (has_own k fs)
  | VArr _ => Ok false
  | _ => Throw (TypeError ("Cannot use 'in' operator to search for '" +++ k +++ "'")%string)
  end.

(** What the diagnostic script writes, one constructor for each group of
    console lines (the texts are not kept, but for the error message). *)
Inductive notice : Type :=
| UrlNotFound
| KeyNotFound
| CredentialsFound
| TestingConnection
| ConnectionSuccessful
| SampleRow
| BothColumnsExist
| ColumnNotFound (column : string)
| TableIsEmpty
| SetupLooksGood
| ConnectionFailed (msg : string).

Section Diagnostics.

Variable w : World.

Let cfg := config w.

Local Open Scope string_scope.

Definition checkUrlOf (base : string) : string :=
  base +++ "/rest/v1/images?select=wallet_address,image_cid,metadata_cid,ip,tx_hash&limit=1".

(** The inspection of the answer of the images table, inside the [try]:
    the notices written, and the error thrown if one is. *)
Definition inspect (data : value) : list notice * option error :=
  match (if truthy data
         then obind (get data "length") (fun len => gt w len (VNum (Int 0)))
         else Ok false) with
  | Throw e => ([], Some e)
  | Ok false => ([TableIsEmpty; SetupLooksGood], None)
  | Ok true =>
      let row := first data in
      match has_property "ip" row with
      | Throw e => ([SampleRow], Some e)
      | Ok hasIpColumn =>
          match has_property "tx_hash" row with
          | Throw e => ([SampleRow], Some e)
          | Ok hasTxHashColumn =>
              ((SampleRow
                :: (if hasIpColumn && hasTxHashColumn then [BothColumnsExist]
                    else (if negb hasIpColumn then [ColumnNotFound "ip"] else [])
                         ++ (if negb hasTxHashColumn then [ColumnNotFound "tx_hash"]
                             else []))
                ++ [SetupLooksGood])%list, None)
          end
      end
  end.

(** [checkSupabase] of check-supabase.js: what it writes and the process
    it leaves. *)
Definition checkSupabase (p : Process) : list notice * Process :=
  (* the credentials *)
  if negb (env_truthy (SUPABASE_URL cfg)) then ([UrlNotFound], p)
  else if negb (env_truthy (SUPABASE_KEY cfg)) then ([KeyNotFound], p)
  else
    (* the connection *)
    let url := checkUrlOf (optional_string (SUPABASE_URL cfg)) in
    let r := axios_get w (history p) url in
    let p' := record (RecordGet url r) p in
    match r with
    | Rejected error =>
        ([CredentialsFound; TestingConnection; ConnectionFailed (message error)], p')
    | Resolved response =>
        let (notices, thrown) := inspect (snd response) in
        (([CredentialsFound; TestingConnection; ConnectionSuccessful] ++ notices
          ++ match thrown with
             | Some error => [ConnectionFailed (message error)]
             | None => []
             end)%list, p')
    end.

(** ** The runs of the reconciler *)

(** [!SUPABASE_URL || !SUPABASE_KEY] *)
Definition credentials_missing : bool :=
  negb (env_truthy (SUPABASE_URL cfg)) || negb (env_truthy (SUPABASE_KEY cfg)).

(** The address of the rows of an image in the record store. *)
Definition imagesUrl (base cid suffix : string) : string :=
  base +++ "/rest/v1/images" +++ "?image_cid=eq." +++ cid +++ suffix.

Definition checkSuffix : string := "&select=wallet_address,image_cid,metadata_cid".

Definition verifySuffix : string := "&select=image_cid,ip,tx_hash".

(** [!data || data.length === 0] *)
Definition row_absent (data : value) : bool :=
  negb (truthy data)
  || match get data "length" with
     | Ok len => strict_eq len (VNum (Int 0))
     | Throw _ => false
     end.

(** [row.ip === ipUrl && row.tx_hash === txHash] on a row that is neither
    [undefined] nor [null]. *)
Definition row_confirms (row : value) (ipUrl : string) (txHash : value) : Prop :=
  exists ip tx,
    get row "ip" = Ok ip /\ strict_eq ip (VStr ipUrl) = true
    /\ get row "tx_hash" = Ok tx /\ strict_eq tx txHash = true.

(** The runs of [updateSupabaseWithIPData]: the calls made and what it
    returns or throws. *)
Inductive reconciliation (imageCid : value) (ipUrl : string) (txHash : value)
  : list event -> outcome value -> Prop :=
| rec_unconfigured :
    credentials_missing = true ->
    reconciliation imageCid ipUrl txHash [] (Ok VNull)
| rec_unprintable e :
    credentials_missing = false ->
    ToString imageCid = Throw e \/ ToString txHash = Throw e ->
    reconciliation imageCid ipUrl txHash [] (Throw e)
| rec_lookup_failed base cid e :
    credentials_missing = false ->
    SUPABASE_URL cfg = Some base -> ToString imageCid = Ok cid ->
    reconciliation imageCid ipUrl txHash
      [RecordGet (imagesUrl base cid checkSuffix) (Rejected e)] (Ok VNull)
| rec_absent base cid found :
    credentials_missing = false ->
    SUPABASE_URL cfg = Some base -> ToString imageCid = Ok cid ->
    row_absent (snd found) = true ->
    reconciliation imageCid ipUrl txHash
      [RecordGet (imagesUrl base cid checkSuffix) (Resolved found)] (Ok VNull)
| rec_patch_failed base cid found e :
    credentials_missing = false ->
    SUPABASE_URL cfg = Some base -> ToString imageCid = Ok cid ->
    row_absent (snd found) = false ->
    reconciliation imageCid ipUrl txHash
      [RecordGet (imagesUrl base cid checkSuffix) (Resolved found);
       RecordPatch (imagesUrl base cid EmptyString)
                   (VObj [("ip", VStr ipUrl); ("tx_hash", txHash)]%string) (Rejected e)]
      (Ok VNull)
| rec_verified base cid found patched r row :
    credentials_missing = false ->
    SUPABASE_URL cfg = Some base -> ToString imageCid = Ok cid ->
    row_absent (snd found) = false ->
    (row = VNull
     \/ exists verified, r = Resolved verified /\ row = first (snd verified)
                         /\ row_confirms row ipUrl txHash) ->
    reconciliation imageCid ipUrl txHash
      [RecordGet (imagesUrl base cid checkSuffix) (Resolved found);
       RecordPatch (imagesUrl base cid EmptyString)
                   (VObj [("ip", VStr ipUrl); ("tx_hash", txHash)]%string) (Resolved patched);
       RecordGet (imagesUrl base cid verifySuffix) r]
      (Ok row).

End Diagnostics.

(** ** The stages of a run *)

(** The calls of the four stages that follow the fetch: what each stage
    holds, and what a later stage says of an earlier one. *)
Definition staged (create pubs reg recs : list event) : Prop :=
  Forall is_create create /\ (List.length create <= 1)%nat
  /\ Forall is_publish pubs /\ (List.length pubs <= 2)%nat
  /\ Forall is_register reg /\ (List.length reg <= 1)%nat
  /\ Forall is_record recs
  /\ (reg <> [] -> List.length pubs = 2%nat)
  /\ (recs <> [] -> exists a r, reg = [ChainRegister a (Resolved r)]).

Section Registrations.

Variable w : World.

Let cfg := config w.

Local Open Scope string_scope.

(** The address the depth metadata is fetched from. *)
Definition fetchUrl (cid : string) : string := IPFS_GATEWAY cfg +++ "/ipfs/" +++ cid.

Definition pinataGateway : string := "https://gateway.pinata.cloud/ipfs/".

Definition ipfsIo : string := "https://ipfs.io/ipfs/".

(** A document the handler builds for the request and publishes: the
    asset document ([generateIpMetadata] of the fields of lines 327 to 351)
    or the collectible document (lines 358 to 374), both built with the two
    gateway addresses of lines 318 and 319. *)
Definition handler_document (req : Request) (doc : value) : Prop :=
  exists cid mid q q',
    imageCid req = VStr cid
    /\ media_id req = VStr mid
    /\ ((exists fields,
           ipMetadataFields w req (pinataGateway +++ mid) q = (Ok fields, q')
           /\ doc = generateIpMetadata w fields)
        \/ nftMetadataFields w req (pinataGateway +++ cid) (pinataGateway +++ mid) q
           = (Ok doc, q')).

(** How a run ends once the registration call has settled to [r]: the
    calls to the record store and what [registerValidated] returns. *)
Definition settlement (req : Request) (fdm : value) (fee : Z) (rev : number) (nft : value)
    (imageHttpUrl metadataHttpUrl : string) (r : reply Registration)
    (recs : list event) (o : outcome Response) : Prop :=
  match r with
  | Rejected e => recs = [] /\ o = Throw e
  | Resolved resp =>
      exists row t,
        reconciliation w (imageCid req) (explorerUrl resp) (opt_value (txHash resp))
                       recs (Ok row)
        /\ o = Ok (success (registrationResult w req resp nft imageHttpUrl metadataHttpUrl
                              fdm fee rev (explorerUrl resp)) t)
  end.

(** The runs of [registerValidated] that reach the registration call: the
    calls made from process [p] and what is returned or thrown. *)
Inductive registration_run (req : Request) (fdm : value) (fee : Z) (rev : number)
    (p : Process) : list event -> outcome Response -> Prop :=
| run_registration cre nft q cid imageHttpUrl metadataHttpUrl fields r1 h1 s1
                   nftMetadata r2 h2 s2 args r recs o :
    provision w p cre (Ok nft) q ->
    imageCid req = VStr cid ->
    imageHttpUrl = pinataGateway +++ cid ->
    (if truthy (metadataCid req)
     then exists m, metadataCid req = VStr m /\ metadataHttpUrl = pinataGateway +++ m
     else metadataHttpUrl = imageHttpUrl) ->
    asset_fields req fields ->
    handler_document req (generateIpMetadata w fields) ->
    upload_outcome r1 = Ok h1 -> ToString h1 = Ok s1 ->
    collectible_document w req nftMetadata ->
    handler_document req nftMetadata ->
    upload_outcome r2 = Ok h2 -> ToString h2 = Ok s2 ->
    registration_args nft fee rev (generateIpMetadata w fields) nftMetadata args ->
    ipMetadataURI args = ipfsIo +++ s1 ->
    nftMetadataURI args = ipfsIo +++ s2 ->
    settlement req fdm fee rev nft imageHttpUrl metadataHttpUrl r recs o ->
    registration_run req fdm fee rev p
      (cre ++ [publish (generateIpMetadata w fields) r1; publish nftMetadata r2;
               ChainRegister args r] ++ recs)%list
      o.

(** A run of [registerValidated] that throws before the registration: it
    has called the chain for the collection at most, and published documents
    it built. *)
Definition unfinished (req : Request) (evs : list event) (o : outcome Response) : Prop :=
  Forall (fun e => is_create e
                   \/ exists doc r, e = publish doc r /\ handler_document req doc) evs
  /\ exists e, o = Throw e.

(** What the handler sends for what its [try] returns or throws. *)
Definition answer (o : outcome Response) (res : Response) : Prop :=
  match o with
  | Ok r => res = r
  | Throw e => exists t, res = failure e t
  end.

(** The course of a run of the handler from process [p], step by step in
    the order of the source: the calls made and the response sent. *)
Definition course (req : Request) (p : Process) (evs : list event) (res : Response) : Prop :=
  if truthy (imageCid req) && truthy (deviceAddress req) then
    exists fetch o q,
      resolveDepthMetadata w req p = (o, q)
      /\ resolution w req p fetch o q
      /\ match o with
         | Throw e => evs = fetch /\ answer (Throw e) res
         | Ok fdm =>
             match resolveMintingFee w req with
             | Throw e => evs = fetch /\ answer (Throw e) res
             | Ok fee =>
                 match resolveRevShare w req with
                 | Throw e => evs = fetch /\ answer (Throw e) res
                 | Ok share =>
                     if out_of_range share
                     then evs = fetch /\ res = share_out_of_range share
                     else exists rest o',
                            evs = (fetch ++ rest)%list
                            /\ (unfinished req rest o'
                                \/ registration_run req fdm fee share q rest o')
                            /\ answer o' res
                 end
             end
         end
  else evs = [] /\ res = missing_fields.

End Registrations.

(** ** The provisioner, on both sides of its [await] *)

Section Provisioning.

Variable w : World.

(** What a call of [getOrCreateCollection] has decided when it reaches its
    [await]: it returns the cached handle, or it has issued the creation
    call and is suspended until that settles. *)
Inductive provisioning : Type :=
| Cached (handle : value)
| Creating.

(** Lines 232 to 246: the test of the cache.  Nothing of the process
    changes. *)
Definition getOrCreateCollection_start (p : Process) : provisioning :=
  if truthy (spgNftContract p) then Cached (spgNftContract p) else Creating.

(** Lines 239 and 248 to 252, run when the creation call settles: the
    handle is written to the cache, whatever the cache holds by then. *)
Definition getOrCreateCollection_resume : M value :=
  newCollection <- await (createNFTCollection w) ChainCreateCollection ;;
  fun p' =>
    let created := opt_value (collection_spgNftContract newCollection) in
    (Ok created, mkProcess created (history p') (clock p')).

Definition getOrCreateCollection_finish (decided : provisioning) : M value :=
  match decided with
  | Cached handle => ret handle
  | Creating => getOrCreateCollection_resume
  end.

(** Two calls that overlap: the second tests the cache before the creation
    call of the first has settled; then the first is resumed, then the
    second. *)
Definition overlappingCalls (p : Process) : (outcome value * outcome value) * Process :=
  let first := getOrCreateCollection_start p in
  let second := getOrCreateCollection_start p in
  let (o1, p1) := getOrCreateCollection_finish first p in
  let (o2, p2) := getOrCreateCollection_finish second p1 in
  ((o1, o2), p2).

End Provisioning.

(* ================================================================== *)
(** * Scenarios: concrete worlds and requests *)
(* ================================================================== *)

Module Scenario.

Local Open Scope string_scope.

Definition cfg : Config :=
  mkConfig "https://gateway.pinata.cloud" (Some "https://db.example.co")
           (Some "service-role-key") "1" (Int 10).

(** viem's answers on the fees the scenarios use. *)
Definition parse_ether (s : string) : outcome Z :=
  if String.eqb s "1" then Ok (10 ^ 18)
  else if String.eqb s "2" then Ok (2 * 10 ^ 18)
  else Throw (Error ("Number " +++ dquote +++ s +++ dquote +++ " is not a valid decimal number.")).

(** Exact on the whole numbers of tokens the scenarios use. *)
Definition whole_tokens (wei : Z) : value := VNum (Int (wei / 10 ^ 18)).

Definition clock_from (t0 : Z) (n : nat) : Z := t0 + Z.of_nat n.

Definition count_publishes (h : list event) : nat :=
  List.length (filter (fun e => match e with StoragePublish _ _ _ => true | _ => false end) h).

Definition count_patches (h : list event) : nat :=
  List.length (filter (fun e => match e with RecordPatch _ _ _ => true | _ => false end) h).

(** The pinning service answers with a fresh identifier. *)
Definition pin (h : list event) (url : string) (doc : value) : reply http_response :=
  Resolved (200, VObj [("IpfsHash", VStr ("QmDoc" +++ decimal (Z.of_nat (count_publishes h))))]).

Definition pin_down (h : list event) (url : string) (doc : value) : reply http_response :=
  Rejected (mkError "Request failed with status code 500" (Some (500, VStr "down"))).

Definition depth_payload : value :=
  VObj [("data", VObj [("depthData", VObj [("points", VNum (Int 7))])])].

(** The gateway serves [depth_payload]; the record store holds one row,
    which shows the values last written to it. *)
Definition gateway_and_store (ip tx : value) (h : list event) (url : string)
  : reply http_response :=
  if String.prefix "https://gateway.pinata.cloud/ipfs/" url then Resolved (200, depth_payload)
  else if (0 <? count_patches h)%nat
       then Resolved (200, VArr [VObj [("image_cid", VStr "Qimg1"); ("ip", ip); ("tx_hash", tx)]])
       else Resolved (200, VArr [VObj [("image_cid", VStr "Qimg1"); ("ip", VNull); ("tx_hash", VNull)]]).

Definition gateway_down (h : list event) (url : string) : reply http_response :=
  if String.prefix "https://gateway.pinata.cloud/ipfs/" url
  then Rejected (mkError "timeout of 30000ms exceeded" None)
  else Resolved (200, VArr []).

Definition patch_ok (h : list event) (url : string) (data : value) : reply http_response :=
  Resolved (200, VArr [data]).

Definition create_ok (h : list event) : reply Collection :=
  Resolved (mkCollection (Some "0xC011ec7104") (Some "0xc4ea7e")).

Definition register_ok (h : list event) (a : RegisterRequest) : reply Registration :=
  Resolved (mkRegistration (Some "0x1Pa55e7") (Some 42) (Some [7]) (Some "0x7a5c")).

(** Every collaborator answers. *)
Definition happy : World :=
  mkWorld cfg parse_ether (fun fields => fields) whole_tokens (fun _ _ => Ok false)
          (clock_from 1700000000000)
          (gateway_and_store (VStr "https://aeneid.explorer.story.foundation/ipa/0x1Pa55e7")
                             (VStr "0x7a5c"))
          pin patch_ok create_ok register_ok.

(** The gateway does not answer; the record store has no row. *)
Definition no_gateway : World :=
  mkWorld cfg parse_ether (fun fields => fields) whole_tokens (fun _ _ => Ok false)
          (clock_from 1700000000000) gateway_down pin patch_ok create_ok register_ok.

(** The pinning service refuses every upload. *)
Definition no_pinning : World :=
  mkWorld cfg parse_ether (fun fields => fields) whole_tokens (fun _ _ => Ok false)
          (clock_from 1700000000000)
          (gateway_and_store VNull VNull) pin_down patch_ok create_ok register_ok.

(** No metadata identifier, a fee of 2 tokens, a share of 15 percent. *)
Definition basic : Request :=
  mkRequest (VStr "Qimg1") VUndefined VUndefined (VStr "0xABC") (VStr "2") (VNum (Int 15)).

(** The same with a metadata identifier to fetch. *)
Definition with_metadata : Request :=
  mkRequest (VStr "Qimg1") (VStr "Qmeta1") VUndefined (VStr "0xABC") (VStr "2")
            (VNum (Int 15)).

(** A metadata identifier to fetch and a share of 101 percent. *)
Definition share_101 : Request :=
  mkRequest (VStr "Qimg1") (VStr "Qmeta1") VUndefined (VStr "0xABC") (VStr "2")
            (VNum (Int 101)).

(** Both an inline depth payload and a metadata identifier. *)
Definition both_supplied : Request :=
  mkRequest (VStr "Qimg1") (VStr "Qmeta1") (VObj [("points", VNum (Int 3))])
            (VStr "0xABC") (VStr "2") (VNum (Int 15)).

(** A share of exactly 100 percent. *)
Definition share_100 : Request :=
  mkRequest (VStr "Qimg1") VUndefined VUndefined (VStr "0xABC") (VStr "2") (VNum (Int 100)).

(** A share that does not parse as an integer. *)
Definition share_abc : Request :=
  mkRequest (VStr "Qimg1") VUndefined VUndefined (VStr "0xABC") (VStr "2") (VStr "abc").

End Scenario.

(* ================================================================== *)
(** * More scenarios: collaborators that fail or answer oddly *)
(* ================================================================== *)

Module Incident.

Local Open Scope string_scope.


Definition register_down (h : list event) (a : RegisterRequest) : reply Registration :=
  Rejected (mkError "execution reverted" None).

(** The pinning service answers 200 with a body that has no [IpfsHash]. *)
Definition pin_blank (h : list event) (url : string) (doc : value) : reply http_response :=
  Resolved (200, VObj [("status", VStr "queued")]).

(** The record store holds a row which no write changes. *)
Definition store_frozen (h : list event) (url : string) : reply http_response :=
  if String.prefix "https://gateway.pinata.cloud/ipfs/" url
  then Resolved (200, Scenario.depth_payload)
  else Resolved (200, VArr [VObj [("image_cid", VStr "Qimg1"); ("ip", VNull);
                                  ("tx_hash", VNull)]]).

(** The images table answers with rows that lack the [tx_hash] column. *)
Definition store_without_column (h : list event) (url : string) : reply http_response :=
  Resolved (200, VArr [VObj [("image_cid", VStr "Qimg1"); ("ip", VNull)]]).

(** Each creation returns a collection of its own. *)
Definition create_numbered (h : list event) : reply Collection :=
  Resolved (mkCollection (Some ("0xC011ec" +++ decimal (7100 + Z.of_nat (creations h))))
                         (Some "0xc4ea7e")).

(** The creation resolves without the address of the collection. *)
Definition create_blank (h : list event) : reply Collection :=
  Resolved (mkCollection None (Some "0xc4ea7e")).

Definition world_with (config : Config)
    (get : list event -> string -> reply http_response)
    (post : list event -> string -> value -> reply http_response)
    (create : list event -> reply Collection)
    (register : list event -> RegisterRequest -> reply Registration) : World :=
  mkWorld config Scenario.parse_ether (fun fields => fields) Scenario.whole_tokens
          (fun _ _ => Ok false) (Scenario.clock_from 1700000000000)
          get post Scenario.patch_ok create register.

Definition store : list event -> string -> reply http_response :=
  Scenario.gateway_and_store
    (VStr "https://aeneid.explorer.story.foundation/ipa/0x1Pa55e7") (VStr "0x7a5c").


(** The chain refuses the registration. *)
Definition no_registration : World :=
  world_with Scenario.cfg store Scenario.pin Scenario.create_ok register_down.

(** Every creation gives a new collection. *)
Definition numbered_collections : World :=
  world_with Scenario.cfg store Scenario.pin create_numbered Scenario.register_ok.

(** The creation is answered without an address. *)
Definition blank_collections : World :=
  world_with Scenario.cfg store Scenario.pin create_blank Scenario.register_ok.

(** The pinning service answers without an identifier. *)
Definition blank_pins : World :=
  world_with Scenario.cfg store pin_blank Scenario.create_ok Scenario.register_ok.

(** The record store does not take the write. *)
Definition frozen_store : World :=
  world_with Scenario.cfg store_frozen Scenario.pin Scenario.create_ok Scenario.register_ok.

(** No credentials of the record store in the environment. *)
Definition unconfigured : World :=
  world_with (mkConfig "https://gateway.pinata.cloud" None None "1" (Int 10))
             store Scenario.pin Scenario.create_ok Scenario.register_ok.

(** A default revenue share out of range in the environment. *)
Definition default_share_150 : World :=
  world_with (mkConfig "https://gateway.pinata.cloud" (Some "https://db.example.co")
                       (Some "service-role-key") "1" (Int 150))
             store Scenario.pin Scenario.create_ok Scenario.register_ok.

(** Another gateway in the environment. *)
Definition own_gateway : World :=
  world_with (mkConfig "https://ipfs.example.org" (Some "https://db.example.co")
                       (Some "service-role-key") "1" (Int 10))
             store Scenario.pin Scenario.create_ok Scenario.register_ok.

(** The images table lacks a column. *)
Definition missing_column : World :=
  world_with Scenario.cfg store_without_column Scenario.pin Scenario.create_ok
             Scenario.register_ok.

(** No revenue share and no minting fee in the request. *)
Definition no_terms : Request :=
  mkRequest (VStr "Qimg1") VUndefined VUndefined (VStr "0xABC") VUndefined VUndefined.

(** A minting fee of zero, as a number. *)
Definition fee_zero : Request :=
  mkRequest (VStr "Qimg1") VUndefined VUndefined (VStr "0xABC") (VNum (Int 0))
            (VNum (Int 15)).

(** A minting fee that is not a decimal number, and a share of 101. *)
Definition fee_abc : Request :=
  mkRequest (VStr "Qimg1") (VStr "Qmeta1") VUndefined (VStr "0xABC") (VStr "abc")
            (VNum (Int 101)).

(** An image identifier that is a number. *)
Definition numeric_cid : Request :=
  mkRequest (VNum (Int 7)) VUndefined VUndefined (VStr "0xABC") (VStr "2") (VNum (Int 15)).


Definition environment (vars : list (string * string)) : Environment :=
  fun name =>
    match find (fun kv => String.eqb (fst kv) name) vars with
    | Some kv => Some (snd kv)
    | None => None
    end.

End Incident.

(* ================================================================== *)
(** * The embedding on known values *)
(* ================================================================== *)

Example sha256_empty :
  SHA256.hex EmptyString
  = "e3b0c44298fc1c149afbf4c8996fb92427ae41e4649b934ca495991b7852b855"%string.
Proof. vm_compute. reflexivity. Qed.

Example sha256_abc :
  SHA256.hex "abc"
  = "ba7816bf8f01cfea414140de5dae2223b00361a396177a9cb410ff61f20015ad"%string.
Proof. vm_compute. reflexivity. Qed.

Example sha256_two_blocks :
  SHA256.hex "abcdbcdecdefdefgefghfghighijhijkijkljklmklmnlmnomnopnopq"
  = "248d6a61d20638b8e5c026930c3e6039a33ce45964ff2167f6ecedd419db06c1"%string.
Proof. vm_compute. reflexivity. Qed.

Example parseInt_samples :
  map parseInt
      [VStr "abc"; VStr "  -12px"; VStr "0x1f"; VNum (Int 101); VNum (Int (-1));
       VArr [VNum (Int 5)]; VObj []; VNull; VBool true; VStr "+"]%string
  = map Ok [NaN; Int (-12); Int 31; Int 101; Int (-1); Int 5; NaN; NaN; NaN; NaN].
Proof. vm_compute. reflexivity. Qed.

Example parseInt_throws :
  parseInt (VObj [("toString", VNum (Int 1))]%string)
  = Throw (TypeError "Cannot convert object to primitive value").
Proof. reflexivity. Qed.

Example stringify_sample :
  JSON_stringify
    (VObj [("a", VStr "x/y"); ("u", VUndefined);
           ("b", VArr [VUndefined; VNum NaN; VNum (Int (-3)); VBool true; VNull]);
           ("c", VObj [])]%string)
  = Some ("{" +++ quote "a" +++ ":" +++ quote "x/y" +++ ","
          +++ quote "b" +++ ":[null,null,-3,true,null],"
          +++ quote "c" +++ ":{}}").
Proof. vm_compute. reflexivity. Qed.

Example toISOString_samples :
  map toISOString [0; 951782400000; 1700000000123; -1]
  = ["1970-01-01T00:00:00.000Z"; "2000-02-29T00:00:00.000Z";
     "2023-11-14T22:13:20.123Z"; "1969-12-31T23:59:59.999Z"]%string.
Proof. vm_compute. reflexivity. Qed.

(** The first scenario of the design document: no metadata identifier, a
    fee of 2 tokens and a share of 15 percent. *)
Example basic_registration :
  status (fst (register_ip Scenario.happy Scenario.basic startup)) = 200
  /\ echoed (fst (register_ip Scenario.happy Scenario.basic startup)) "commercialRevShare"
     = VNum (Int 15)
  /\ echoed (fst (register_ip Scenario.happy Scenario.basic startup)) "explorerUrl"
     = VStr "https://aeneid.explorer.story.foundation/ipa/0x1Pa55e7"
  /\ echoed (fst (register_ip Scenario.happy Scenario.basic startup)) "depthMetadata"
     = VObj [("note", VStr "No depth metadata provided")]%string.
Proof. vm_compute. repeat split; reflexivity. Qed.

(** The second one: the gateway serves [{data: {depthData: ...}}]. *)
Example registration_with_metadata :
  echoed (fst (register_ip Scenario.happy Scenario.with_metadata startup)) "depthMetadata"
  = VObj [("points", VNum (Int 7))]%string.
Proof. vm_compute. reflexivity. Qed.

(* ================================================================== *)
(** * Reasoning about runs *)
(* ================================================================== *)

Section Runs.

Variable w : World.

(** ** Inversion of the monad *)

Lemma bind_inv {A B} (m : M A) (k : A -> M B) p o p' :
  bind m k p = (o, p') ->
  (exists a p1, m p = (Ok a, p1) /\ k a p1 = (o, p'))
  \/ (exists e, m p = (Throw e, p') /\ o = Throw e).
Proof.
  unfold bind. destruct (m p) as [[a | e] p1]; intros H.
  - left. eauto.
  - right. inversion H; subst. eauto.
Qed.

Lemma lift_inv {A} (x : outcome A) p o p' :
  lift x p = (o, p') -> o = x /\ p' = p.
Proof. unfold lift. intros H; inversion H; auto. Qed.

Lemma ret_inv {A} (a : A) p o p' :
  ret a p = (o, p') -> o = Ok a /\ p' = p.
Proof. unfold ret. intros H; inversion H; auto. Qed.

Lemma console_log_inv vs p o p' :
  console_log vs p = (o, p') -> p' = p.
Proof. unfold console_log. intros H. apply lift_inv in H. tauto. Qed.

Lemma console_log_ok v s p :
  ToString v = Ok s -> console_log [v] p = (Ok tt, p).
Proof. intros H. unfold console_log, lift. simpl. rewrite H. reflexivity. Qed.

Lemma console_log_throws v p e p' :
  console_log [v] p = (Throw e, p') -> ToString v = Throw e.
Proof.
  unfold console_log, lift. simpl. destruct (ToString v); simpl; intros H; inversion H.
  reflexivity.
Qed.

Lemma now_inv p o p' :
  now w p = (o, p') ->
  o = Ok (Date_now w (clock p))
  /\ spgNftContract p' = spgNftContract p /\ history p' = history p.
Proof. unfold now, read_clock. simpl. intros H; inversion H; subst; auto. Qed.

Lemma await_inv {A} (answer : list event -> reply A) ev p o p' :
  await answer ev p = (o, p') ->
  o = settle (answer (history p)) /\ p' = record (ev (answer (history p))) p.
Proof. unfold await. intros H; inversion H; auto. Qed.

Lemma tame_ret {A} K (a : A) : tame K (ret a).
Proof. intros p. simpl. repeat split. exists []. rewrite app_nil_r. auto. Qed.

Lemma tame_throw {A} K e : tame K (@throw A e).
Proof. intros p. simpl. repeat split. exists []. rewrite app_nil_r. auto. Qed.

Lemma tame_lift {A} K (o : outcome A) : tame K (lift o).
Proof. intros p. simpl. repeat split. exists []. rewrite app_nil_r. auto. Qed.

Lemma tame_console_log K vs : tame K (console_log vs).
Proof. apply tame_lift. Qed.

Lemma tame_await {A} (K : event -> Prop) (answer : list event -> reply A) ev :
  (forall r, K (ev r)) -> tame K (await answer ev).
Proof.
  intros HK p. simpl. repeat split. eexists. split; [reflexivity | auto].
Qed.

Lemma tame_bind {A B} K (m : M A) (k : A -> M B) :
  tame K m -> (forall a, tame K (k a)) -> tame K (bind m k).
Proof.
  intros Hm Hk p. unfold bind. specialize (Hm p).
  destruct (m p) as [[a | e] p1]; simpl in *.
  - destruct Hm as (Hs & Hc & evs & Hh & Hf).
    destruct (Hk a p1) as (Hs' & Hc' & evs' & Hh' & Hf').
    repeat split; try congruence.
    exists (evs ++ evs'). rewrite Hh', Hh, app_assoc. split; [reflexivity|].
    apply Forall_app; auto.
  - exact Hm.
Qed.

Lemma tame_try_catch {A} K (m : M A) (h : error -> M A) :
  tame K m -> (forall e, tame K (h e)) -> tame K (try_catch m h).
Proof.
  intros Hm Hh p. unfold try_catch. specialize (Hm p).
  destruct (m p) as [[a | e] p1]; simpl in *.
  - exact Hm.
  - destruct Hm as (Hs & Hc & evs & Hi & Hf).
    destruct (Hh e p1) as (Hs' & Hc' & evs' & Hi' & Hf').
    repeat split; try congruence.
    exists (evs ++ evs'). rewrite Hi', Hi, app_assoc. split; [reflexivity|].
    apply Forall_app; auto.
Qed.

Lemma tame_if {A} K (b : bool) (m1 m2 : M A) :
  tame K m1 -> tame K m2 -> tame K (if b then m1 else m2).
Proof. destruct b; auto. Qed.

Ltac tame_auto :=
  repeat first
    [ apply tame_ret | apply tame_throw | apply tame_lift | apply tame_console_log
    | apply tame_await; intros; simpl; exact Logic.I
    | apply tame_if
    | apply tame_bind; [| intros ?]
    | apply tame_try_catch; [| intros ?] ].

(** ** updateSupabaseWithIPData *)

Lemma updateSupabase_tame imageCid ipUrl txHash :
  tame is_record (updateSupabaseWithIPData w imageCid ipUrl txHash).
Proof.
  unfold updateSupabaseWithIPData. cbv zeta. tame_auto.
Qed.

(** With an image identifier and a transaction hash that convert to
    strings, the reconciler returns a value whatever the record store
    answers. *)
Lemma updateSupabase_returns imageCid ipUrl txHash s t p :
  ToString imageCid = Ok s -> ToString txHash = Ok t ->
  exists v, fst (updateSupabaseWithIPData w imageCid ipUrl txHash p) = Ok v.
Proof.
  intros Hs Ht. unfold updateSupabaseWithIPData.
  destruct (_ || _); [eexists; reflexivity|].
  unfold bind at 1. rewrite (console_log_ok _ _ _ Hs).
  unfold bind at 1. rewrite (console_log_ok (VStr ipUrl) ipUrl _ eq_refl).
  unfold bind at 1. rewrite (console_log_ok _ _ _ Ht).
  unfold try_catch.
  match goal with |- context [match ?m p with _ => _ end] => destruct (m p) as [[v | e] p1] end;
    eexists; reflexivity.
Qed.


(** ** resolveDepthMetadata *)

Lemma resolveDepthMetadata_spec req p :
  exists evs,
    resolution w req p evs (fst (resolveDepthMetadata w req p))
               (snd (resolveDepthMetadata w req p)).
Proof.
  unfold resolveDepthMetadata.
  destruct (truthy (depthMetadata req)) eqn:Hd.
  - rewrite andb_false_r. unfold bind, ret; simpl. rewrite Hd. simpl.
    eexists; apply res_inline; assumption.
  - destruct (truthy (metadataCid req)) eqn:Hm; simpl.
    2:{ unfold bind, ret; simpl. rewrite Hd. simpl. eexists; apply res_absent; assumption. }
    assert (Hn : fetch_needed req = true) by (unfold fetch_needed; rewrite Hm, Hd; reflexivity).
    destruct (ToString (metadataCid req)) as [s | e] eqn:Hs.
    2:{ unfold bind at 1. unfold bind at 1. unfold console_log, lift. simpl. rewrite Hs. simpl.
        eexists; apply res_unprintable; assumption. }
    unfold bind at 1. unfold bind at 1. rewrite (console_log_ok _ _ _ Hs).
    unfold fetchFromIPFS, try_catch, bind, lift, await, ret, throw. simpl. rewrite Hs. simpl.
    match goal with |- context [axios_get w (history p) ?u] => set (url := u) end.
    destruct (axios_get w (history p) url) as [resp | e] eqn:Hr; simpl.
    2:{ eexists; eapply res_fallback; eassumption. }
    destruct (get (snd resp) "data") as [data | e] eqn:E1; simpl;
      [destruct (truthy data) eqn:E2; simpl;
       [destruct (get data "depthData") as [dd | e] eqn:E3; simpl;
        [destruct (truthy dd) eqn:E4; simpl|]|]|];
      try destruct (truthy (snd resp)) eqn:E5; simpl.
    all: try rewrite E4; try rewrite E5; simpl.
    all: lazymatch goal with
      | |- exists _, resolution _ _ _ _ (Ok ?X) _ =>
          replace X with (or_note (extractDepth req (snd resp)));
          [ eexists; eapply res_fetched; eassumption
          | unfold or_note, extractDepth, placeholder, no_depth_note;
            rewrite ?E1, ?E2, ?E3, ?E4, ?E5; simpl; rewrite ?E4, ?E5; reflexivity ]
      end.
Qed.

(** ** uploadJSONToIPFS *)

Lemma uploadJSONToIPFS_run doc p :
  uploadJSONToIPFS w doc p
  = (upload_outcome (axios_post w (history p) pinJSONToIPFS doc),
     record (publish doc (axios_post w (history p) pinJSONToIPFS doc)) p).
Proof.
  unfold uploadJSONToIPFS, try_catch, bind, await, publish, upload_outcome.
  destruct (axios_post w (history p) pinJSONToIPFS doc) as [resp | e]; simpl; [| reflexivity].
  unfold lift. destruct (get (snd resp) "IpfsHash") as [h | e]; simpl; [| reflexivity].
  unfold console_log, lift. simpl.
  destruct (ToString h); reflexivity.
Qed.

Lemma uploadJSONToIPFS_inv doc p o p' :
  uploadJSONToIPFS w doc p = (o, p') ->
  exists r, o = upload_outcome r /\ p' = record (publish doc r) p.
Proof. rewrite uploadJSONToIPFS_run. intros H; inversion H; eauto. Qed.

Lemma upload_outcome_ok r h :
  upload_outcome r = Ok h -> exists s, ToString h = Ok s.
Proof.
  unfold upload_outcome. destruct r as [resp | e]; [| discriminate].
  destruct (get (snd resp) "IpfsHash") as [x | e]; [| discriminate].
  destruct (ToString x) as [s | e] eqn:Hs; [| discriminate].
  intros H; inversion H; subst. eauto.
Qed.

Lemma upload_outcome_throw r e :
  upload_outcome r = Throw e -> exists cause, e = upload_failure cause.
Proof.
  unfold upload_outcome. destruct r as [resp | e0].
  - destruct (get (snd resp) "IpfsHash") as [x | e1].
    + destruct (ToString x) as [s | e2]; intros H; inversion H; eauto.
    + intros H; inversion H; eauto.
  - intros H; inversion H; eauto.
Qed.

(** ** getOrCreateCollection *)

Lemma getOrCreateCollection_spec p :
  exists evs,
    provision w p evs (fst (getOrCreateCollection w p)) (snd (getOrCreateCollection w p)).
Proof.
  unfold getOrCreateCollection.
  destruct (truthy (spgNftContract p)) eqn:Hc.
  - eexists. simpl. apply provision_cached; assumption.
  - unfold bind, await.
    destruct (createNFTCollection w (history p)) as [c | e] eqn:Hr; simpl.
    + eexists. apply provision_created; assumption.
    + eexists. apply provision_failed; assumption.
Qed.

Lemma provision_history p evs o q :
  provision w p evs o q -> history q = history p ++ evs /\ clock q = clock p.
Proof.
  intros H; destruct H; simpl; rewrite ?app_nil_r; auto.
Qed.

(** ** The two documents *)

Lemma sha256_hex_inv v h : sha256_hex v = Ok h -> exists s, v = VStr s /\ h = SHA256.hex s.
Proof. destruct v; simpl; intros H; inversion H; eauto. Qed.

Ltac invert_run H :=
  repeat (apply bind_inv in H;
          destruct H as [(? & ? & ? & H) | (? & ? & ?)]; [| subst]).

Ltac settle_steps :=
  repeat match goal with
    | H : lift _ _ = (_, _) |- _ => apply lift_inv in H; destruct H as [? ?]; subst
    | H : ret _ _ = (_, _) |- _ => apply ret_inv in H; destruct H as [? ?]; subst
    | H : console_log _ _ = (_, _) |- _ => apply console_log_inv in H; subst
    | H : now _ _ = (_, _) |- _ => apply now_inv in H; destruct H as (? & ? & ?)
    end.

Lemma ipMetadataFields_inv req murl p o p' :
  ipMetadataFields w req murl p = (o, p') ->
  spgNftContract p' = spgNftContract p /\ history p' = history p
  /\ forall fields, o = Ok fields -> asset_fields req fields.
Proof.
  unfold ipMetadataFields. intros H. invert_run H; settle_steps.
  all: repeat split; try congruence.
  intros fields Hf. inversion Hf; subst; clear Hf.
  unfold asset_fields, media_id.
  destruct (truthy (metadataCid req)) eqn:Hm;
    repeat match goal with
      | H : Ok _ = sha256_hex _ |- _ =>
          symmetry in H; apply sha256_hex_inv in H; destruct H as (? & ? & ?); subst
      end;
    repeat match goal with
      | H1 : ?a = VStr ?x, H2 : ?a = VStr ?y |- _ =>
          assert (x = y) by congruence; subst y; clear H2
      end;
    do 3 eexists; repeat split; try eassumption; reflexivity.
Qed.

Lemma nftMetadataFields_inv req iurl murl p o p' :
  nftMetadataFields w req iurl murl p = (o, p') ->
  spgNftContract p' = spgNftContract p /\ history p' = history p.
Proof.
  unfold nftMetadataFields. intros H. invert_run H; settle_steps.
  all: split; congruence.
Qed.

Lemma documentHash_inv doc h :
  documentHash doc = Ok h -> exists s, JSON_stringify doc = Some s /\ h = SHA256.hex s.
Proof.
  unfold documentHash. destruct (JSON_stringify doc) as [s |]; simpl; intros H; inversion H.
  eauto.
Qed.

Lemma ToString_opt_value o : exists s, ToString (opt_value o) = Ok s.
Proof. destruct o; simpl; eauto. Qed.

Ltac close_history :=
  simpl in *;
  repeat match goal with
    | H : history _ = _ |- _ => rewrite H
    end;
  rewrite <- ?app_assoc; simpl; reflexivity.

Ltac step H a q H1 :=
  apply bind_inv in H; destruct H as [(a & q & H1 & H) | (a & H1 & ->)].

(* Closes an exit of the pipeline: the cache is the one provisioning left in
   [q], the shape is given by constructor [C]. *)
Ltac exit_with q C :=
  match goal with
  | |- exists evs, _ /\ pipeline _ _ _ _ _ _ _ _ ?c =>
      replace c with (spgNftContract q) by (simpl in *; congruence)
  end;
  eexists; split;
  [ close_history
  | eapply C;
    first [eassumption | symmetry; eassumption | do 4 eexists; eassumption] ].

Lemma registerValidated_spec req fdm fee rev p o p' :
  registerValidated w req fdm fee rev p = (o, p') ->
  exists evs,
    history p' = history p ++ evs
    /\ pipeline w req fdm fee rev p evs o (spgNftContract p').
Proof.
  unfold registerValidated. intros H.
  step H u1 p1 L1.
  2:{ apply console_log_inv in L1; subst. exists []. rewrite app_nil_r.
      split; [reflexivity | apply pl_unprintable]. }
  apply console_log_inv in L1; subst p1.
  step H u2 p2 L2.
  2:{ apply console_log_inv in L2; subst. exists []. rewrite app_nil_r.
      split; [reflexivity | apply pl_unprintable]. }
  apply console_log_inv in L2; subst p2.
  (* the collection *)
  destruct (getOrCreateCollection_spec p) as (cre & Hprov).
  step H nft q Hq; rewrite Hq in Hprov; simpl in Hprov;
    destruct (provision_history _ _ _ _ Hprov) as (Hhq & _).
  2:{ exists cre. split; [assumption | eapply pl_unprovisioned; eassumption]. }
  (* the asset document *)
  step H imageHttpUrl q1 L3; apply lift_inv in L3; destruct L3 as [L3 ->];
    [| exit_with q pl_unbuilt].
  step H metadataHttpUrl q1 L4; apply lift_inv in L4; destruct L4 as [L4 ->];
    [| exit_with q pl_unbuilt].
  step H fields q1 Hf; destruct (ipMetadataFields_inv _ _ _ _ _ Hf) as (Hs1 & Hh1 & Hfields);
    [| exit_with q pl_unbuilt].
  specialize (Hfields _ eq_refl).
  (* the first upload *)
  step H h1 q2 Hu1; apply uploadJSONToIPFS_inv in Hu1; destruct Hu1 as (r1 & Ho1 & ->);
    [| exit_with q pl_asset_unpublished].
  step H ipHash q2 L5; apply lift_inv in L5; destruct L5 as [L5 ->];
    [| exit_with q pl_collectible_unbuilt].
  (* the collectible document and the second upload *)
  step H nftMetadata q2 Hn; destruct (nftMetadataFields_inv _ _ _ _ _ _ Hn) as (Hs2 & Hh2);
    [| exit_with q pl_collectible_unbuilt].
  step H h2 q3 Hu2; apply uploadJSONToIPFS_inv in Hu2; destruct Hu2 as (r2 & Ho2 & ->);
    [| exit_with q pl_collectible_unpublished].
  step H nftHash q3 L6; apply lift_inv in L6; destruct L6 as [L6 ->];
    [| exit_with q pl_unhashed].
  step H u3 q3 L7; apply console_log_inv in L7; subst; [| exit_with q pl_unhashed].
  step H u4 q3 L8; apply console_log_inv in L8; subst; [| exit_with q pl_unhashed].
  step H ipUri q3 L9; apply lift_inv in L9; destruct L9 as [L9 ->]; [| exit_with q pl_unhashed].
  step H nftUri q3 L10; apply lift_inv in L10; destruct L10 as [L10 ->];
    [| exit_with q pl_unhashed].
  (* the registration *)
  assert (Hargs : registration_args nft fee rev (generateIpMetadata w fields) nftMetadata
                    (mkRegisterRequest nft rev fee ipUri ("0x" +++ ipHash) nftUri
                                       ("0x" +++ nftHash))).
  { symmetry in L5, L6. apply documentHash_inv in L5, L6.
    destruct L5 as (s1 & E1 & ->), L6 as (s2 & E2 & ->).
    exists s1, s2. repeat split; assumption. }
  step H resp q3 Hr; apply await_inv in Hr; destruct Hr as (Hr & ->).
  2:{ destruct (registerIpAsset w _ _) as [resp' | e'] eqn:Hreg; simpl in Hr; inversion Hr; subst.
      exit_with q pl_unregistered. }
  destruct (registerIpAsset w _ _) as [resp' | e'] eqn:Hreg; simpl in Hr; inversion Hr; subst resp'.
  (* the reconciliation *)
  match type of H with
  | bind (updateSupabaseWithIPData w ?i ?u ?t) _ ?s = _ =>
      pose proof (updateSupabase_tame i u t s) as (Hs3 & _ & recs & Hh3 & Hrecs);
      destruct Hfields as (cid & mid & fs & Hcid & Hrest);
      destruct (ToString_opt_value (txHash resp)) as (tx & Htx);
      assert (Hi : ToString i = Ok cid) by (rewrite Hcid; reflexivity);
      destruct (updateSupabase_returns i u t cid tx s Hi Htx) as (v & Hv)
  end.
  assert (Hfields : asset_fields req fields) by (exists cid, mid, fs; tauto).
  step H row q4 Hup.
  2:{ rewrite Hup in Hv. simpl in Hv. discriminate. }
  rewrite Hup in Hs3, Hh3. simpl in Hs3, Hh3.
  step H t q5 Ht; apply now_inv in Ht; destruct Ht as (Ht & Hs5 & Hh5); [| discriminate].
  apply ret_inv in H. destruct H as (-> & ->).
  match goal with
  | |- exists evs, _ /\ pipeline _ _ _ _ _ _ _ _ ?c =>
      replace c with (spgNftContract q) by (simpl in *; congruence)
  end.
  eexists; split.
  - rewrite Hh5, Hh3. simpl. rewrite Hh2. simpl. rewrite Hh1, Hhq.
    rewrite <- !app_assoc. simpl. reflexivity.
  - eapply pl_registered;
      first [eassumption | symmetry; eassumption | do 4 eexists; eassumption].
Qed.

Lemma resolution_history req p evs o q :
  resolution w req p evs o q ->
  history q = history p ++ evs /\ spgNftContract q = spgNftContract p
  /\ Forall is_fetch evs.
Proof.
  intros H; destruct H; simpl; rewrite ?app_nil_r; repeat split; auto;
    repeat constructor.
Qed.

Lemma register_ip_inv req p res p' :
  register_ip w req p = (res, p') ->
  exists evs,
    history p' = history p ++ evs /\ handled w req p evs res (spgNftContract p').
Proof.
  unfold register_ip.
  destruct (register_ip_try w req p) as [o p1] eqn:H. unfold register_ip_try in H.
  destruct (truthy (imageCid req) && truthy (deviceAddress req)) eqn:Hreq.
  2:{ replace (negb (truthy (imageCid req)) || negb (truthy (deviceAddress req))) with true in H
        by (destruct (truthy (imageCid req)), (truthy (deviceAddress req)); simpl in *; congruence).
      apply ret_inv in H. destruct H as (-> & ->). intros E; inversion E; subst.
      exists []. rewrite app_nil_r. split; [reflexivity | apply h_missing; assumption]. }
  replace (negb (truthy (imageCid req)) || negb (truthy (deviceAddress req))) with false in H
    by (destruct (truthy (imageCid req)), (truthy (deviceAddress req)); simpl in *; congruence).
  destruct (resolveDepthMetadata_spec req p) as (fetch & Hres).
  step H fdm q Hrun; rewrite Hrun in Hres; simpl in Hres;
    destruct (resolution_history _ _ _ _ _ Hres) as (Hh & Hs & _).
  2:{ simpl. intros E; inversion E; subst; simpl. exists fetch. split; [assumption |].
      rewrite Hs. eapply h_unresolved; eauto. }
  step H fee q1 Hfee; apply lift_inv in Hfee; destruct Hfee as (Hfee & ->).
  2:{ simpl. intros E; inversion E; subst; simpl. exists fetch. split; [assumption |].
      rewrite Hs. eapply h_unresolved; eauto. }
  step H share q1 Hrev; apply lift_inv in Hrev; destruct Hrev as (Hrev & ->).
  2:{ simpl. intros E; inversion E; subst; simpl. exists fetch. split; [assumption |].
      rewrite Hs. eapply h_unresolved; eauto. }
  destruct (out_of_range share) eqn:Hrange.
  { apply ret_inv in H. destruct H as (-> & ->). intros E; inversion E; subst.
    exists fetch. split; [assumption |].
    rewrite Hs. eapply h_out_of_range; eauto. }
  destruct (registerValidated_spec _ _ _ _ _ _ _ H) as (evs & Hh' & Hpl).
  destruct o as [r | e]; simpl; intros E; inversion E; subst; simpl;
    exists (fetch ++ evs); (split; [rewrite Hh', Hh, app_assoc; reflexivity |]).
  - eapply h_completed; eauto.
  - eapply h_aborted; eauto.
Qed.

(** Every run of the handler has one of the shapes of [handled]. *)
Lemma register_ip_spec req p :
  exists evs,
    history (snd (register_ip w req p)) = history p ++ evs
    /\ handled w req p evs (fst (register_ip w req p))
               (spgNftContract (snd (register_ip w req p))).
Proof.
  destruct (register_ip w req p) as [res p'] eqn:H. apply register_ip_inv in H. exact H.
Qed.

Lemma calls_spec req p :
  history (snd (register_ip w req p)) = history p ++ calls w req p.
Proof.
  destruct (register_ip_spec req p) as (evs & Hh & _).
  unfold calls. rewrite Hh.
  rewrite skipn_app, Nat.sub_diag, skipn_all. reflexivity.
Qed.

(** The shape of the run, in terms of the calls it made. *)
Lemma register_ip_shape req p :
  handled w req p (calls w req p) (fst (register_ip w req p))
          (spgNftContract (snd (register_ip w req p))).
Proof.
  destruct (register_ip_spec req p) as (evs & Hh & Hhandled).
  replace (calls w req p) with evs; [assumption |].
  pose proof (calls_spec req p) as Hc. rewrite Hh in Hc.
  apply app_inv_head in Hc. assumption.
Qed.

Lemma provision_events p cre o q :
  provision w p cre o q ->
  Forall is_create cre /\ (truthy (spgNftContract p) = true -> cre = []).
Proof.
  intros H; destruct H; split; repeat constructor; congruence.
Qed.

Lemma resolution_events req p evs o q :
  resolution w req p evs o q -> Forall is_fetch evs.
Proof. intros H. apply resolution_history in H. tauto. Qed.

End Runs.

(** An event of a list all of whose events are of kind [K] is of kind [K]. *)
Lemma kind_of_member (K : event -> Prop) evs x : Forall K evs -> In x evs -> K x.
Proof. intros F H. rewrite Forall_forall in F. auto. Qed.

(* Splits a membership in a concatenation of stages, and discards the
   stages whose events are all of another kind. *)
Ltac member_cases H :=
  repeat (apply in_app_or in H; destruct H as [H | H]);
  try (match type of H with
       | In _ ?l =>
           match goal with
           | F : Forall _ l |- _ => exfalso; exact (kind_of_member _ _ _ F H)
           end
       end);
  simpl in H;
  repeat (destruct H as [H | H]; [try discriminate H |]);
  try contradiction.

(** ** Consequences of the shapes *)

Section Consequences.

Variable w : World.

Ltac forget_provision :=
  repeat match goal with
    | Hv : provision _ _ _ _ _ |- _ => apply provision_events in Hv; destruct Hv as [Hv _]
    end.

(** After the resolution stage the gateway is not called again. *)
Lemma pipeline_no_fetch req fdm fee share p evs o c :
  pipeline w req fdm fee share p evs o c ->
  forall url r, ~ In (StorageFetch url r) evs.
Proof.
  intros Hp url r Hin.
  inversion Hp; subst; forget_provision; member_cases Hin.
Qed.

(** What a 200 response tells about the run. *)
Lemma success_inv req p :
  status (fst (register_ip w req p)) = 200 ->
  exists fetch fdm q fee share evs,
    resolveDepthMetadata w req p = (Ok fdm, q)
    /\ resolution w req p fetch (Ok fdm) q
    /\ resolveMintingFee w req = Ok fee
    /\ resolveRevShare w req = Ok share
    /\ out_of_range share = false
    /\ calls w req p = fetch ++ evs
    /\ pipeline w req fdm fee share q evs (Ok (fst (register_ip w req p)))
                (spgNftContract (snd (register_ip w req p))).
Proof.
  intros H200.
  pose proof (register_ip_shape w req p) as Hshape.
  remember (calls w req p) as evs eqn:Hevs in *.
  remember (fst (register_ip w req p)) as res eqn:Hres in *.
  remember (spgNftContract (snd (register_ip w req p))) as c eqn:Hc in *.
  clear Hevs Hres Hc.
  destruct Hshape;
    try (unfold missing_fields, failure, share_out_of_range in H200; simpl in H200;
         discriminate H200).
  do 6 eexists. repeat split; eassumption.
Qed.

(** What a successful run echoes. *)
Lemma pipeline_echo req fdm fee share p evs res c :
  pipeline w req fdm fee share p evs (Ok res) c ->
  echoed res "depthMetadata" = fdm
  /\ echoed res "commercialRevShare" = VNum share
  /\ status res = 200.
Proof.
  intros Hp. inversion Hp; subst. repeat split.
Qed.

(** The registration call of a run, and the two documents published
    before it. *)
Lemma pipeline_register req fdm fee share p evs o c a r :
  pipeline w req fdm fee share p evs o c ->
  In (ChainRegister a r) evs ->
  exists nft fields nftMetadata r1 r2,
    asset_fields req fields
    /\ collectible_document w req nftMetadata
    /\ registration_args nft fee share (generateIpMetadata w fields) nftMetadata a
    /\ In (publish (generateIpMetadata w fields) r1) evs
    /\ In (publish nftMetadata r2) evs.
Proof.
  intros Hp Hin.
  inversion Hp; subst; forget_provision; member_cases Hin;
    inversion Hin; subst;
    do 5 eexists; (split; [eassumption |]); (split; [eassumption |]);
    (split; [eassumption |]);
    split; apply in_or_app; right; simpl; eauto.
Qed.

(** The asset document is the first thing a run publishes. *)
Lemma pipeline_publish req fdm fee share p evs o c doc r :
  pipeline w req fdm fee share p evs o c ->
  In (publish doc r) evs ->
  exists fields r1,
    asset_fields req fields /\ In (publish (generateIpMetadata w fields) r1) evs.
Proof.
  intros Hp Hin.
  inversion Hp; subst; forget_provision; member_cases Hin;
    do 2 eexists; (split; [eassumption |]);
    apply in_or_app; right; simpl; eauto.
Qed.

(** The calls of a run that got past validation. *)
Lemma calls_inv req p x :
  In x (calls w req p) ->
  is_fetch x
  \/ exists fetch fdm q fee share evs o c,
       resolution w req p fetch (Ok fdm) q
       /\ resolveMintingFee w req = Ok fee
       /\ resolveRevShare w req = Ok share
       /\ out_of_range share = false
       /\ calls w req p = fetch ++ evs
       /\ pipeline w req fdm fee share q evs o c
       /\ In x evs.
Proof.
  intros Hin.
  pose proof (register_ip_shape w req p) as Hshape.
  remember (calls w req p) as evs eqn:Hevs in *.
  remember (fst (register_ip w req p)) as res eqn:Hres in *.
  remember (spgNftContract (snd (register_ip w req p))) as c eqn:Hc in *.
  clear Hevs Hres Hc.
  destruct Hshape as [ | fetch o q e t ? ? Hr ? | fetch fdm q fee share ? ? Hr ? ? ?
                       | fetch fdm q fee share evs e c t ? ? Hr ? ? ? Hp
                       | fetch fdm q fee share evs res c ? ? Hr ? ? ? Hp ];
    try (pose proof (resolution_events _ _ _ _ _ _ Hr) as Hfetch).
  - contradiction.
  - left. eapply kind_of_member; eassumption.
  - left. eapply kind_of_member; eassumption.
  - apply in_app_or in Hin. destruct Hin as [Hin | Hin].
    + left. eapply kind_of_member; eassumption.
    + right. exists fetch, fdm, q, fee, share, evs, (Throw e), c. repeat split; assumption.
  - apply in_app_or in Hin. destruct Hin as [Hin | Hin].
    + left. eapply kind_of_member; eassumption.
    + right. exists fetch, fdm, q, fee, share, evs, (Ok res), c. repeat split; assumption.
Qed.

End Consequences.

(** ** The collection cache over the life of the process *)

Section Cache.

Variable w : World.

Lemma creations_app a b : creations (a ++ b) = (creations a + creations b)%nat.
Proof. unfold creations. rewrite filter_app, length_app. reflexivity. Qed.

Lemma handles_created_app a b :
  handles_created (a ++ b) = (handles_created a + handles_created b)%nat.
Proof. unfold handles_created. rewrite filter_app, length_app. reflexivity. Qed.

Lemma creations_none evs : Forall (fun e => ~ is_create e) evs -> creations evs = 0%nat.
Proof.
  induction 1 as [| e evs He _ IH]; [reflexivity |].
  unfold creations in *. simpl. destruct e; simpl in *; try assumption. tauto.
Qed.

Lemma handles_le_creations evs : (handles_created evs <= creations evs)%nat.
Proof.
  unfold handles_created, creations.
  induction evs as [| e evs IH]; simpl; [lia |].
  destruct e as [| | [c | e] | | |]; simpl; try assumption;
    try destruct (collection_spgNftContract c) as [s |]; simpl;
    try destruct (negb (String.eqb s EmptyString)); simpl; lia.
Qed.

(** What provisioning does to the cache and to the count of creations. *)
Lemma provision_cache p cre o q :
  provision w p cre o q ->
  (handles_created cre + flag (truthy (spgNftContract p)))%nat
  = flag (truthy (spgNftContract q))
  /\ (creations cre <= 1)%nat
  /\ (truthy (spgNftContract p) = true -> cre = [] /\ q = p)
  /\ forall nft, o = Ok nft -> nft = spgNftContract q.
Proof.
  intros H; destruct H as [Hc | c Hc Hr | e Hc Hr]; simpl; rewrite ?Hc; simpl.
  - repeat split; auto. intros nft E; inversion E; reflexivity.
  - repeat split; try congruence; try (unfold creations, handles_created; simpl; lia);
      try (intros nft E; inversion E; reflexivity).
    unfold handles_created. simpl.
    destruct (collection_spgNftContract c) as [s |]; simpl; [| reflexivity].
    destruct (String.eqb s EmptyString); reflexivity.
  - repeat split; try congruence; try (unfold creations, handles_created; simpl; lia).
Qed.

Ltac no_creations :=
  apply creations_none;
  repeat (apply Forall_app; split);
  try (eapply Forall_impl; [| eassumption]; intros []; simpl; tauto);
  repeat constructor; simpl; tauto.

(** What a run of the pipeline does to the cache. *)
Lemma pipeline_cache req fdm fee share q evs o c :
  pipeline w req fdm fee share q evs o c ->
  (handles_created evs + flag (truthy (spgNftContract q)))%nat = flag (truthy c)
  /\ (creations evs <= 1)%nat
  /\ (truthy (spgNftContract q) = true -> c = spgNftContract q /\ creations evs = 0%nat)
  /\ forall res, o = Ok res -> echoed res "nftContract" = c.
Proof.
  assert (Hzero : forall l, creations l = 0%nat -> handles_created l = 0%nat).
  { intros l Hl. pose proof (handles_le_creations l). lia. }
  intros Hp.
  inversion Hp; subst;
    try match goal with
      | Hv : provision _ _ _ _ _ |- _ =>
          destruct (provision_cache _ _ _ _ Hv) as (Hflag & Hle & Hkept & Hnft)
      end;
    try rewrite handles_created_app, creations_app;
    try match goal with
      | |- context [(creations _ + creations ?rest)%nat] =>
          assert (Hrest : creations rest = 0%nat) by no_creations;
          rewrite Hrest, (Hzero _ Hrest), !Nat.add_0_r
      end;
    (split; [| split; [| split]]);
    try assumption;
    try (intros res E; discriminate E);
    try (intros Ht; try destruct (Hkept Ht) as [-> ->]; split; reflexivity);
    try (unfold creations, handles_created; simpl; lia).
  intros res E. inversion E; subst. unfold echoed, success. simpl.
  apply Hnft. reflexivity.
Qed.

(** What handling a request does to the cache. *)
Lemma register_ip_cache req p :
  (handles_created (calls w req p) + flag (truthy (spgNftContract p)))%nat
  = flag (truthy (spgNftContract (snd (register_ip w req p))))
  /\ (creations (calls w req p) <= 1)%nat
  /\ (truthy (spgNftContract p) = true ->
      spgNftContract (snd (register_ip w req p)) = spgNftContract p
      /\ creations (calls w req p) = 0%nat)
  /\ (status (fst (register_ip w req p)) = 200 ->
      echoed (fst (register_ip w req p)) "nftContract"
      = spgNftContract (snd (register_ip w req p))).
Proof.
  assert (Hzero : forall l, creations l = 0%nat -> handles_created l = 0%nat).
  { intros l Hl. pose proof (handles_le_creations l). lia. }
  pose proof (register_ip_shape w req p) as Hshape.
  remember (calls w req p) as evs eqn:Hevs in *.
  remember (fst (register_ip w req p)) as res eqn:Hres in *.
  remember (spgNftContract (snd (register_ip w req p))) as c eqn:Hc in *.
  clear Hevs Hres Hc.
  destruct Hshape as [ | fetch o q e t ? ? Hr ? | fetch fdm q fee share ? ? Hr ? ? ?
                       | fetch fdm q fee share evs e c t ? ? Hr ? ? ? Hp
                       | fetch fdm q fee share evs res c ? ? Hr ? ? ? Hp ];
    try (pose proof (resolution_history _ _ _ _ _ _ Hr) as (_ & Hcache & Hfetch);
         assert (Hnone : creations fetch = 0%nat) by no_creations).
  - split; [| split; [| split]];
      try reflexivity; try (unfold creations, handles_created; simpl; lia);
      try (intros _; split; reflexivity);
      try (unfold missing_fields; simpl; intros E; discriminate E).
  - rewrite (Hzero _ Hnone), Hnone.
    split; [| split; [| split]]; try reflexivity; try lia;
      try (intros _; split; reflexivity);
      try (unfold failure; simpl; intros E; discriminate E).
  - rewrite (Hzero _ Hnone), Hnone.
    split; [| split; [| split]]; try reflexivity; try lia;
      try (intros _; split; reflexivity);
      try (unfold share_out_of_range; simpl; intros E; discriminate E).
  - destruct (pipeline_cache _ _ _ _ _ _ _ _ Hp) as (Hflag & Hle & Hkept & _).
    rewrite handles_created_app, creations_app, (Hzero _ Hnone), Hnone. simpl.
    rewrite <- Hcache. split; [| split; [| split]]; try assumption;
      try (unfold failure; simpl; intros E; discriminate E).
  - destruct (pipeline_cache _ _ _ _ _ _ _ _ Hp) as (Hflag & Hle & Hkept & Hecho).
    rewrite handles_created_app, creations_app, (Hzero _ Hnone), Hnone. simpl.
    rewrite <- Hcache. split; [| split; [| split]]; try assumption;
      try (intros _; apply Hecho; reflexivity).
Qed.

Lemma serve_cons req reqs p :
  snd (serve w (req :: reqs) p) = snd (serve w reqs (snd (register_ip w req p))).
Proof.
  simpl. destruct (register_ip w req p) as [res p1]. simpl.
  destruct (serve w reqs p1) as [more p2]. reflexivity.
Qed.

(** Once a handle is cached, no later request changes it or creates a
    collection. *)
Lemma serve_keeps_cache reqs : forall p,
  truthy (spgNftContract p) = true ->
  spgNftContract (snd (serve w reqs p)) = spgNftContract p
  /\ creations (history (snd (serve w reqs p))) = creations (history p).
Proof.
  induction reqs as [| req reqs IH]; intros p Ht; [split; reflexivity |].
  rewrite serve_cons.
  destruct (register_ip_cache req p) as (_ & _ & Hkept & _).
  destruct (Hkept Ht) as (Hsame & Hnone).
  destruct (IH (snd (register_ip w req p))) as (Hc & Hn); [congruence |].
  split; [congruence |].
  rewrite Hn, (calls_spec w req p), creations_app, Hnone. lia.
Qed.

(** From start-up on, the history holds one handle-returning creation
    exactly when a handle is cached. *)
Lemma serve_invariant reqs : forall p,
  handles_created (history p) = flag (truthy (spgNftContract p)) ->
  handles_created (history (snd (serve w reqs p)))
  = flag (truthy (spgNftContract (snd (serve w reqs p)))).
Proof.
  induction reqs as [| req reqs IH]; intros p Hinv; [exact Hinv |].
  rewrite serve_cons. apply IH.
  destruct (register_ip_cache req p) as (Hflag & _).
  rewrite (calls_spec w req p), handles_created_app, Hinv. lia.
Qed.

End Cache.

(* ================================================================== *)
(** * More about the runs: the reconciler, the registration, the
      documents *)
(* ================================================================== *)

From Stdlib Require DecimalPos.

Local Open Scope string_scope.
Local Open Scope list_scope.

(** ** The order of the calls *)

(* Names the three components of the shape of a run. *)
Ltac shape_of w req p Hshape :=
  pose proof (register_ip_shape w req p) as Hshape;
  remember (calls w req p) as evs eqn:Hevs in *;
  remember (fst (register_ip w req p)) as res eqn:Hres in *;
  remember (spgNftContract (snd (register_ip w req p))) as c eqn:Hc in *;
  clear Hevs Hres Hc.

Lemma pipeline_stages w req fdm fee share q evs o c :
  pipeline w req fdm fee share q evs o c ->
  exists create pubs reg recs,
    evs = create ++ pubs ++ reg ++ recs /\ staged create pubs reg recs.
Proof.
  assert (Hcreate : forall q cre o q',
             provision w q cre o q' ->
             Forall is_create cre /\ (List.length cre <= 1)%nat).
  { intros q0 cre o0 q' Hv. destruct Hv; simpl; split; repeat constructor. }
  intros Hp. unfold staged.
  destruct Hp;
    try match goal with
      | Hv : provision _ _ _ _ _ |- _ => destruct (Hcreate _ _ _ _ Hv) as (Fc & Lc)
      end.
  - exists [], [], [], []. simpl. repeat split; auto; try lia; congruence.
  - exists cre, [], [], []. simpl. rewrite app_nil_r.
    repeat split; auto; try lia; congruence.
  - exists cre, [], [], []. simpl. rewrite app_nil_r.
    repeat split; auto; try lia; congruence.
  - eexists cre, [_], [], []. simpl.
    repeat split; auto; try lia; try congruence; repeat constructor.
  - eexists cre, [_], [], []. simpl.
    repeat split; auto; try lia; try congruence; repeat constructor.
  - eexists cre, [_; _], [], []. simpl.
    repeat split; auto; try lia; try congruence; repeat constructor.
  - eexists cre, [_; _], [], []. simpl.
    repeat split; auto; try lia; try congruence; repeat constructor.
  - eexists cre, [_; _], [_], []. simpl.
    repeat split; auto; try lia; try congruence; repeat constructor.
  - eexists cre, [_; _], [_], recs. simpl.
    repeat split; auto; try lia; try congruence; repeat constructor; eauto.
Qed.

(** ** The runs of the reconciler *)

Ltac stage H a q H1 :=
  apply bind_inv in H; destruct H as [(a & q & H1 & H) | (a & H1 & ->)].

Lemma console_log_printed v p u p' :
  console_log [v] p = (Ok u, p') -> exists s, ToString v = Ok s.
Proof.
  unfold console_log, lift. simpl. destruct (ToString v) as [s | e]; simpl.
  - intros _. exists s. reflexivity.
  - intros H. inversion H.
Qed.

Lemma configured_base (w : World) :
  negb (env_truthy (SUPABASE_URL (config w))) || negb (env_truthy (SUPABASE_KEY (config w)))
  = false ->
  exists base, SUPABASE_URL (config w) = Some base.
Proof.
  destruct (SUPABASE_URL (config w)) as [base |]; simpl.
  - intros _. exists base. reflexivity.
  - intros H. discriminate H.
Qed.

Lemma get_of_truthy v k : truthy v = true -> exists x, get v k = Ok x.
Proof.
  destruct v; simpl; intros H; try discriminate H.
  - eexists; reflexivity.
  - eexists; reflexivity.
  - destruct (String.eqb k "length"); eexists; reflexivity.
  - destruct (String.eqb k "length"); eexists; reflexivity.
  - destruct (lookup k fields); eexists; reflexivity.
Qed.

Lemma reconciliation_spec (w : World) imageCid ipUrl txHash p o p' :
  updateSupabaseWithIPData w imageCid ipUrl txHash p = (o, p') ->
  exists recs,
    history p' = history p ++ recs
    /\ reconciliation w imageCid ipUrl txHash recs o.
Proof.
  unfold updateSupabaseWithIPData. intros H.
  destruct (negb (env_truthy (SUPABASE_URL (config w)))
            || negb (env_truthy (SUPABASE_KEY (config w)))) eqn:Hc.
  { apply ret_inv in H. destruct H as (-> & ->). exists []. rewrite app_nil_r.
    split; [reflexivity | apply rec_unconfigured; exact Hc]. }
  destruct (configured_base w Hc) as (base & Hbase).
  stage H u1 p1 L1.
  2:{ pose proof (console_log_inv _ _ _ _ L1) as ->. apply console_log_throws in L1.
      exists []. rewrite app_nil_r. split; [reflexivity |].
      apply rec_unprintable; [exact Hc | left; exact L1]. }
  pose proof (console_log_inv _ _ _ _ L1) as ->.
  apply console_log_printed in L1. destruct L1 as (cid & Hcid).
  stage H u2 p2 L2; pose proof (console_log_inv _ _ _ _ L2) as ->.
  2:{ apply console_log_throws in L2. simpl in L2. discriminate L2. }
  stage H u3 p3 L3; pose proof (console_log_inv _ _ _ _ L3) as ->.
  2:{ apply console_log_throws in L3.
      exists []. rewrite app_nil_r. split; [reflexivity |].
      apply rec_unprintable; [exact Hc | right; exact L3]. }
  unfold try_catch in H.
  match type of H with
  | context [match ?m p with _ => _ end] => destruct (m p) as [ob q] eqn:Hbody
  end.
  assert (Hrun : exists recs,
             history q = history p ++ recs
             /\ reconciliation w imageCid ipUrl txHash recs
                  (Ok (match ob with Ok row => row | Throw _ => VNull end))).
  { clear H. rewrite Hbase in Hbody. simpl opt_value in Hbody.
    simpl template in Hbody. rewrite Hcid in Hbody. simpl obind in Hbody.
    stage Hbody checkUrl q1 B1; apply lift_inv in B1; destruct B1 as [B1 ->];
      [| discriminate B1].
    inversion B1; subst checkUrl; clear B1.
    stage Hbody found q1 B2; apply await_inv in B2; destruct B2 as (B2 & ->).
    2:{ destruct (axios_get w _ _) as [resp | e] eqn:Hget; simpl in B2; inversion B2; subst.
        eexists. split; [reflexivity |].
        apply (rec_lookup_failed w imageCid ipUrl txHash base cid); assumption. }
    destruct (axios_get w _ _) as [resp | e] eqn:Hget; simpl in B2; inversion B2; subst resp.
    assert (Habs : forall b s,
               (if negb (truthy (snd found)) then ret true
                else len <- lift (get (snd found) "length") ;;
                     ret (strict_eq len (VNum (Int 0)))) s = (Ok b, s)
               -> row_absent (snd found) = b).
    { intros b s. unfold row_absent.
      destruct (truthy (snd found)); simpl.
      - unfold bind, lift, ret. destruct (get (snd found) "length"); intros E; inversion E.
        reflexivity.
      - unfold ret. intros E. inversion E. reflexivity. }
    stage Hbody absent q1 B3.
    2:{ exfalso. destruct (truthy (snd found)) eqn:Htruthy; simpl in B3.
        - destruct (get_of_truthy _ "length" Htruthy) as (len & Hlen).
          unfold bind, lift, ret in B3. rewrite Hlen in B3. discriminate B3.
        - discriminate B3. }
    assert (q1 = record (RecordGet (imagesUrl base cid checkSuffix) (Resolved found)) p).
    { destruct (truthy (snd found)); simpl in B3.
      - unfold bind, lift, ret in B3.
        destruct (get (snd found) "length"); inversion B3. reflexivity.
      - inversion B3. reflexivity. }
    subst q1. apply Habs in B3.
    destruct absent.
    { apply ret_inv in Hbody. destruct Hbody as (-> & ->).
      eexists. split; [reflexivity |].
      apply (rec_absent w imageCid ipUrl txHash base cid); assumption. }
    stage Hbody updateUrl q2 B4; apply lift_inv in B4; destruct B4 as [B4 ->];
      [| discriminate B4].
    inversion B4; subst updateUrl; clear B4.
    stage Hbody patched q2 B5; apply await_inv in B5; destruct B5 as (B5 & ->).
    2:{ destruct (axios_patch w _ _ _) as [resp | e] eqn:Hpatch; simpl in B5;
          inversion B5; subst.
        eexists. split; [simpl; rewrite <- app_assoc; reflexivity |].
        apply (rec_patch_failed w imageCid ipUrl txHash base cid); assumption. }
    destruct (axios_patch w _ _ _) as [resp | e] eqn:Hpatch; simpl in B5;
      inversion B5; subst resp.
    stage Hbody verifyUrl q3 B6; apply lift_inv in B6; destruct B6 as [B6 ->];
      [| discriminate B6].
    inversion B6; subst verifyUrl; clear B6.
    assert (Hclose : forall r row,
               (row = VNull
                \/ exists verified, r = Resolved verified /\ row = first (snd verified)
                                    /\ row_confirms row ipUrl txHash) ->
               exists recs,
                 history (record (RecordGet (imagesUrl base cid verifySuffix) r)
                            (record (RecordPatch (imagesUrl base cid EmptyString)
                                       (VObj [("ip", VStr ipUrl); ("tx_hash", txHash)])
                                       (Resolved patched))
                               (record (RecordGet (imagesUrl base cid checkSuffix)
                                          (Resolved found)) p)))
                 = history p ++ recs
                 /\ reconciliation w imageCid ipUrl txHash recs (Ok row)).
    { intros r row Hrow. eexists. split; [simpl; rewrite <- !app_assoc; reflexivity |].
      apply (rec_verified w imageCid ipUrl txHash base cid found patched r row); assumption. }
    stage Hbody verified q3 B7; apply await_inv in B7; destruct B7 as (B7 & ->).
    2:{ apply Hclose. left. reflexivity. }
    match type of B7 with
    | context [settle ?r] => destruct r as [resp | e] eqn:Hverify
    end; simpl in B7; inversion B7; subst resp.
    match type of Hbody with
    | bind _ _ ?s = _ => remember s as q3 eqn:Hq3
    end.
    assert (Hkeep : forall (m : M bool) b s', m q3 = (b, s') ->
               m = (if truthy (snd verified)
                    then len <- lift (get (snd verified) "length") ;;
                         lift (gt w len (VNum (Int 0)))
                    else ret false) -> s' = q3).
    { intros m b s' E ->. destruct (truthy (snd verified)).
      - unfold bind, lift in E. destruct (get (snd verified) "length"); inversion E; reflexivity.
      - inversion E. reflexivity. }
    stage Hbody present q4 B8; pose proof (Hkeep _ _ _ B8 eq_refl) as ->.
    2:{ subst q3. apply Hclose. left. reflexivity. }
    destruct present.
    2:{ apply ret_inv in Hbody. destruct Hbody as (-> & ->). subst q3.
        apply Hclose. left. reflexivity. }
    stage Hbody row_ip q4 B9; apply lift_inv in B9; destruct B9 as [B9 ->].
    2:{ subst q3. apply Hclose. left. reflexivity. }
    destruct (strict_eq row_ip (VStr ipUrl)) eqn:Hip.
    - stage Hbody confirmed q4 B10.
      2:{ apply bind_inv in B10.
          destruct B10 as [(tx & q5 & B10 & B11) | (e' & B10 & _)].
          - apply ret_inv in B11. destruct B11 as (B11 & _). discriminate B11.
          - apply lift_inv in B10. destruct B10 as (_ & ->). subst q3.
            apply Hclose. left. reflexivity. }
      apply bind_inv in B10.
      destruct B10 as [(tx & q5 & B10 & B11) | (e' & B10 & B11)]; [| discriminate B11].
      apply lift_inv in B10. destruct B10 as (B10 & ->).
      apply ret_inv in B11. destruct B11 as (B11 & ->). inversion B11; subst confirmed.
      destruct (strict_eq tx txHash) eqn:Htx.
      + apply ret_inv in Hbody. destruct Hbody as (-> & ->). subst q3.
        apply Hclose. right. exists verified. split; [reflexivity |].
        split; [reflexivity |]. exists row_ip, tx. symmetry in B9, B10. tauto.
      + assert (q = q3 /\ (match ob with Ok row => row | Throw _ => VNull end) = VNull)
          as (-> & ->).
        { repeat (apply bind_inv in Hbody;
                  destruct Hbody as [(? & ? & L & Hbody) | (? & L & ->)];
                  [ first [apply console_log_inv in L | apply lift_inv in L; destruct L as [_ L]];
                    subst
                  | first [apply console_log_inv in L | apply lift_inv in L; destruct L as [_ L]];
                    subst; split; reflexivity ]).
          apply ret_inv in Hbody. destruct Hbody as (-> & ->). split; reflexivity. }
        subst q3. apply Hclose. left. reflexivity.
    - stage Hbody confirmed q4 B10; apply ret_inv in B10; destruct B10 as (B10 & ->);
        [| discriminate B10].
      inversion B10; subst confirmed.
      assert (q = q3 /\ (match ob with Ok row => row | Throw _ => VNull end) = VNull)
        as (-> & ->).
      { repeat (apply bind_inv in Hbody;
                destruct Hbody as [(? & ? & L & Hbody) | (? & L & ->)];
                [ first [apply console_log_inv in L | apply lift_inv in L; destruct L as [_ L]];
                  subst
                | first [apply console_log_inv in L | apply lift_inv in L; destruct L as [_ L]];
                  subst; split; reflexivity ]).
        apply ret_inv in Hbody. destruct Hbody as (-> & ->). split; reflexivity. }
      subst q3. apply Hclose. left. reflexivity. }
  destruct ob as [row | e].
  - inversion H; subst. exact Hrun.
  - apply ret_inv in H. destruct H as (-> & ->). exact Hrun.
Qed.

(** ** The runs that reach the registration *)

Lemma append_empty (s : string) : s +++ EmptyString = s.
Proof. induction s as [| c s IH]; simpl; [reflexivity | rewrite IH; reflexivity]. Qed.

Ltac chain_history :=
  simpl in *;
  repeat match goal with
    | H : history _ = _ |- _ => rewrite H
    end;
  rewrite <- ?app_assoc; simpl; reflexivity.

(* Leaves a run of [registerValidated] that throws before the registration. *)
Ltac leave_early :=
  eexists; split;
  [ chain_history
  | left; split;
    [ repeat (apply Forall_app; split);
      try (eapply Forall_impl; [| eassumption]; intros ? ?; left; assumption);
      repeat (apply Forall_cons;
              [right; do 2 eexists; split; [reflexivity | assumption] |]);
      apply Forall_nil
    | eexists; reflexivity ] ].

Lemma unfinished_kinds (w : World) req evs o :
  unfinished w req evs o ->
  Forall (fun e => is_create e \/ is_publish e) evs /\ exists e, o = Throw e.
Proof.
  intros (Hall & He). split; [| exact He].
  eapply Forall_impl; [| exact Hall].
  intros ev [Hev | (doc & r & -> & _)]; [left; exact Hev | right; exact Logic.I].
Qed.

Lemma registerValidated_runs (w : World) req fdm fee rev p o p' :
  registerValidated w req fdm fee rev p = (o, p') ->
  exists evs,
    history p' = history p ++ evs
    /\ (unfinished w req evs o \/ registration_run w req fdm fee rev p evs o).
Proof.
  unfold registerValidated. intros H.
  stage H u1 p1 L1; apply console_log_inv in L1; subst.
  2:{ exists []. rewrite app_nil_r. split; [reflexivity |]. left. split; [constructor | eauto]. }
  stage H u2 p2 L2; apply console_log_inv in L2; subst.
  2:{ exists []. rewrite app_nil_r. split; [reflexivity |]. left. split; [constructor | eauto]. }
  (* the collection *)
  destruct (getOrCreateCollection_spec w p) as (cre & Hprov).
  stage H nft q Hq; rewrite Hq in Hprov; simpl in Hprov;
    destruct (provision_history _ _ _ _ _ Hprov) as (Hhq & _);
    pose proof (provision_events _ _ _ _ _ Hprov) as (Hcre & _).
  2:{ exists cre. split; [assumption |]. left. split; [| eauto].
      eapply Forall_impl; [| exact Hcre]. intros ev Hev. left. exact Hev. }
  (* the asset document *)
  stage H imageHttpUrl q1 L3; apply lift_inv in L3; destruct L3 as [L3 ->];
    [| leave_early].
  stage H metadataHttpUrl q1 L4; apply lift_inv in L4; destruct L4 as [L4 ->];
    [| leave_early].
  stage H fields q1 Hf; destruct (ipMetadataFields_inv _ _ _ _ _ _ Hf) as (Hs1 & Hh1 & Hfields);
    [| leave_early].
  specialize (Hfields _ eq_refl).
  assert (Hurls : exists cid mid,
             imageCid req = VStr cid
             /\ media_id req = VStr mid
             /\ imageHttpUrl = pinataGateway +++ cid
             /\ metadataHttpUrl = pinataGateway +++ mid
             /\ (if truthy (metadataCid req)
                 then exists m, metadataCid req = VStr m
                                /\ metadataHttpUrl = pinataGateway +++ m
                 else metadataHttpUrl = imageHttpUrl)).
  { destruct Hfields as (cid & mid & fs & Hcid & Hmid & _).
    exists cid, mid. split; [exact Hcid |]. split; [exact Hmid |].
    rewrite Hcid in L3. unfold gatewayUrl in L3. simpl in L3. rewrite append_empty in L3.
    inversion L3; subst imageHttpUrl. split; [reflexivity |].
    unfold media_id in Hmid.
    destruct (truthy (metadataCid req)).
    - rewrite Hmid in L4. unfold gatewayUrl in L4. simpl in L4. rewrite append_empty in L4.
      inversion L4; subst metadataHttpUrl. split; [reflexivity |].
      exists mid. split; [exact Hmid | reflexivity].
    - inversion L4; subst metadataHttpUrl.
      rewrite Hcid in Hmid. inversion Hmid; subst mid. split; reflexivity. }
  destruct Hurls as (cid & mid & Hcid & Hmid & Himage & Hmurl & Hmeta).
  assert (Hdoc1 : handler_document w req (generateIpMetadata w fields)).
  { exists cid, mid. do 2 eexists. split; [exact Hcid |]. split; [exact Hmid |].
    left. exists fields. rewrite <- Hmurl. split; [exact Hf | reflexivity]. }
  (* the first upload *)
  stage H h1 q2 Hu1; apply uploadJSONToIPFS_inv in Hu1; destruct Hu1 as (r1 & Ho1 & ->);
    [| leave_early].
  stage H ipHash q2 L5; apply lift_inv in L5; destruct L5 as [L5 ->];
    [| leave_early].
  (* the collectible document and the second upload *)
  stage H nftMetadata q2 Hn; destruct (nftMetadataFields_inv _ _ _ _ _ _ _ Hn) as (Hs2 & Hh2);
    [| leave_early].
  assert (Hdoc2 : handler_document w req nftMetadata).
  { exists cid, mid. do 2 eexists. split; [exact Hcid |]. split; [exact Hmid |].
    right. rewrite <- Hmurl, <- Himage. exact Hn. }
  stage H h2 q3 Hu2; apply uploadJSONToIPFS_inv in Hu2; destruct Hu2 as (r2 & Ho2 & ->);
    [| leave_early].
  stage H nftHash q3 L6; apply lift_inv in L6; destruct L6 as [L6 ->];
    [| leave_early].
  stage H u3 q3 L7; apply console_log_inv in L7; subst; [| leave_early].
  stage H u4 q3 L8; apply console_log_inv in L8; subst; [| leave_early].
  stage H ipUri q3 L9; apply lift_inv in L9; destruct L9 as [L9 ->]; [| leave_early].
  stage H nftUri q3 L10; apply lift_inv in L10; destruct L10 as [L10 ->];
    [| leave_early].
  symmetry in Ho1, Ho2.
  destruct (upload_outcome_ok _ _ Ho1) as (s1 & Hs1'), (upload_outcome_ok _ _ Ho2) as (s2 & Hs2').
  assert (HipUri : ipUri = ipfsIo +++ s1).
  { simpl in L9. rewrite Hs1' in L9. simpl in L9. rewrite append_empty in L9.
    inversion L9. reflexivity. }
  assert (HnftUri : nftUri = ipfsIo +++ s2).
  { simpl in L10. rewrite Hs2' in L10. simpl in L10. rewrite append_empty in L10.
    inversion L10. reflexivity. }
  clear L9 L10.
  (* the registration *)
  assert (Hargs : registration_args nft fee rev (generateIpMetadata w fields) nftMetadata
                    (mkRegisterRequest nft rev fee ipUri ("0x" +++ ipHash) nftUri
                                       ("0x" +++ nftHash))).
  { symmetry in L5, L6. apply documentHash_inv in L5, L6.
    destruct L5 as (j1 & E1 & ->), L6 as (j2 & E2 & ->).
    exists j1, j2. repeat split; assumption. }
  assert (Hdoc : collectible_document w req nftMetadata) by (do 4 eexists; eassumption).
  stage H resp q3 Hr; apply await_inv in Hr; destruct Hr as (Hr & ->).
  2:{ destruct (registerIpAsset w _ _) as [resp' | e'] eqn:Hreg; simpl in Hr; inversion Hr; subst.
      eexists. split.
      - simpl. rewrite Hh2. simpl. rewrite Hh1, Hhq. rewrite <- !app_assoc. simpl.
        reflexivity.
      - right.
        eapply (run_registration w req fdm fee rev p cre nft q cid (pinataGateway +++ cid)
                  (pinataGateway +++ mid) fields r1 h1 s1 nftMetadata r2 h2 s2 _ (Rejected e') []
                  (Throw e'));
          try assumption; try reflexivity.
        simpl. split; reflexivity. }
  destruct (registerIpAsset w _ _) as [resp' | e'] eqn:Hreg; simpl in Hr; inversion Hr; subst resp'.
  (* the reconciliation *)
  stage H row q4 Hup; destruct (reconciliation_spec _ _ _ _ _ _ _ Hup) as (recs & Hh3 & Hrecs).
  2:{ exfalso.
      assert (Hi : ToString (imageCid req) = Ok cid) by (rewrite Hcid; reflexivity).
      destruct (ToString_opt_value (txHash resp)) as (tx & Htx).
      destruct (updateSupabase_returns w _ (explorerUrl resp) _ cid tx
                  (record (ChainRegister
                     (mkRegisterRequest nft rev fee ipUri ("0x" +++ ipHash) nftUri
                        ("0x" +++ nftHash)) (Resolved resp))
                     (record (publish nftMetadata r2) q2)) Hi Htx) as (v & Hv).
      unfold explorerUrl in Hv. rewrite Hup in Hv. simpl in Hv. discriminate Hv. }
  stage H t q5 Ht; apply now_inv in Ht; destruct Ht as (Ht & Hs5 & Hh5); [| discriminate].
  apply ret_inv in H. destruct H as (-> & ->).
  eexists. split.
  - rewrite Hh5, Hh3. simpl. rewrite Hh2. simpl. rewrite Hh1, Hhq.
    rewrite <- !app_assoc. simpl. reflexivity.
  - right.
    eapply (run_registration w req fdm fee rev p cre nft q cid (pinataGateway +++ cid)
              (pinataGateway +++ mid) fields r1 h1 s1 nftMetadata r2 h2 s2 _ (Resolved resp) recs);
      try assumption; try reflexivity.
    simpl. exists row, t. split; [exact Hrecs | reflexivity].
Qed.

(** ** The course of a run *)

Lemma register_ip_course_inv (w : World) req p res p' :
  register_ip w req p = (res, p') ->
  exists evs, history p' = history p ++ evs /\ course w req p evs res.
Proof.
  unfold register_ip, course.
  destruct (register_ip_try w req p) as [o p1] eqn:H. unfold register_ip_try in H.
  destruct (truthy (imageCid req) && truthy (deviceAddress req)) eqn:Hreq.
  2:{ replace (negb (truthy (imageCid req)) || negb (truthy (deviceAddress req))) with true in H
        by (destruct (truthy (imageCid req)), (truthy (deviceAddress req)); simpl in *; congruence).
      apply ret_inv in H. destruct H as (-> & ->). intros E; inversion E; subst.
      exists []. rewrite app_nil_r. split; [reflexivity | split; reflexivity]. }
  replace (negb (truthy (imageCid req)) || negb (truthy (deviceAddress req))) with false in H
    by (destruct (truthy (imageCid req)), (truthy (deviceAddress req)); simpl in *; congruence).
  destruct (resolveDepthMetadata_spec w req p) as (fetch & Hres).
  stage H fdm q Hrun; rewrite Hrun in Hres; simpl in Hres;
    destruct (resolution_history _ _ _ _ _ _ Hres) as (Hh & Hs & _).
  2:{ simpl. intros E; inversion E; subst; simpl. exists fetch. split; [assumption |].
      exists fetch, (Throw fdm), p1. simpl.
      split; [assumption |]. split; [assumption |]. split; [reflexivity |].
      eexists. reflexivity. }
  stage H fee q1 Hfee; apply lift_inv in Hfee; destruct Hfee as (Hfee & ->).
  2:{ simpl. intros E; inversion E; subst; simpl. exists fetch. split; [assumption |].
      exists fetch, (Ok fdm), q. rewrite <- Hfee. simpl.
      split; [assumption |]. split; [assumption |]. split; [reflexivity |].
      eexists. reflexivity. }
  stage H share q1 Hrev; apply lift_inv in Hrev; destruct Hrev as (Hrev & ->).
  2:{ simpl. intros E; inversion E; subst; simpl. exists fetch. split; [assumption |].
      exists fetch, (Ok fdm), q. rewrite <- Hfee, <- Hrev. simpl.
      split; [assumption |]. split; [assumption |]. split; [reflexivity |].
      eexists. reflexivity. }
  destruct (out_of_range share) eqn:Hrange.
  { apply ret_inv in H. destruct H as (-> & ->). intros E; inversion E; subst.
    exists fetch. split; [assumption |].
    eexists fetch, (Ok fdm), _. rewrite <- Hfee, <- Hrev, Hrange.
    split; [eassumption |]. split; [assumption |]. split; reflexivity. }
  destruct (registerValidated_runs _ _ _ _ _ _ _ _ H) as (evs & Hh' & Hpl).
  destruct o as [r | e]; simpl; intros E; inversion E; subst; simpl;
    exists (fetch ++ evs); (split; [rewrite Hh', Hh, app_assoc; reflexivity |]).
  - exists fetch, (Ok fdm), q. rewrite <- Hfee, <- Hrev, Hrange.
    split; [assumption |]. split; [assumption |].
    exists evs, (Ok res). simpl.
    split; [reflexivity |]. split; [assumption | reflexivity].
  - exists fetch, (Ok fdm), q. rewrite <- Hfee, <- Hrev, Hrange.
    split; [assumption |]. split; [assumption |].
    exists evs, (Throw e). simpl.
    split; [reflexivity |]. split; [assumption |]. eexists. reflexivity.
Qed.

(** Every run of the handler follows [course]. *)
Lemma register_ip_course (w : World) req p :
  course w req p (calls w req p) (fst (register_ip w req p)).
Proof.
  destruct (register_ip w req p) as [res p'] eqn:H.
  pose proof (calls_spec w req p) as Hc. rewrite H in Hc. simpl in Hc.
  apply register_ip_course_inv in H. destruct H as (evs & Hh & Hcourse).
  rewrite Hh in Hc. apply app_inv_head in Hc. subst evs. exact Hcourse.
Qed.

Lemma reconciliation_records (w : World) imageCid ipUrl txHash recs o :
  reconciliation w imageCid ipUrl txHash recs o -> Forall is_record recs.
Proof. intros H. destruct H; repeat constructor. Qed.

Lemma settlement_records (w : World) req fdm fee share nft iurl murl r recs o :
  settlement w req fdm fee share nft iurl murl r recs o -> Forall is_record recs.
Proof.
  destruct r as [resp | e]; simpl.
  - intros (row & t & Hrec & _). eapply reconciliation_records; eassumption.
  - intros (-> & _). constructor.
Qed.

(** A call that is not the fetch of the metadata is made once the depth
    metadata and the terms are resolved and the share is in range. *)
Lemma beyond_fetch (w : World) req p x :
  In x (calls w req p) -> ~ is_fetch x ->
  exists fetch fdm q fee share rest o,
    resolution w req p fetch (Ok fdm) q
    /\ resolveMintingFee w req = Ok fee
    /\ resolveRevShare w req = Ok share
    /\ out_of_range share = false
    /\ calls w req p = fetch ++ rest
    /\ In x rest
    /\ (unfinished w req rest o \/ registration_run w req fdm fee share q rest o)
    /\ answer o (fst (register_ip w req p)).
Proof.
  intros Hin Hx. pose proof (register_ip_course w req p) as Hc. unfold course in Hc.
  destruct (truthy (imageCid req) && truthy (deviceAddress req)).
  2:{ destruct Hc as (Hc & _). rewrite Hc in Hin. contradiction. }
  destruct Hc as (fetch & o & q & Hrd & Hres & Hc).
  assert (Hfetch : In x fetch -> False).
  { intros Hf. apply Hx. eapply kind_of_member; [| exact Hf].
    eapply resolution_events. exact Hres. }
  destruct o as [fdm | e].
  2:{ destruct Hc as (Hc & _). rewrite Hc in Hin. contradiction. }
  destruct (resolveMintingFee w req) as [fee | e].
  2:{ destruct Hc as (Hc & _). rewrite Hc in Hin. contradiction. }
  destruct (resolveRevShare w req) as [share | e].
  2:{ destruct Hc as (Hc & _). rewrite Hc in Hin. contradiction. }
  destruct (out_of_range share) eqn:Hrange.
  { destruct Hc as (Hc & _). rewrite Hc in Hin. contradiction. }
  destruct Hc as (rest & o' & Hc & Hrun & Hans).
  exists fetch, fdm, q, fee, share, rest, o'.
  rewrite Hc in Hin. apply in_app_or in Hin. destruct Hin as [Hin | Hin]; [contradiction |].
  repeat (split; [first [assumption | reflexivity] |]). assumption.
Qed.

(** What a run of [registerValidated] does about the collection. *)
Lemma pipeline_provision (w : World) req fdm fee share p evs o c :
  pipeline w req fdm fee share p evs o c ->
  (evs = [] /\ c = spgNftContract p /\ exists e, o = Throw e)
  \/ exists cre ov q rest,
       provision w p cre ov q
       /\ evs = cre ++ rest
       /\ c = spgNftContract q
       /\ Forall (fun e => ~ is_create e) rest
       /\ (forall e, ov = Throw e -> o = Throw e /\ rest = []).
Proof.
  intros Hp. destruct Hp.
  - left. eauto.
  - right. exists cre, (Throw e), q, []. rewrite app_nil_r.
    repeat split; try assumption; try constructor; congruence.
  - right. exists cre, (Ok nft), q, []. rewrite app_nil_r.
    repeat split; try assumption; try constructor; discriminate.
  - right. eexists cre, (Ok nft), q, _.
    split; [eassumption |]. split; [reflexivity |]. split; [reflexivity |].
    split; [repeat constructor; simpl; tauto | discriminate].
  - right. eexists cre, (Ok nft), q, _.
    split; [eassumption |]. split; [reflexivity |]. split; [reflexivity |].
    split; [repeat constructor; simpl; tauto | discriminate].
  - right. eexists cre, (Ok nft), q, _.
    split; [eassumption |]. split; [reflexivity |]. split; [reflexivity |].
    split; [repeat constructor; simpl; tauto | discriminate].
  - right. eexists cre, (Ok nft), q, _.
    split; [eassumption |]. split; [reflexivity |]. split; [reflexivity |].
    split; [repeat constructor; simpl; tauto | discriminate].
  - right. eexists cre, (Ok nft), q, _.
    split; [eassumption |]. split; [reflexivity |]. split; [reflexivity |].
    split; [repeat constructor; simpl; tauto | discriminate].
  - right. eexists cre, (Ok nft), q, _.
    split; [eassumption |]. split; [reflexivity |]. split; [reflexivity |].
    split; [| discriminate].
    repeat (apply Forall_cons; [simpl; tauto |]).
    eapply Forall_impl; [| eassumption]. intros []; simpl; tauto.
Qed.

(* The run passed the validation and reached the collection. *)
Ltac reach_collection w req p Hin :=
  let Hshape := fresh "Hshape" in
  shape_of w req p Hshape;
  destruct Hshape as [ | fetch o q e0 t ? ? Hr ? | fetch fdm q fee share ? ? Hr ? ? ?
                       | fetch fdm q fee share evs e0 c t ? ? Hr ? ? ? Hp
                       | fetch fdm q fee share evs res c ? ? Hr ? ? ? Hp ];
  try contradiction;
  try (exfalso; exact (kind_of_member _ _ _ (resolution_events _ _ _ _ _ _ Hr) Hin));
  apply in_app_or in Hin; destruct Hin as [Hin | Hin];
  try (exfalso; exact (kind_of_member _ _ _ (resolution_events _ _ _ _ _ _ Hr) Hin));
  destruct (resolution_history _ _ _ _ _ _ Hr) as (_ & Hcache & Hfetch);
  destruct (pipeline_provision _ _ _ _ _ _ _ _ _ Hp)
    as [(-> & _) | (cre & ov & q' & rest & Hv & -> & -> & Hrest & Hthrow)];
  try contradiction;
  apply in_app_or in Hin; destruct Hin as [Hin | Hin];
  try (exfalso; exact (kind_of_member _ _ _ Hrest Hin Logic.I)).

(** ** The registration *)

Lemma upload_outcome_inv r h :
  upload_outcome r = Ok h ->
  exists resp, r = Resolved resp /\ get (snd resp) "IpfsHash" = Ok h.
Proof.
  unfold upload_outcome. destruct r as [resp | e]; [| discriminate].
  destruct (get (snd resp) "IpfsHash") as [x | e] eqn:Hget; [| discriminate].
  destruct (ToString x); [| discriminate].
  intros E. inversion E; subst. exists resp. split; [reflexivity | exact Hget].
Qed.

(** The run in which a registration call was made. *)
Lemma registration_call (w : World) req p a r :
  In (ChainRegister a r) (calls w req p) ->
  exists fetch fdm q fee share rest o,
    resolution w req p fetch (Ok fdm) q
    /\ resolveMintingFee w req = Ok fee
    /\ resolveRevShare w req = Ok share
    /\ out_of_range share = false
    /\ calls w req p = fetch ++ rest
    /\ In (ChainRegister a r) rest
    /\ registration_run w req fdm fee share q rest o
    /\ answer o (fst (register_ip w req p)).
Proof.
  intros Hin.
  destruct (beyond_fetch w req p _ Hin (fun H => H))
    as (fetch & fdm & q & fee & share & rest & o & Hr & Hfee & Hshare & Hrange & Hc
        & Hin' & Hrun & Hans).
  exists fetch, fdm, q, fee, share, rest, o.
  repeat (split; [assumption |]).
  destruct Hrun as [Hun | Hrun];
    [destruct (unfinished_kinds _ _ _ _ Hun) as (Hkinds & _) |].
  - exfalso. destruct (kind_of_member _ _ _ Hkinds Hin') as [[] | []].
  - split; assumption.
Qed.

(** The registration call of a run that makes one, and what surrounds it. *)
Lemma registration_run_call (w : World) req fdm fee share q rest o a r :
  registration_run w req fdm fee share q rest o ->
  In (ChainRegister a r) rest ->
  exists cre nft q' cid imageHttpUrl metadataHttpUrl fields r1 h1 s1 nftMetadata r2 h2 s2 recs,
    provision w q cre (Ok nft) q'
    /\ imageCid req = VStr cid
    /\ imageHttpUrl = pinataGateway +++ cid
    /\ (if truthy (metadataCid req)
        then exists m, metadataCid req = VStr m /\ metadataHttpUrl = pinataGateway +++ m
        else metadataHttpUrl = imageHttpUrl)
    /\ asset_fields req fields
    /\ upload_outcome r1 = Ok h1 /\ ToString h1 = Ok s1
    /\ collectible_document w req nftMetadata
    /\ upload_outcome r2 = Ok h2 /\ ToString h2 = Ok s2
    /\ registration_args nft fee share (generateIpMetadata w fields) nftMetadata a
    /\ ipMetadataURI a = ipfsIo +++ s1
    /\ nftMetadataURI a = ipfsIo +++ s2
    /\ settlement w req fdm fee share nft imageHttpUrl metadataHttpUrl r recs o
    /\ rest = cre ++ [publish (generateIpMetadata w fields) r1; publish nftMetadata r2;
                      ChainRegister a r] ++ recs.
Proof.
  intros Hrun Hin. destruct Hrun as [cre nft q' cid iurl murl fields r1 h1 s1 nftMetadata
                                      r2 h2 s2 args r0 recs o Hv Hcid Hi Hm Hf Hdoc1 Hu1 Hs1
                                      Hd Hdoc2 Hu2 Hs2 Hargs Huri1 Huri2 Hend].
  assert (E : ChainRegister a r = ChainRegister args r0).
  { pose proof (provision_events _ _ _ _ _ Hv) as (Hcre & _).
    pose proof (settlement_records _ _ _ _ _ _ _ _ _ _ _ Hend) as Hrecs.
    apply in_app_or in Hin. destruct Hin as [Hin | Hin].
    - exfalso. exact (kind_of_member _ _ _ Hcre Hin).
    - simpl in Hin. destruct Hin as [Hin | [Hin | [Hin | Hin]]];
        try discriminate Hin.
      + symmetry. exact Hin.
      + exfalso. exact (kind_of_member _ _ _ Hrecs Hin). }
  inversion E; subst args r0.
  exists cre, nft, q', cid, iurl, murl, fields, r1, h1, s1, nftMetadata, r2, h2, s2, recs.
  repeat (split; [assumption |]). reflexivity.
Qed.

(** ** The fetch of the depth metadata *)

(** The calls [resolveDepthMetadata] makes. *)
Lemma resolveDepthMetadata_history (w : World) req p :
  history (snd (resolveDepthMetadata w req p))
  = history p
    ++ (if fetch_needed req
        then match ToString (metadataCid req) with
             | Ok m => [StorageFetch (fetchUrl w m) (axios_get w (history p) (fetchUrl w m))]
             | Throw _ => []
             end
        else []).
Proof.
  unfold resolveDepthMetadata, fetch_needed.
  destruct (truthy (depthMetadata req)) eqn:Hd.
  - rewrite andb_false_r. unfold bind, ret; simpl. rewrite Hd. simpl.
    rewrite app_nil_r. reflexivity.
  - destruct (truthy (metadataCid req)) eqn:Hm; simpl.
    2:{ unfold bind, ret; simpl. rewrite Hd. simpl. rewrite app_nil_r. reflexivity. }
    destruct (ToString (metadataCid req)) as [s | e] eqn:Hs.
    2:{ unfold bind at 1. unfold bind at 1. unfold console_log, lift. simpl. rewrite Hs. simpl.
        rewrite app_nil_r. reflexivity. }
    unfold bind at 1. unfold bind at 1. rewrite (console_log_ok _ _ _ Hs).
    unfold fetchFromIPFS, try_catch, bind, lift, await, ret, throw. simpl. rewrite Hs. simpl.
    rewrite append_empty. unfold fetchUrl. simpl.
    match goal with |- context [axios_get w (history p) ?u] => set (url := u) in * end.
    destruct (axios_get w (history p) url) as [resp | e] eqn:Hr; simpl.
    2:{ reflexivity. }
    destruct (get (snd resp) "data") as [data | e] eqn:E1; simpl;
      [destruct (truthy data) eqn:E2; simpl;
       [destruct (get data "depthData") as [dd | e] eqn:E3; simpl;
        [destruct (truthy dd) eqn:E4; simpl|]|]|];
      try destruct (truthy (snd resp)) eqn:E5; simpl.
    all: try rewrite E4; try rewrite E5; simpl.
    all: reflexivity.
Qed.

Lemma registration_run_kinds (w : World) req fdm fee share q rest o :
  registration_run w req fdm fee share q rest o -> Forall (fun e => ~ is_fetch e) rest.
Proof.
  intros Hrun. destruct Hrun as [cre nft q' cid iurl murl fields r1 h1 s1 nftMetadata
                                 r2 h2 s2 args r0 recs o Hv Hcid Hi Hm Hf Hdoc1 Hu1 Hs1
                                 Hd Hdoc2 Hu2 Hs2 Hargs Huri1 Huri2 Hend].
  pose proof (provision_events _ _ _ _ _ Hv) as (Hcre & _).
  pose proof (settlement_records _ _ _ _ _ _ _ _ _ _ _ Hend) as Hrecs.
  apply Forall_app. split.
  - eapply Forall_impl; [| exact Hcre]. intros []; simpl; tauto.
  - repeat (apply Forall_cons; [simpl; tauto |]).
    eapply Forall_impl; [| exact Hrecs]. intros []; simpl; tauto.
Qed.

(** The calls of a run: those of the resolution of the depth metadata,
    then calls that are not fetches. *)
Lemma calls_after_resolution (w : World) req p :
  truthy (imageCid req) && truthy (deviceAddress req) = true ->
  exists rest,
    calls w req p
    = (if fetch_needed req
       then match ToString (metadataCid req) with
            | Ok m => [StorageFetch (fetchUrl w m) (axios_get w (history p) (fetchUrl w m))]
            | Throw _ => []
            end
       else []) ++ rest
    /\ Forall (fun e => ~ is_fetch e) rest.
Proof.
  intros Hvalid. pose proof (register_ip_course w req p) as Hc. unfold course in Hc.
  rewrite Hvalid in Hc. destruct Hc as (fetch & o & q & Hrd & Hres & Hc).
  pose proof (resolveDepthMetadata_history w req p) as Hh. rewrite Hrd in Hh. simpl in Hh.
  destruct (resolution_history _ _ _ _ _ _ Hres) as (Hh' & _ & _).
  rewrite Hh' in Hh. apply app_inv_head in Hh. rewrite <- Hh.
  destruct o as [fdm | e].
  2:{ destruct Hc as (Hc & _). exists []. rewrite app_nil_r. split; [exact Hc | constructor]. }
  destruct (resolveMintingFee w req) as [fee | e].
  2:{ destruct Hc as (Hc & _). exists []. rewrite app_nil_r. split; [exact Hc | constructor]. }
  destruct (resolveRevShare w req) as [share | e].
  2:{ destruct Hc as (Hc & _). exists []. rewrite app_nil_r. split; [exact Hc | constructor]. }
  destruct (out_of_range share).
  { destruct Hc as (Hc & _). exists []. rewrite app_nil_r. split; [exact Hc | constructor]. }
  destruct Hc as (rest & o' & Hc & Hrun & _).
  exists rest. split; [exact Hc |].
  destruct Hrun as [Hun | Hrun];
    [destruct (unfinished_kinds _ _ _ _ Hun) as (Hkinds & _) |].
  - eapply Forall_impl; [| exact Hkinds]. intros []; simpl; tauto.
  - eapply registration_run_kinds. exact Hrun.
Qed.

(** ** The response to a successful registration *)

(** The run of a request that is answered 200. *)
Lemma success_run (w : World) req p :
  status (fst (register_ip w req p)) = 200 ->
  exists fetch fdm q fee share rest,
    resolution w req p fetch (Ok fdm) q
    /\ resolveMintingFee w req = Ok fee
    /\ resolveRevShare w req = Ok share
    /\ out_of_range share = false
    /\ calls w req p = fetch ++ rest
    /\ registration_run w req fdm fee share q rest (Ok (fst (register_ip w req p))).
Proof.
  intros H200. pose proof (register_ip_course w req p) as Hc. unfold course in Hc.
  remember (fst (register_ip w req p)) as res eqn:Hres. clear Hres.
  assert (Hfail : forall e, answer (Throw e) res -> False).
  { intros e (t & ->). discriminate H200. }
  destruct (truthy (imageCid req) && truthy (deviceAddress req)).
  2:{ destruct Hc as (_ & ->). discriminate H200. }
  destruct Hc as (fetch & o & q & Hrd & Hr & Hc).
  destruct o as [fdm | e]; [| destruct Hc as (_ & Hc); destruct (Hfail _ Hc)].
  destruct (resolveMintingFee w req) as [fee | e];
    [| destruct Hc as (_ & Hc); destruct (Hfail _ Hc)].
  destruct (resolveRevShare w req) as [share | e];
    [| destruct Hc as (_ & Hc); destruct (Hfail _ Hc)].
  destruct (out_of_range share) eqn:Hrange.
  { destruct Hc as (_ & ->). discriminate H200. }
  destruct Hc as (rest & o' & Hc & Hrun & Hans).
  destruct o' as [res' | e]; [| destruct (Hfail _ Hans)].
  simpl in Hans. subst res'.
  destruct Hrun as [(_ & e & E) | Hrun]; [discriminate E |].
  exists fetch, fdm, q, fee, share, rest. repeat (split; [first [assumption | reflexivity] |]).
  exact Hrun.
Qed.

(** ** Start-up *)

Lemma prefix_append (a b : string) : String.prefix a (a +++ b) = true.
Proof.
  induction a as [| c a IH]; simpl.
  - destruct b; reflexivity.
  - destruct (Ascii.ascii_dec c c) as [_ | N]; [exact IH | destruct (N eq_refl)].
Qed.

Lemma formatPrivateKey_prefix (key : string) :
  String.prefix "0x" (formatPrivateKey key) = true.
Proof.
  unfold formatPrivateKey. destruct (String.prefix "0x" key) eqn:Hp.
  - exact Hp.
  - exact (prefix_append "0x" key).
Qed.

Lemma env_or_unset (v : option string) (default : string) :
  env_truthy v = false -> env_or v default = default.
Proof.
  unfold env_or, or_else. intros H. rewrite H. reflexivity.
Qed.

(** ** The diagnostic script *)

Ltac in_cases :=
  repeat match goal with
    | H : _ \/ _ |- _ => destruct H as [H | H]
    | H : False |- _ => destruct H
    | H : In _ (_ :: _) |- _ => destruct H as [H | H]
    | H : In _ [] |- _ => destruct H
    | H : @eq notice _ _ |- _ => discriminate H
    end.

Lemma inspect_verdicts (w : World) (data : value) :
  (In BothColumnsExist (fst (inspect w data)) ->
   exists fs, first data = VObj fs /\ has_own "ip" fs = true /\ has_own "tx_hash" fs = true)
  /\ (forall column, In (ColumnNotFound column) (fst (inspect w data)) ->
        In SetupLooksGood (fst (inspect w data)))
  /\ (In SetupLooksGood (fst (inspect w data)) -> snd (inspect w data) = None)
  /\ forall msg, ~ In (ConnectionFailed msg) (fst (inspect w data)).
Proof.
  unfold inspect.
  destruct (if truthy data
            then obind (get data "length") (fun len => gt w len (VNum (Int 0)))
            else Ok false) as [[|] | e]; simpl;
    [ destruct (first data) as [ | | b | n | s | l | fs]; simpl;
      [ | | | | | | unfold has_own;
                    destruct (lookup "ip" fs) as [x |] eqn:E1,
                             (lookup "tx_hash" fs) as [y |] eqn:E2;
                    simpl ]
    | | ];
    (split; [intros H; in_cases;
             try (exists fs; unfold has_own; rewrite E1, E2;
                  split; [reflexivity | split; reflexivity]) |]);
    (split; [intros c H; in_cases; simpl; tauto |]);
    (split; [intros H; in_cases; reflexivity |]);
    intros msg H; in_cases.
Qed.

Lemma checkSupabase_cases (w : World) (p : Process) :
  (credentials_missing w = true
   /\ snd (checkSupabase w p) = p
   /\ (fst (checkSupabase w p) = [UrlNotFound] \/ fst (checkSupabase w p) = [KeyNotFound]))
  \/ (credentials_missing w = false
      /\ exists base,
           SUPABASE_URL (config w) = Some base
           /\ snd (checkSupabase w p)
              = record (RecordGet (checkUrlOf base)
                          (axios_get w (history p) (checkUrlOf base))) p
           /\ ((exists e,
                  axios_get w (history p) (checkUrlOf base) = Rejected e
                  /\ fst (checkSupabase w p)
                     = [CredentialsFound; TestingConnection; ConnectionFailed (message e)])
               \/ (exists answer,
                     axios_get w (history p) (checkUrlOf base) = Resolved answer
                     /\ fst (checkSupabase w p)
                        = [CredentialsFound; TestingConnection; ConnectionSuccessful]
                          ++ fst (inspect w (snd answer))
                          ++ match snd (inspect w (snd answer)) with
                             | Some e => [ConnectionFailed (message e)]
                             | None => []
                             end))).
Proof.
  unfold checkSupabase, credentials_missing.
  destruct (SUPABASE_URL (config w)) as [base |] eqn:Hbase; simpl.
  2:{ left. split; [reflexivity |]. split; [reflexivity | left; reflexivity]. }
  destruct (env_truthy (Some base)) eqn:Hurl; simpl.
  2:{ left. split; [reflexivity |]. split; [reflexivity | left; reflexivity]. }
  destruct (env_truthy (SUPABASE_KEY (config w))) eqn:Hkey; simpl.
  2:{ left. split; [reflexivity |]. split; [reflexivity | right; reflexivity]. }
  right. split; [reflexivity |]. exists base. split; [reflexivity |].
  destruct (axios_get w (history p) (checkUrlOf base)) as [answer | e] eqn:Hget.
  - destruct (inspect w (snd answer)) as [notices thrown] eqn:Hi. simpl.
    split; [reflexivity |]. right. exists answer. rewrite Hi. split; reflexivity.
  - simpl. split; [reflexivity |]. left. exists e. split; reflexivity.
Qed.

(** ** The digests *)

Lemma hex_word_length (n : nat) : forall x k,
  String.length (SHA256.hex_word n x k) = (n + String.length k)%nat.
Proof.
  induction n as [| n IH]; intros x k; simpl.
  - reflexivity.
  - rewrite IH. simpl. lia.
Qed.

Lemma round_length st kw : List.length st = 8%nat -> List.length (SHA256.round st kw) = 8%nat.
Proof.
  intros H.
  do 8 (destruct st as [| ? st]; [discriminate H |]).
  destruct st; [reflexivity | discriminate H].
Qed.

Lemma rounds_length l : forall st,
  List.length st = 8%nat -> List.length (fold_left SHA256.round l st) = 8%nat.
Proof.
  induction l as [| kw l IH]; intros st H; simpl.
  - exact H.
  - apply IH. apply round_length. exact H.
Qed.

Lemma compress_length h block :
  List.length h = 8%nat -> List.length (SHA256.compress h block) = 8%nat.
Proof.
  intros H. unfold SHA256.compress.
  rewrite length_map, length_combine, rounds_length by exact H.
  rewrite H. reflexivity.
Qed.

Lemma blocks_length fuel : forall ws h,
  List.length h = 8%nat -> List.length (SHA256.blocks fuel ws h) = 8%nat.
Proof.
  induction fuel as [| fuel IH]; intros ws h H; simpl.
  - exact H.
  - destruct ws; [exact H |]. apply IH. apply compress_length. exact H.
Qed.

Lemma words_hex_length (l : list Z) :
  String.length (fold_right (fun w k => SHA256.hex_word 8 w k) EmptyString l)
  = (8 * List.length l)%nat.
Proof.
  induction l as [| x l IH]; cbn [fold_right].
  - reflexivity.
  - rewrite hex_word_length, IH. cbn [List.length]. lia.
Qed.

(** The digest of any string is written on 64 characters. *)
Lemma sha256_hex_length (s : string) : String.length (SHA256.hex s) = 64%nat.
Proof.
  unfold SHA256.hex. rewrite words_hex_length.
  unfold SHA256.digest. rewrite blocks_length; reflexivity.
Qed.

(** ** Integers given as the revenue share *)

Lemma trim_start_plain (c : ascii) (r : string) :
  45 <= code c <= 57 -> trim_start (String c r) = String c r.
Proof.
  intros H. cbn [trim_start]. remember (code c) as ca eqn:Hca.
  replace (ca <=? 13)%Z with false by (symmetry; apply Z.leb_gt; lia).
  replace (ca =? 32)%Z with false by (symmetry; apply Z.eqb_neq; lia).
  replace (ca =? 194)%Z with false by (symmetry; apply Z.eqb_neq; lia).
  replace (ca =? 225)%Z with false by (symmetry; apply Z.eqb_neq; lia).
  replace (ca =? 226)%Z with false by (symmetry; apply Z.eqb_neq; lia).
  replace (ca =? 227)%Z with false by (symmetry; apply Z.eqb_neq; lia).
  replace (ca =? 239)%Z with false by (symmetry; apply Z.eqb_neq; lia).
  rewrite andb_false_r. cbn [orb andb].
  destruct r as [| b [| c2 r3]]; reflexivity.
Qed.

Lemma parse_digits_acc (d : Decimal.uint) : forall acc : positive,
  parse_digits 10 (NilEmpty.string_of_uint d) (Z.pos acc) true
  = Some (Z.pos (Pos.of_uint_acc d acc)).
Proof.
  induction d as [| d IH | d IH | d IH | d IH | d IH | d IH | d IH | d IH | d IH | d IH];
    intros acc; cbn [NilEmpty.string_of_uint parse_digits Pos.of_uint_acc];
    [ reflexivity | .. ];
    match goal with
    | |- context [digit_value ?c] =>
        let v := eval vm_compute in (digit_value c) in
        change (digit_value c) with v
    end;
    cbn iota beta;
    match goal with
    | |- context [(?k <? 10)%Z] => change (k <? 10)%Z with true
    end;
    cbn iota;
    rewrite <- IH; f_equal; lia.
Qed.

Lemma parse_digits_uint (d : Decimal.uint) :
  parse_digits 10 (NilEmpty.string_of_uint d) 0 true = Some (Z.of_N (Pos.of_uint d)).
Proof.
  induction d as [| d IH | d IH | d IH | d IH | d IH | d IH | d IH | d IH | d IH | d IH];
    cbn [NilEmpty.string_of_uint parse_digits Pos.of_uint];
    [ reflexivity | .. ];
    match goal with
    | |- context [digit_value ?c] =>
        let v := eval vm_compute in (digit_value c) in
        change (digit_value c) with v
    end;
    cbn iota beta;
    match goal with
    | |- context [(?k <? 10)%Z] => change (k <? 10)%Z with true
    end;
    cbn iota;
    first [ exact IH | apply parse_digits_acc ].
Qed.

Lemma parse_digits_start (d : Decimal.uint) :
  d <> Decimal.Nil ->
  parse_digits 10 (NilEmpty.string_of_uint d) 0 false = Some (Z.of_N (Pos.of_uint d)).
Proof.
  intros Hd. rewrite <- parse_digits_uint.
  destruct d; [contradiction | reflexivity ..].
Qed.

(* Reads a numeral that is written without sign or with a minus sign. *)
Ltac read_numeral Hp :=
  unfold parseInt_string; cbn [NilEmpty.string_of_uint] in *;
  rewrite !trim_start_plain by (vm_compute; split; discriminate);
  cbn -[parse_digits Z.mul Pos.of_uint];
  rewrite Hp; split; f_equal; lia.

Lemma parseInt_string_uint (d : Decimal.uint) :
  d <> Decimal.Nil ->
  parseInt_string (NilEmpty.string_of_uint d) = Int (Z.of_N (Pos.of_uint d))
  /\ parseInt_string (String "-" (NilEmpty.string_of_uint d))
     = Int (- Z.of_N (Pos.of_uint d)).
Proof.
  intros Hd. pose proof (parse_digits_start d Hd) as Hp.
  destruct d as [| d | d | d | d | d | d | d | d | d | d]; [contradiction | ..];
    try (read_numeral Hp).
  destruct d; read_numeral Hp.
Qed.

(** [parseInt] gives back an integer that was written in decimal. *)
Lemma parseInt_string_decimal (n : Z) : parseInt_string (decimal n) = Int n.
Proof.
  unfold decimal. destruct n as [| q | q]; cbn [Z.to_int NilZero.string_of_int].
  - reflexivity.
  - pose proof (DecimalPos.Unsigned.to_uint_nonnil q) as Hd.
    pose proof (DecimalPos.Unsigned.of_to q) as Hv.
    destruct (parseInt_string_uint _ Hd) as (Hpos & _).
    unfold NilZero.string_of_uint.
    destruct (Pos.to_uint q); [contradiction | rewrite Hpos, Hv; reflexivity ..].
  - pose proof (DecimalPos.Unsigned.to_uint_nonnil q) as Hd.
    pose proof (DecimalPos.Unsigned.of_to q) as Hv.
    destruct (parseInt_string_uint _ Hd) as (_ & Hneg).
    unfold NilZero.string_of_uint.
    destruct (Pos.to_uint q); [contradiction | rewrite Hneg, Hv; reflexivity ..].
Qed.

(** ** The collection of a registration *)

Lemma provision_functional (w : World) p cre1 o1 q1 cre2 o2 q2 :
  provision w p cre1 o1 q1 -> provision w p cre2 o2 q2 ->
  cre1 = cre2 /\ o1 = o2 /\ q1 = q2.
Proof.
  intros H1 H2. inversion H1; subst; inversion H2; subst; try congruence; auto.
  - assert (c = c0) by congruence. subst. auto.
  - assert (e = e0) by congruence. subst. auto.
Qed.

(** The state in which the collection is provisioned for a registration. *)
Lemma registration_state (w : World) req p a r :
  In (ChainRegister a r) (calls w req p) ->
  exists fdm q fee share rest o,
    resolveDepthMetadata w req p = (Ok fdm, q)
    /\ In (ChainRegister a r) rest
    /\ (exists fetch, calls w req p = fetch ++ rest)
    /\ registration_run w req fdm fee share q rest o
    /\ answer o (fst (register_ip w req p)).
Proof.
  intros Hin. pose proof (register_ip_course w req p) as Hc. unfold course in Hc.
  destruct (truthy (imageCid req) && truthy (deviceAddress req)).
  2:{ destruct Hc as (Hc & _). rewrite Hc in Hin. contradiction. }
  destruct Hc as (fetch & o & q & Hrd & Hres & Hc).
  assert (Hfetch : In (ChainRegister a r) fetch -> False).
  { intros Hf. exact (kind_of_member _ _ _ (resolution_events _ _ _ _ _ _ Hres) Hf). }
  destruct o as [fdm | e].
  2:{ destruct Hc as (Hc & _). rewrite Hc in Hin. contradiction. }
  destruct (resolveMintingFee w req) as [fee | e].
  2:{ destruct Hc as (Hc & _). rewrite Hc in Hin. contradiction. }
  destruct (resolveRevShare w req) as [share | e].
  2:{ destruct Hc as (Hc & _). rewrite Hc in Hin. contradiction. }
  destruct (out_of_range share) eqn:Hrange.
  { destruct Hc as (Hc & _). rewrite Hc in Hin. contradiction. }
  destruct Hc as (rest & o' & Hc & Hrun & Hans).
  rewrite Hc in Hin. apply in_app_or in Hin. destruct Hin as [Hin | Hin]; [contradiction |].
  destruct Hrun as [Hun | Hrun];
    [destruct (unfinished_kinds _ _ _ _ Hun) as (Hkinds & _) |].
  { exfalso. destruct (kind_of_member _ _ _ Hkinds Hin) as [[] | []]. }
  exists fdm, q, fee, share, rest, o'.
  split; [exact Hrd |]. split; [exact Hin |]. split; [exists fetch; exact Hc |].
  split; [exact Hrun | exact Hans].
Qed.

(** ** The addresses inside the documents *)

Ltac unfold_run H :=
  repeat (apply bind_inv in H;
          destruct H as [(? & ? & ? & H) | (? & ? & ?)]; [| subst]);
  repeat match goal with
    | H : lift _ _ = (_, _) |- _ => apply lift_inv in H; destruct H as [? ?]; subst
    | H : ret _ _ = (_, _) |- _ => apply ret_inv in H; destruct H as [? ?]; subst
    | H : now _ _ _ = (_, _) |- _ => apply now_inv in H; destruct H as (? & ? & ?)
    end.

Lemma ipfsUri_inv v u : Ok u = ipfsUri v -> exists s, ToString v = Ok s /\ u = "ipfs://" +++ s.
Proof.
  unfold ipfsUri. simpl. destruct (ToString v) as [s | e]; simpl; intros H; inversion H.
  exists s. rewrite append_empty. split; reflexivity.
Qed.

(** ** When the reconciler throws *)


(** ** The run of a failed upload *)



(** ** The documents published in a run *)

(** Every document published in a run is one of the two the handler builds
    from the request. *)
Lemma published_document (w : World) req p doc r :
  In (publish doc r) (calls w req p) -> handler_document w req doc.
Proof.
  intros Hin. pose proof (register_ip_course w req p) as Hc. unfold course in Hc.
  destruct (truthy (imageCid req) && truthy (deviceAddress req)).
  2:{ destruct Hc as (Hc & _). rewrite Hc in Hin. contradiction. }
  destruct Hc as (fetch & o & q & Hrd & Hres & Hc).
  assert (Hfetch : In (publish doc r) fetch -> False).
  { intros Hf. exact (kind_of_member _ _ _ (resolution_events _ _ _ _ _ _ Hres) Hf). }
  destruct o as [fdm | e].
  2:{ destruct Hc as (Hc & _). rewrite Hc in Hin. contradiction. }
  destruct (resolveMintingFee w req) as [fee | e].
  2:{ destruct Hc as (Hc & _). rewrite Hc in Hin. contradiction. }
  destruct (resolveRevShare w req) as [share | e].
  2:{ destruct Hc as (Hc & _). rewrite Hc in Hin. contradiction. }
  destruct (out_of_range share) eqn:Hrange.
  { destruct Hc as (Hc & _). rewrite Hc in Hin. contradiction. }
  destruct Hc as (rest & o' & Hc & Hrun & Hans).
  rewrite Hc in Hin. apply in_app_or in Hin. destruct Hin as [Hin | Hin]; [contradiction |].
  destruct Hrun as [(Hkinds & _) | Hrun].
  - destruct (kind_of_member _ _ _ Hkinds Hin) as [Hcre | (d & r' & E & Hdoc)].
    + destruct Hcre.
    + inversion E; subst. exact Hdoc.
  - destruct Hrun as [cre nft q' cid iurl murl fields r1 h1 s1 nftMetadata
                      r2 h2 s2 args r0 recs o Hv Hcid Hi Hm Hf Hdoc1 Hu1 Hs1
                      Hd Hdoc2 Hu2 Hs2 Hargs Huri1 Huri2 Hend].
    pose proof (provision_events _ _ _ _ _ Hv) as (Hcre & _).
    pose proof (settlement_records _ _ _ _ _ _ _ _ _ _ _ Hend) as Hrecs.
    apply in_app_or in Hin. destruct Hin as [Hin | Hin].
    + exfalso. exact (kind_of_member _ _ _ Hcre Hin).
    + simpl in Hin. destruct Hin as [Hin | [Hin | [Hin | Hin]]]; try discriminate Hin.
      * inversion Hin; subst. exact Hdoc1.
      * inversion Hin; subst. exact Hdoc2.
      * exfalso. exact (kind_of_member _ _ _ Hrecs Hin).
Qed.

(** The addresses inside the object handed to [generateIpMetadata]. *)
Lemma ipMetadataFields_addresses (w : World) req murl q fields q' :
  ipMetadataFields w req murl q = (Ok fields, q') ->
  exists cid mid attrs,
    imageCid req = VStr cid /\ media_id req = VStr mid
    /\ field fields "image" = VStr ("ipfs://" +++ cid)
    /\ field fields "mediaUrl" = VStr ("ipfs://" +++ mid)
    /\ field fields "attributes" = VArr attrs
    /\ In (VObj [("key", VStr "DepthDataURL");
                 ("value", VStr (if truthy (metadataCid req) then murl else "N/A"))]) attrs
    /\ (if truthy (metadataCid req)
        then field fields "description"
             = VStr ("Evidence capture with depth mapping. Full depth data stored at: "
                     +++ murl)
        else exists device,
               ToString (deviceAddress req) = Ok device
               /\ field fields "description" = VStr ("Evidence capture. Device: " +++ device)).
Proof.
  intros H. unfold ipMetadataFields in H. unfold_run H; try discriminate.
  match goal with
  | E : Ok fields = Ok _ |- _ => inversion E; subst fields; clear E
  end.
  unfold media_id. simpl.
  destruct (truthy (metadataCid req));
    repeat match goal with
      | E : Ok _ = sha256_hex _ |- _ =>
          symmetry in E; apply sha256_hex_inv in E; destruct E as (? & ? & ?); subst
      end;
    repeat match goal with
      | E : Ok _ = ipfsUri _ |- _ =>
          apply ipfsUri_inv in E; destruct E as (? & ? & ?); subst
      end;
    repeat match goal with
      | E1 : ?a = VStr ?x, E2 : ToString ?a = Ok ?y |- _ =>
          rewrite E1 in E2; simpl in E2; injection E2 as E2; subst y
      end.
  - do 3 eexists. split; [eassumption |]. split; [eassumption |].
    do 3 (split; [reflexivity |]). split; [do 5 right; left; reflexivity |].
    match goal with E : Ok _ = Ok _ |- _ => inversion E end. reflexivity.
  - match goal with
    | E1 : imageCid req = VStr ?a, E2 : imageCid req = VStr ?b |- _ =>
        assert (a = b) by congruence; subst a
    end.
    do 3 eexists. split; [eassumption |]. split; [eassumption |].
    do 3 (split; [reflexivity |]). split; [do 5 right; left; reflexivity |].
    match goal with E : Ok _ = template _ |- _ => simpl in E; rename E into Ht end.
    destruct (ToString (deviceAddress req)) as [device | e]; simpl in Ht; inversion Ht.
    exists device. split; [reflexivity |]. rewrite append_empty. reflexivity.
Qed.

(** The addresses inside the collectible document. *)
Lemma nftMetadataFields_addresses (w : World) req iurl murl q doc q' :
  nftMetadataFields w req iurl murl q = (Ok doc, q') ->
  (exists c, ToString (imageCid req) = Ok c
             /\ field doc "image" = VStr ("ipfs://" +++ c))
  /\ (if truthy (metadataCid req)
      then exists m, ToString (metadataCid req) = Ok m
                     /\ field doc "animation_url" = VStr ("ipfs://" +++ m)
                     /\ field doc "external_url" = VStr murl
      else field doc "animation_url" = VUndefined
           /\ field doc "external_url" = VStr iurl).
Proof.
  intros H. unfold nftMetadataFields in H. unfold_run H; try discriminate.
  match goal with
  | E : Ok doc = Ok _ |- _ => inversion E; subst doc; clear E
  end.
  simpl.
  destruct (truthy (metadataCid req));
    repeat match goal with
      | E : Ok _ = ipfsUri _ |- _ =>
          apply ipfsUri_inv in E; destruct E as (? & ? & ?); subst
      end.
  + match goal with
    | E : Ok _ = obind (ipfsUri _) _ |- _ =>
        unfold obind in E;
        destruct (ipfsUri (metadataCid req)) as [u |] eqn:Hu; inversion E; subst;
        symmetry in Hu; apply ipfsUri_inv in Hu; destruct Hu as (m & Hm & ->)
    end.
    split; [eexists; split; [eassumption | reflexivity] |].
    exists m. repeat split; assumption.
  + match goal with
    | E : Ok _ = Ok VUndefined |- _ => inversion E; subst
    end.
    split; [eexists; split; [eassumption | reflexivity] |].
    split; reflexivity.
Qed.

(* ================================================================== *)
(** * The properties of the design document *)
(* ================================================================== *)

Local Open Scope string_scope.
(** ** C1: validation and the first external call *)

(** C1, as stated, fails: a request with a metadata identifier to fetch and
    a revenue share of 101 is answered 400 after the storage gateway has
    been called. *)
Lemma range_rejection_follows_fetch :
  status (fst (register_ip Scenario.happy Scenario.share_101 startup)) = 400
  /\ calls Scenario.happy Scenario.share_101 startup
     = [StorageFetch "https://gateway.pinata.cloud/ipfs/Qmeta1"
                     (Resolved (200, Scenario.depth_payload))].
Proof. vm_compute. split; reflexivity. Qed.

(** C1, amended: a 400 response is sent before the collection is
    provisioned, before anything is published, before any chain call and
    before the record store is touched.  When a required field is missing
    no call at all has been made; when the revenue share is out of range
    the only call that can have been made is the fetch of [metadataCid],
    which is made exactly when that identifier is given without inline
    depth metadata. *)
Theorem rejections_precede_provisioning (w : World) (req : Request) (p : Process) :
  status (fst (register_ip w req p)) = 400 ->
  (truthy (imageCid req) && truthy (deviceAddress req) = false
   /\ calls w req p = [])
  \/ (truthy (imageCid req) && truthy (deviceAddress req) = true
      /\ (exists share, resolveRevShare w req = Ok share /\ out_of_range share = true)
      /\ (fetch_needed req = false /\ calls w req p = []
          \/ fetch_needed req = true
             /\ exists url r, calls w req p = [StorageFetch url r])).
Proof.
  intros H400.
  pose proof (register_ip_shape w req p) as Hshape.
  remember (calls w req p) as evs eqn:Hevs in *.
  remember (fst (register_ip w req p)) as res eqn:Hres in *.
  remember (spgNftContract (snd (register_ip w req p))) as c eqn:Hc in *.
  destruct Hshape.
  - left. auto.
  - unfold failure in H400. simpl in H400. discriminate H400.
  - right. split; [assumption |]. split; [eauto |].
    match goal with Hr : resolution _ _ _ _ _ _ |- _ => inversion Hr; subst end.
    + left. split; [| reflexivity]. unfold fetch_needed.
      match goal with Ht : truthy (depthMetadata req) = true |- _ => rewrite Ht end.
      apply andb_false_r.
    + left. split; [| reflexivity]. unfold fetch_needed.
      match goal with Ht : truthy (metadataCid req) = false |- _ => rewrite Ht end.
      reflexivity.
    + right. eauto.
    + right. eauto.
  - unfold failure in H400. simpl in H400. discriminate H400.
  - clear Hres Hevs Hc.
    match goal with Hp : pipeline _ _ _ _ _ _ _ (Ok _) _ |- _ => inversion Hp; subst end.
    unfold success in H400. simpl in H400. discriminate H400.
Qed.

Lemma rejections_precede_provisioning_witness :
  status (fst (register_ip Scenario.happy Scenario.share_101 startup)) = 400
  /\ ((truthy (imageCid Scenario.share_101) && truthy (deviceAddress Scenario.share_101) = false
       /\ calls Scenario.happy Scenario.share_101 startup = [])
      \/ (truthy (imageCid Scenario.share_101) && truthy (deviceAddress Scenario.share_101) = true
          /\ (exists share, resolveRevShare Scenario.happy Scenario.share_101 = Ok share
                            /\ out_of_range share = true)
          /\ (fetch_needed Scenario.share_101 = false
              /\ calls Scenario.happy Scenario.share_101 startup = []
              \/ fetch_needed Scenario.share_101 = true
                 /\ exists url r,
                      calls Scenario.happy Scenario.share_101 startup
                      = [StorageFetch url r]))).
Proof.
  split.
  - vm_compute. reflexivity.
  - apply (rejections_precede_provisioning Scenario.happy Scenario.share_101 startup).
    vm_compute. reflexivity.
Defined.
(** ** C2: the reconciler never raises *)



(** ** C3: inline depth metadata and the metadata identifier *)

(** C3, as stated, fails: with both an inline payload and a metadata
    identifier, the response echoes the inline payload, not the one the
    identifier resolves to, and the identifier is not even fetched. *)
Lemma inline_payload_supersedes_identifier :
  truthy (depthMetadata Scenario.both_supplied) = true
  /\ truthy (metadataCid Scenario.both_supplied) = true
  /\ status (fst (register_ip Scenario.happy Scenario.both_supplied startup)) = 200
  /\ echoed (fst (register_ip Scenario.happy Scenario.both_supplied startup)) "depthMetadata"
     = VObj [("points", VNum (Int 3))]
  /\ or_note (extractDepth Scenario.both_supplied Scenario.depth_payload)
     = VObj [("points", VNum (Int 7))]
  /\ forall url r,
       ~ In (StorageFetch url r) (calls Scenario.happy Scenario.both_supplied startup).
Proof.
  vm_compute. repeat split; try reflexivity.
  intros url r H. repeat (destruct H as [H | H]; [discriminate H |]). exact H.
Qed.

(** C3, amended: a truthy inline [depthMetadata] is the effective depth
    metadata, echoed in the response, and then [metadataCid] is not
    fetched; the payload fetched from [metadataCid] is the effective depth
    metadata only when no truthy inline [depthMetadata] is given. *)
Theorem inline_depth_metadata_is_used (w : World) (req : Request) (p : Process) :
  (truthy (depthMetadata req) = true ->
   (forall url r, ~ In (StorageFetch url r) (calls w req p))
   /\ (status (fst (register_ip w req p)) = 200 ->
       echoed (fst (register_ip w req p)) "depthMetadata" = depthMetadata req))
  /\ (truthy (depthMetadata req) = false ->
      forall url resp,
        In (StorageFetch url (Resolved resp)) (calls w req p) ->
        status (fst (register_ip w req p)) = 200 ->
        echoed (fst (register_ip w req p)) "depthMetadata"
        = or_note (extractDepth req (snd resp))).
Proof.
  split.
  - intros Hd. split.
    + intros url r Hin.
      pose proof (register_ip_shape w req p) as Hshape.
      remember (calls w req p) as evs eqn:Hevs in *.
      remember (fst (register_ip w req p)) as res eqn:Hres in *.
      remember (spgNftContract (snd (register_ip w req p))) as c eqn:Hc in *.
      clear Hevs Hres Hc.
      assert (Hnone : forall fetch o q, resolution w req p fetch o q -> fetch = []).
      { intros fetch o q Hr. inversion Hr; subst; try reflexivity;
          unfold fetch_needed in *; rewrite Hd, andb_false_r in *; discriminate. }
      destruct Hshape as [ | fetch o q e t _ _ Hr _ | fetch fdm q fee share _ _ Hr _ _ _
                           | fetch fdm q fee share evs e c t _ _ Hr _ _ _ Hp
                           | fetch fdm q fee share evs res c _ _ Hr _ _ _ Hp ];
        try (apply Hnone in Hr; subst fetch); try contradiction;
        simpl in Hin; eapply pipeline_no_fetch; eassumption.
    + intros H200.
      destruct (success_inv w req p H200) as (fetch & fdm & q & fee & share & evs
                                               & _ & Hr & _ & _ & _ & _ & Hp).
      apply pipeline_echo in Hp. destruct Hp as (-> & _).
      inversion Hr; subst; try reflexivity; try congruence;
        unfold fetch_needed in *; rewrite Hd, andb_false_r in *; discriminate.
  - intros Hd url resp Hin H200.
    destruct (success_inv w req p H200) as (fetch & fdm & q & fee & share & evs
                                             & _ & Hr & _ & _ & _ & Hcalls & Hp).
    rewrite Hcalls in Hin.
    pose proof (pipeline_no_fetch _ _ _ _ _ _ _ _ _ Hp url (Resolved resp)) as Hno.
    apply pipeline_echo in Hp. destruct Hp as (-> & _).
    apply in_app_or in Hin. destruct Hin as [Hin | Hin]; [| contradiction].
    inversion Hr; subst; simpl in Hin; try contradiction;
      destruct Hin as [Hin | []]; inversion Hin; subst; reflexivity.
Qed.

Lemma inline_depth_metadata_is_used_witness :
  (truthy (depthMetadata Scenario.both_supplied) = true
   /\ status (fst (register_ip Scenario.happy Scenario.both_supplied startup)) = 200
   /\ (forall url r,
         ~ In (StorageFetch url r) (calls Scenario.happy Scenario.both_supplied startup))
   /\ echoed (fst (register_ip Scenario.happy Scenario.both_supplied startup)) "depthMetadata"
      = depthMetadata Scenario.both_supplied)
  /\ (truthy (depthMetadata Scenario.with_metadata) = false
      /\ In (StorageFetch "https://gateway.pinata.cloud/ipfs/Qmeta1"
                          (Resolved (200, Scenario.depth_payload)))
            (calls Scenario.happy Scenario.with_metadata startup)
      /\ status (fst (register_ip Scenario.happy Scenario.with_metadata startup)) = 200
      /\ echoed (fst (register_ip Scenario.happy Scenario.with_metadata startup)) "depthMetadata"
         = or_note (extractDepth Scenario.with_metadata Scenario.depth_payload)).
Proof.
  split.
  - assert (Hd : truthy (depthMetadata Scenario.both_supplied) = true) by reflexivity.
    assert (H200 : status (fst (register_ip Scenario.happy Scenario.both_supplied startup)) = 200)
      by (vm_compute; reflexivity).
    destruct (inline_depth_metadata_is_used Scenario.happy Scenario.both_supplied startup)
      as [Hinline _].
    destruct (Hinline Hd) as [Hnofetch Hecho].
    split; [exact Hd |]. split; [exact H200 |]. split; [exact Hnofetch | exact (Hecho H200)].
  - assert (Hd : truthy (depthMetadata Scenario.with_metadata) = false) by reflexivity.
    assert (Hin : In (StorageFetch "https://gateway.pinata.cloud/ipfs/Qmeta1"
                                   (Resolved (200, Scenario.depth_payload)))
                     (calls Scenario.happy Scenario.with_metadata startup))
      by (vm_compute; left; reflexivity).
    assert (H200 : status (fst (register_ip Scenario.happy Scenario.with_metadata startup)) = 200)
      by (vm_compute; reflexivity).
    destruct (inline_depth_metadata_is_used Scenario.happy Scenario.with_metadata startup)
      as [_ Hfetched].
    pose proof (Hfetched Hd _ _ Hin H200) as Hecho.
    split; [exact Hd |]. split; [exact Hin |]. split; [exact H200 | exact Hecho].
Defined.
(** ** C4: a failed publish *)




(** ** C5: the bounds of the revenue share *)

(** C5: on a request that is otherwise valid, a [commercialRevShare] of -1
    or 101 is answered 400 (with the value as [provided]); 0 and 100 pass
    the range check and are the revenue share of the license terms given
    to the chain and the one echoed in the response. *)
Theorem revenue_share_bounds (w : World) (req : Request) (p : Process) (n : Z) :
  otherwise_valid w req ->
  commercialRevShare req = VNum (Int n) ->
  (n = -1 \/ n = 101 ->
   fst (register_ip w req p) = share_out_of_range (Int n)
   /\ status (fst (register_ip w req p)) = 400)
  /\ (n = 0 \/ n = 100 ->
      resolveRevShare w req = Ok (Int n)
      /\ status (fst (register_ip w req p)) <> 400
      /\ (forall a r, In (ChainRegister a r) (calls w req p) ->
                      terms_commercialRevShare a = Int n)
      /\ (status (fst (register_ip w req p)) = 200 ->
          echoed (fst (register_ip w req p)) "commercialRevShare" = VNum (Int n))).
Proof.
  intros (Hreq & Hcid & fee0 & Hfee) Hn.
  assert (Hrev : n = -1 \/ n = 101 \/ n = 0 \/ n = 100 -> resolveRevShare w req = Ok (Int n)).
  { unfold resolveRevShare. rewrite Hn. simpl.
    intros [-> | [-> | [-> | ->]]]; reflexivity. }
  pose proof (register_ip_shape w req p) as Hshape.
  remember (calls w req p) as evs eqn:Hevs in *.
  remember (fst (register_ip w req p)) as res eqn:Hres in *.
  remember (spgNftContract (snd (register_ip w req p))) as c eqn:Hc in *.
  clear Hevs Hres Hc.
  assert (Hvalid : forall fetch o q e, resolution w req p fetch o q -> o = Throw e -> False).
  { intros fetch o q e Hr ->. inversion Hr; subst.
    destruct (Hcid ltac:(assumption)) as (s & Hs). congruence. }
  split; intros Hcase.
  - assert (Hr' : resolveRevShare w req = Ok (Int n)) by (apply Hrev; tauto).
    assert (Hout : out_of_range (Int n) = true) by (destruct Hcase as [-> | ->]; reflexivity).
    destruct Hshape as [ | fetch o q e t _ _ Hr Hthrow | fetch fdm q fee share _ _ Hr _ Hshare _
                         | fetch fdm q fee share evs e c t _ _ Hr _ Hshare Hin _
                         | fetch fdm q fee share evs res c _ _ Hr _ Hshare Hin _ ];
      try congruence.
    + exfalso. destruct Hthrow as [Ho | [Hf | Hs]]; try congruence. eapply Hvalid; eassumption.
    + assert (share = Int n) by congruence. subst share. split; reflexivity.
  - assert (Hr' : resolveRevShare w req = Ok (Int n)) by (apply Hrev; tauto).
    assert (Hout : out_of_range (Int n) = false) by (destruct Hcase as [-> | ->]; reflexivity).
    split; [assumption |].
    destruct Hshape as [ | fetch o q e t _ _ Hr Hthrow | fetch fdm q fee share _ _ Hr _ Hshare Hrange
                         | fetch fdm q fee share evs e c t _ _ Hr _ Hshare _ Hp
                         | fetch fdm q fee share evs res c _ _ Hr _ Hshare _ Hp ];
      try congruence;
      try (pose proof (resolution_events _ _ _ _ _ _ Hr) as Hfetch).
    + exfalso. destruct Hthrow as [Ho | [Hf | Hs]]; try congruence. eapply Hvalid; eassumption.
    + assert (share = Int n) by congruence. subst share.
      split; [unfold failure; simpl; discriminate |].
      split; [| unfold failure; simpl; discriminate].
      intros a r Hin. apply in_app_or in Hin. destruct Hin as [Hin | Hin].
      * exfalso. exact (kind_of_member _ _ _ Hfetch Hin).
      * destruct (pipeline_register _ _ _ _ _ _ _ _ _ _ _ Hp Hin)
          as (nft & fields & nftMetadata & r1 & r2 & _ & _ & Hargs & _).
        destruct Hargs as (s1 & s2 & _ & _ & _ & Hshare' & _). assumption.
    + assert (share = Int n) by congruence. subst share.
      destruct (pipeline_echo _ _ _ _ _ _ _ _ _ Hp) as (_ & Hecho & H200).
      split; [rewrite H200; discriminate |].
      split; [| intros _; assumption].
      intros a r Hin. apply in_app_or in Hin. destruct Hin as [Hin | Hin].
      * exfalso. exact (kind_of_member _ _ _ Hfetch Hin).
      * destruct (pipeline_register _ _ _ _ _ _ _ _ _ _ _ Hp Hin)
          as (nft & fields & nftMetadata & r1 & r2 & _ & _ & Hargs & _).
        destruct Hargs as (s1 & s2 & _ & _ & _ & Hshare' & _). assumption.
Qed.

Lemma revenue_share_bounds_witness :
  (otherwise_valid Scenario.happy Scenario.share_101
   /\ commercialRevShare Scenario.share_101 = VNum (Int 101)
   /\ status (fst (register_ip Scenario.happy Scenario.share_101 startup)) = 400)
  /\ (otherwise_valid Scenario.happy Scenario.share_100
      /\ commercialRevShare Scenario.share_100 = VNum (Int 100)
      /\ status (fst (register_ip Scenario.happy Scenario.share_100 startup)) <> 400
      /\ echoed (fst (register_ip Scenario.happy Scenario.share_100 startup))
                "commercialRevShare" = VNum (Int 100)).
Proof.
  assert (V1 : otherwise_valid Scenario.happy Scenario.share_101).
  { split; [reflexivity |]. split; [intros _; eexists; reflexivity |].
    eexists. vm_compute. reflexivity. }
  assert (V2 : otherwise_valid Scenario.happy Scenario.share_100).
  { split; [reflexivity |]. split; [intros _; eexists; reflexivity |].
    eexists. vm_compute. reflexivity. }
  split.
  - destruct (revenue_share_bounds Scenario.happy Scenario.share_101 startup 101 V1 eq_refl)
      as [Hout _].
    destruct (Hout (or_intror eq_refl)) as [_ H400].
    split; [exact V1 | split; [reflexivity | exact H400]].
  - destruct (revenue_share_bounds Scenario.happy Scenario.share_100 startup 100 V2 eq_refl)
      as [_ Hin].
    destruct (Hin (or_intror eq_refl)) as (_ & Hnot & _ & Hecho).
    assert (H200 : status (fst (register_ip Scenario.happy Scenario.share_100 startup)) = 200)
      by (vm_compute; reflexivity).
    split; [exact V2 | split; [reflexivity | split; [exact Hnot | exact (Hecho H200)]]].
Defined.
(** ** C6: the four digests *)

(** C6: in every run the image-hash field of the asset document is [0x]
    followed by the SHA-256 of the [imageCid] string itself, and the
    media-hash field the SHA-256 of the [metadataCid] string, or of
    [imageCid] again when there is no metadata identifier; both depend on
    nothing but these strings, so they are the same on every call.  The two
    hashes bound in the registration are the SHA-256 of the JSON
    serialization of the published asset document and of the published
    collectible document.  (The fields are those of the object the handler
    hands to the SDK's [generateIpMetadata].) *)
Theorem digests_of_identifiers_and_documents (w : World) (req : Request) (p : Process) :
  (forall doc r,
      In (publish doc r) (calls w req p) ->
      exists cid mid fields r1,
        imageCid req = VStr cid
        /\ media_id req = VStr mid
        /\ In (publish (generateIpMetadata w fields) r1) (calls w req p)
        /\ field fields "imageHash" = VStr ("0x" +++ SHA256.hex cid)
        /\ field fields "mediaHash" = VStr ("0x" +++ SHA256.hex mid))
  /\ (forall a r,
        In (ChainRegister a r) (calls w req p) ->
        exists fields nftMetadata r1 r2 s1 s2,
          asset_fields req fields
          /\ collectible_document w req nftMetadata
          /\ In (publish (generateIpMetadata w fields) r1) (calls w req p)
          /\ In (publish nftMetadata r2) (calls w req p)
          /\ JSON_stringify (generateIpMetadata w fields) = Some s1
          /\ JSON_stringify nftMetadata = Some s2
          /\ ipMetadataHash a = "0x" +++ SHA256.hex s1
          /\ nftMetadataHash a = "0x" +++ SHA256.hex s2)
  /\ (forall w' req' metadataHttpUrl metadataHttpUrl' q q1 q' q1' fields fields',
        imageCid req' = imageCid req ->
        ipMetadataFields w req metadataHttpUrl q = (Ok fields, q1) ->
        ipMetadataFields w' req' metadataHttpUrl' q' = (Ok fields', q1') ->
        field fields' "imageHash" = field fields "imageHash").
Proof.
  split; [| split].
  - intros doc r Hin.
    destruct (calls_inv w req p _ Hin) as [[] | Hrun].
    destruct Hrun as (fetch & fdm & q & fee & share & evs & o & c
                      & _ & _ & _ & _ & Hcalls & Hp & Hin').
    destruct (pipeline_publish _ _ _ _ _ _ _ _ _ _ _ Hp Hin') as (fields & r1 & Hf & Hin1).
    destruct Hf as (cid & mid & fs & Hcid & Hmid & -> & Himage & Hmedia & _).
    exists cid, mid, (VObj fs), r1.
    repeat split; try assumption.
    + rewrite Hcalls. apply in_or_app. right. assumption.
    + simpl. rewrite Himage. reflexivity.
    + simpl. rewrite Hmedia. reflexivity.
  - intros a r Hin.
    destruct (calls_inv w req p _ Hin) as [[] | Hrun].
    destruct Hrun as (fetch & fdm & q & fee & share & evs & o & c
                      & _ & _ & _ & _ & Hcalls & Hp & Hin').
    destruct (pipeline_register _ _ _ _ _ _ _ _ _ _ _ Hp Hin')
      as (nft & fields & nftMetadata & r1 & r2 & Hf & Hn & Hargs & Hin1 & Hin2).
    destruct Hargs as (s1 & s2 & Hs1 & Hs2 & _ & _ & _ & Hh1 & Hh2).
    exists fields, nftMetadata, r1, r2, s1, s2.
    rewrite Hcalls.
    repeat split; try assumption; apply in_or_app; right; assumption.
  - intros w' req' murl murl' q q1 q' q1' fields fields' Hsame Hf Hf'.
    apply ipMetadataFields_inv in Hf, Hf'.
    destruct Hf as (_ & _ & Hf), Hf' as (_ & _ & Hf').
    destruct (Hf _ eq_refl) as (cid & mid & fs & Hcid & _ & -> & Himage & _).
    destruct (Hf' _ eq_refl) as (cid' & mid' & fs' & Hcid' & _ & -> & Himage' & _).
    simpl. rewrite Himage, Himage'.
    assert (cid' = cid) by congruence. subst. reflexivity.
Qed.

Lemma digests_of_identifiers_and_documents_witness :
  exists a resp fields,
    In (ChainRegister a (Resolved resp)) (calls Scenario.happy Scenario.with_metadata startup)
    /\ asset_fields Scenario.with_metadata fields
    /\ field fields "imageHash"
       = VStr "0x51d833921c1df79a51e6aa9fa83d9f1931f5c035a003391f8b3aa27472c919e8"
    /\ (exists s1, JSON_stringify (generateIpMetadata Scenario.happy fields) = Some s1
                   /\ ipMetadataHash a = "0x" +++ SHA256.hex s1).
Proof.
  assert (Hin : exists a resp,
             In (ChainRegister a (Resolved resp))
                (calls Scenario.happy Scenario.with_metadata startup)).
  { vm_compute. do 2 eexists. do 4 right. left. reflexivity. }
  destruct Hin as (a & resp & Hin).
  destruct (digests_of_identifiers_and_documents Scenario.happy Scenario.with_metadata startup)
    as (_ & Hreg & _).
  destruct (Hreg a (Resolved resp) Hin)
    as (fields & nftMetadata & r1 & r2 & s1 & s2 & Hf & _ & _ & _ & Hs1 & _ & Hh1 & _).
  exists a, resp, fields.
  split; [exact Hin |]. split; [exact Hf |]. split.
  - destruct Hf as (cid & mid & fs & Hcid & _ & -> & Himage & _).
    simpl. rewrite Himage. inversion Hcid; subst. vm_compute. reflexivity.
  - exists s1. split; assumption.
Defined.
(** ** C7: a failed fetch of the metadata identifier *)

Lemma register_ip_try_unfold (w : World) (req : Request) :
  truthy (imageCid req) && truthy (deviceAddress req) = true ->
  register_ip_try w req
  = (finalDepthMetadata <- resolveDepthMetadata w req ;;
     afterResolution w req finalDepthMetadata).
Proof.
  intros H. unfold register_ip_try, afterResolution.
  destruct (truthy (imageCid req)), (truthy (deviceAddress req)); try discriminate H.
  reflexivity.
Qed.

(** C7: when the fetch of [metadataCid] fails the run is not aborted: the
    effective depth metadata is the placeholder [{metadataCid}], the handler
    goes on with the resolution of the terms and the rest of the pipeline,
    and a run that then succeeds has published the asset document and
    echoes the placeholder. *)
Theorem failed_fetch_falls_back_to_placeholder
    (w : World) (req : Request) (p : Process) (url : string) (e : error) :
  In (StorageFetch url (Rejected e)) (calls w req p) ->
  resolveDepthMetadata w req p
  = (Ok (placeholder req), record (StorageFetch url (Rejected e)) p)
  /\ register_ip_try w req p
     = afterResolution w req (placeholder req) (record (StorageFetch url (Rejected e)) p)
  /\ (status (fst (register_ip w req p)) = 200 ->
      echoed (fst (register_ip w req p)) "depthMetadata" = placeholder req
      /\ exists fields r,
           asset_fields req fields
           /\ In (publish (generateIpMetadata w fields) r) (calls w req p)).
Proof.
  intros Hin.
  assert (Hrun : truthy (imageCid req) && truthy (deviceAddress req) = true
                 /\ resolveDepthMetadata w req p
                    = (Ok (placeholder req), record (StorageFetch url (Rejected e)) p)).
  { pose proof (register_ip_shape w req p) as Hshape.
    remember (calls w req p) as evs eqn:Hevs in *.
    remember (fst (register_ip w req p)) as res eqn:Hres in *.
    remember (spgNftContract (snd (register_ip w req p))) as c eqn:Hc in *.
    clear Hevs Hres Hc.
    assert (Hfetch : forall fetch o q,
               resolveDepthMetadata w req p = (o, q) ->
               resolution w req p fetch o q ->
               In (StorageFetch url (Rejected e)) fetch ->
               resolveDepthMetadata w req p
               = (Ok (placeholder req), record (StorageFetch url (Rejected e)) p)).
    { intros fetch o q Heq Hr Hi. rewrite Heq.
      inversion Hr; subst; simpl in Hi; try contradiction;
        destruct Hi as [Hi | []]; inversion Hi; subst. reflexivity. }
    destruct Hshape as [ | fetch o q e' t Hreq Heq Hr _ | fetch fdm q fee share Hreq Heq Hr _ _ _
                         | fetch fdm q fee share evs e' c t Hreq Heq Hr _ _ _ Hp
                         | fetch fdm q fee share evs res c Hreq Heq Hr _ _ _ Hp ].
    - contradiction.
    - split; [assumption | eapply Hfetch; eassumption].
    - split; [assumption | eapply Hfetch; eassumption].
    - split; [assumption |]. apply in_app_or in Hin. destruct Hin as [Hin | Hin].
      + eapply Hfetch; eassumption.
      + exfalso. eapply pipeline_no_fetch; eassumption.
    - split; [assumption |]. apply in_app_or in Hin. destruct Hin as [Hin | Hin].
      + eapply Hfetch; eassumption.
      + exfalso. eapply pipeline_no_fetch; eassumption. }
  destruct Hrun as (Hreq & Hrun).
  split; [exact Hrun |]. split.
  - rewrite (register_ip_try_unfold w req Hreq). unfold bind at 1. rewrite Hrun. reflexivity.
  - intros H200.
    destruct (success_inv w req p H200)
      as (fetch & fdm & q & fee & share & evs & Heq & Hr & _ & _ & _ & Hcalls & Hp).
    assert (fdm = placeholder req) by congruence. subst fdm.
    destruct (pipeline_echo _ _ _ _ _ _ _ _ _ Hp) as (Hecho & _ & _).
    split; [exact Hecho |].
    inversion Hp; subst.
    do 2 eexists. split; [eassumption |].
    rewrite Hcalls. apply in_or_app. right. apply in_or_app. right. simpl. eauto.
Qed.

Lemma failed_fetch_falls_back_to_placeholder_witness :
  exists e,
    In (StorageFetch "https://gateway.pinata.cloud/ipfs/Qmeta1" (Rejected e))
       (calls Scenario.no_gateway Scenario.with_metadata startup)
    /\ status (fst (register_ip Scenario.no_gateway Scenario.with_metadata startup)) = 200
    /\ echoed (fst (register_ip Scenario.no_gateway Scenario.with_metadata startup))
              "depthMetadata"
       = VObj [("metadataCid", VStr "Qmeta1")]
    /\ exists fields r,
         asset_fields Scenario.with_metadata fields
         /\ In (publish (generateIpMetadata Scenario.no_gateway fields) r)
               (calls Scenario.no_gateway Scenario.with_metadata startup).
Proof.
  assert (Hin : exists e,
             In (StorageFetch "https://gateway.pinata.cloud/ipfs/Qmeta1" (Rejected e))
                (calls Scenario.no_gateway Scenario.with_metadata startup)).
  { vm_compute. eexists. left. reflexivity. }
  destruct Hin as (e & Hin). exists e.
  assert (H200 : status (fst (register_ip Scenario.no_gateway Scenario.with_metadata startup))
                 = 200) by (vm_compute; reflexivity).
  destruct (failed_fetch_falls_back_to_placeholder
              Scenario.no_gateway Scenario.with_metadata startup _ e Hin)
    as (_ & _ & Hok).
  destruct (Hok H200) as (Hecho & Hpub).
  split; [exact Hin |]. split; [exact H200 |]. split; [exact Hecho | exact Hpub].
Defined.
(** ** C8: the collection is created at most once *)

(** C8, as stated, fails, in two ways.  A call of
    [getOrCreateCollection] tests the cache before its [await] and writes it
    after: of two calls that overlap on a fresh process, each issues a
    creation transaction, and the handle of the second replaces that of the
    first.  And a creation that resolves without an address leaves the cache
    empty: two requests handled one after the other are then both answered
    200, with two creation calls. *)
Lemma collection_created_twice :
  (exists p',
      overlappingCalls Incident.numbered_collections startup
      = ((Ok (VStr "0xC011ec7100"), Ok (VStr "0xC011ec7101")), p')
      /\ creations (history p') = 2%nat
      /\ handles_created (history p') = 2%nat
      /\ spgNftContract p' = VStr "0xC011ec7101")
  /\ map status (fst (serve Incident.blank_collections [Scenario.basic; Scenario.basic]
                        startup)) = [200; 200]
  /\ creations (history (snd (serve Incident.blank_collections
                                [Scenario.basic; Scenario.basic] startup))) = 2%nat.
Proof.
  split; [eexists; vm_compute; repeat split | vm_compute; split; reflexivity].
Qed.

(** C8, amended.  For requests handled one after another, none taken
    before the previous one is answered: once a truthy (non-empty) collection
    handle is cached, [getOrCreateCollection] returns it without calling the
    chain, and no later request changes it or creates a collection; over the
    whole life of the process, from start-up, at most one creation call
    returns a non-empty handle; and two successful registrations in a row,
    the first of which used a truthy handle, use the same handle, with at
    most one creation call between them.  For calls that overlap:
    [getOrCreateCollection] is its cache test followed, across the [await],
    by its resumption; a call whose test found a truthy handle returns that
    handle without calling the chain, whatever happens to the process in
    between; two calls that both test an empty cache before either is resumed
    both call the chain for a creation.  And a creation that resolves without
    a truthy address leaves the cache empty, so that the next call creates
    again. *)
Theorem collection_created_at_most_once (w : World) :
  (forall p,
      truthy (spgNftContract p) = true ->
      getOrCreateCollection w p = (Ok (spgNftContract p), p))
  /\ (forall reqs p,
        truthy (spgNftContract p) = true ->
        spgNftContract (snd (serve w reqs p)) = spgNftContract p
        /\ creations (history (snd (serve w reqs p))) = creations (history p))
  /\ (forall reqs, (handles_created (history (snd (serve w reqs startup))) <= 1)%nat)
  /\ (forall req1 req2 p,
        status (fst (register_ip w req1 p)) = 200 ->
        status (fst (register_ip w req2 (snd (register_ip w req1 p)))) = 200 ->
        truthy (echoed (fst (register_ip w req1 p)) "nftContract") = true ->
        echoed (fst (register_ip w req2 (snd (register_ip w req1 p)))) "nftContract"
        = echoed (fst (register_ip w req1 p)) "nftContract"
        /\ (creations (calls w req1 p ++ calls w req2 (snd (register_ip w req1 p))) <= 1)%nat)
  /\ (forall p,
        getOrCreateCollection w p
        = getOrCreateCollection_finish w (getOrCreateCollection_start p) p)
  /\ (forall p q,
        truthy (spgNftContract p) = true ->
        getOrCreateCollection_finish w (getOrCreateCollection_start p) q
        = (Ok (spgNftContract p), q))
  /\ (forall p,
        truthy (spgNftContract p) = false ->
        exists r1 r2,
          history (snd (overlappingCalls w p))
          = (history p ++ [ChainCreateCollection r1; ChainCreateCollection r2])%list)
  /\ (forall p created,
        truthy (spgNftContract p) = false ->
        createNFTCollection w (history p) = Resolved created ->
        truthy (opt_value (collection_spgNftContract created)) = false ->
        history (snd (getOrCreateCollection w p))
        = (history p ++ [ChainCreateCollection (Resolved created)])%list
        /\ truthy (spgNftContract (snd (getOrCreateCollection w p))) = false).
Proof.
  split; [| split; [| split; [| split; [| split; [| split; [| split]]]]]].
  - intros p Ht. unfold getOrCreateCollection. rewrite Ht. reflexivity.
  - intros reqs p Ht. apply serve_keeps_cache. exact Ht.
  - intros reqs.
    rewrite (serve_invariant w reqs startup eq_refl).
    destruct (truthy _); simpl; lia.
  - intros req1 req2 p H1 H2 Ht.
    destruct (register_ip_cache w req1 p) as (_ & Hle & _ & Hecho1).
    specialize (Hecho1 H1). rewrite Hecho1 in *.
    destruct (register_ip_cache w req2 (snd (register_ip w req1 p)))
      as (_ & _ & Hkept & Hecho2).
    specialize (Hecho2 H2). destruct (Hkept Ht) as (Hsame & Hnone).
    split; [congruence |].
    rewrite creations_app, Hnone. lia.
  - intros p. unfold getOrCreateCollection, getOrCreateCollection_start.
    destruct (truthy (spgNftContract p)); reflexivity.
  - intros p q Ht. unfold getOrCreateCollection_start. rewrite Ht. reflexivity.
  - intros p Hf. unfold overlappingCalls, getOrCreateCollection_start. rewrite Hf.
    unfold getOrCreateCollection_finish, getOrCreateCollection_resume, bind, await.
    destruct (createNFTCollection w (history p)) as [c1 | e1]; simpl;
      match goal with
      | |- context [createNFTCollection w ?h] =>
          destruct (createNFTCollection w h) as [c2 | e2]; simpl
      end;
      do 2 eexists; rewrite <- app_assoc; reflexivity.
  - intros p created Hf Hc Hblank. unfold getOrCreateCollection. rewrite Hf.
    unfold bind, await. rewrite Hc. simpl. split; [reflexivity | exact Hblank].
Qed.

Lemma collection_created_at_most_once_witness :
  status (fst (register_ip Scenario.happy Scenario.basic startup)) = 200
  /\ status (fst (register_ip Scenario.happy Scenario.with_metadata
                    (snd (register_ip Scenario.happy Scenario.basic startup)))) = 200
  /\ truthy (echoed (fst (register_ip Scenario.happy Scenario.basic startup)) "nftContract")
     = true
  /\ echoed (fst (register_ip Scenario.happy Scenario.with_metadata
                    (snd (register_ip Scenario.happy Scenario.basic startup)))) "nftContract"
     = echoed (fst (register_ip Scenario.happy Scenario.basic startup)) "nftContract"
  /\ (creations (calls Scenario.happy Scenario.basic startup
                 ++ calls Scenario.happy Scenario.with_metadata
                      (snd (register_ip Scenario.happy Scenario.basic startup))) <= 1)%nat
  /\ creations (calls Scenario.happy Scenario.basic startup) = 1%nat.
Proof.
  assert (H1 : status (fst (register_ip Scenario.happy Scenario.basic startup)) = 200)
    by (vm_compute; reflexivity).
  assert (H2 : status (fst (register_ip Scenario.happy Scenario.with_metadata
                              (snd (register_ip Scenario.happy Scenario.basic startup)))) = 200)
    by (vm_compute; reflexivity).
  assert (Ht : truthy (echoed (fst (register_ip Scenario.happy Scenario.basic startup))
                              "nftContract") = true)
    by (vm_compute; reflexivity).
  destruct (collection_created_at_most_once Scenario.happy) as (_ & _ & _ & Htwo & _).
  destruct (Htwo Scenario.basic Scenario.with_metadata startup H1 H2 Ht) as (Hsame & Hle).
  split; [exact H1 |]. split; [exact H2 |]. split; [exact Ht |].
  split; [exact Hsame |]. split; [exact Hle |].
  vm_compute. reflexivity.
Defined.
(** ** C9: the media type of the asset document *)

(** C9: the media type of the asset document is [application/json] exactly
    when the request has a metadata content identifier (a truthy
    [metadataCid]), and [image/jpeg] otherwise; this holds of every
    document the builder returns and of the asset document of every run
    that publishes. *)
Theorem media_type_follows_metadata_id (w : World) (req : Request) :
  (forall metadataHttpUrl q fields q',
      ipMetadataFields w req metadataHttpUrl q = (Ok fields, q') ->
      (field fields "mediaType" = VStr "application/json"
       <-> truthy (metadataCid req) = true)
      /\ (field fields "mediaType" = VStr "image/jpeg"
          <-> truthy (metadataCid req) = false))
  /\ (forall p doc r,
        In (publish doc r) (calls w req p) ->
        exists fields r1,
          In (publish (generateIpMetadata w fields) r1) (calls w req p)
          /\ field fields "mediaType"
             = VStr (if truthy (metadataCid req) then "application/json"
                     else "image/jpeg")).
Proof.
  split.
  - intros murl q fields q' Hf.
    apply ipMetadataFields_inv in Hf. destruct Hf as (_ & _ & Hf).
    destruct (Hf _ eq_refl) as (cid & mid & fs & _ & _ & -> & _ & _ & Htype).
    simpl. rewrite Htype.
    destruct (truthy (metadataCid req)); split; split; intros H;
      try reflexivity; try discriminate H.
  - intros p doc r Hin.
    destruct (calls_inv w req p _ Hin) as [[] | Hrun].
    destruct Hrun as (fetch & fdm & q & fee & share & evs & o & c
                      & _ & _ & _ & _ & Hcalls & Hp & Hin').
    destruct (pipeline_publish _ _ _ _ _ _ _ _ _ _ _ Hp Hin') as (fields & r1 & Hf & Hin1).
    destruct Hf as (cid & mid & fs & _ & _ & -> & _ & _ & Htype).
    exists (VObj fs), r1. split.
    + rewrite Hcalls. apply in_or_app. right. assumption.
    + simpl. rewrite Htype. reflexivity.
Qed.

Lemma media_type_follows_metadata_id_witness :
  (exists fields q',
      ipMetadataFields Scenario.happy Scenario.with_metadata
                       "https://gateway.pinata.cloud/ipfs/Qmeta1" startup = (Ok fields, q')
      /\ field fields "mediaType" = VStr "application/json")
  /\ (exists fields q',
        ipMetadataFields Scenario.happy Scenario.basic
                         "https://gateway.pinata.cloud/ipfs/Qimg1" startup = (Ok fields, q')
        /\ field fields "mediaType" = VStr "image/jpeg").
Proof.
  split.
  - destruct (ipMetadataFields Scenario.happy Scenario.with_metadata
                "https://gateway.pinata.cloud/ipfs/Qmeta1" startup) as [[fields | e] q'] eqn:Hf;
      [| vm_compute in Hf; discriminate Hf].
    exists fields, q'. split; [reflexivity |].
    destruct (media_type_follows_metadata_id Scenario.happy Scenario.with_metadata)
      as [Hbuilder _].
    destruct (Hbuilder _ _ _ _ Hf) as [[_ Hjson] _]. apply Hjson. reflexivity.
  - destruct (ipMetadataFields Scenario.happy Scenario.basic
                "https://gateway.pinata.cloud/ipfs/Qimg1" startup) as [[fields | e] q'] eqn:Hf;
      [| vm_compute in Hf; discriminate Hf].
    exists fields, q'. split; [reflexivity |].
    destruct (media_type_follows_metadata_id Scenario.happy Scenario.basic)
      as [Hbuilder _].
    destruct (Hbuilder _ _ _ _ Hf) as [_ [_ Hjpeg]]. apply Hjpeg. reflexivity.
Defined.
(** ** C10: a revenue share that does not parse *)

(** A resolved revenue share that the range check lets through is the one
    given to the chain and echoed in the response. *)
Lemma accepted_share_is_used (w : World) (req : Request) (p : Process) (share : number) :
  otherwise_valid w req ->
  resolveRevShare w req = Ok share ->
  out_of_range share = false ->
  status (fst (register_ip w req p)) <> 400
  /\ (forall a r, In (ChainRegister a r) (calls w req p) -> terms_commercialRevShare a = share)
  /\ (status (fst (register_ip w req p)) = 200 ->
      echoed (fst (register_ip w req p)) "commercialRevShare" = VNum share).
Proof.
  intros (Hreq & Hcid & fee0 & Hfee) Hshare Hrange.
  split; [| split].
  - pose proof (register_ip_shape w req p) as Hshape.
    remember (calls w req p) as evs eqn:Hevs in *.
    remember (fst (register_ip w req p)) as res eqn:Hres in *.
    remember (spgNftContract (snd (register_ip w req p))) as c eqn:Hc in *.
    clear Hevs Hres Hc.
    destruct Hshape as [ | fetch o q e t ? ? Hr ? | fetch fdm q fee share' ? ? Hr ? ? ?
                         | fetch fdm q fee share' evs e c t ? ? Hr ? ? ? Hp
                         | fetch fdm q fee share' evs res c ? ? Hr ? ? ? Hp ];
      try congruence;
      try (unfold failure; simpl; discriminate).
    destruct (pipeline_echo _ _ _ _ _ _ _ _ _ Hp) as (_ & _ & H200).
    rewrite H200. discriminate.
  - intros a r Hin.
    destruct (calls_inv w req p _ Hin) as [[] | Hrun].
    destruct Hrun as (fetch & fdm & q & fee & share' & evs & o & c
                      & _ & _ & Hshare' & _ & _ & Hp & Hin').
    destruct (pipeline_register _ _ _ _ _ _ _ _ _ _ _ Hp Hin')
      as (nft & fields & nftMetadata & r1 & r2 & _ & _ & Hargs & _).
    destruct Hargs as (s1 & s2 & _ & _ & _ & Hterms & _). congruence.
  - intros H200.
    destruct (success_inv w req p H200)
      as (fetch & fdm & q & fee & share' & evs & _ & _ & _ & Hshare' & _ & _ & Hp).
    destruct (pipeline_echo _ _ _ _ _ _ _ _ _ Hp) as (_ & Hecho & _). congruence.
Qed.

(** C10: a [commercialRevShare] that is given and whose integer parse is
    not a number (the string [abc], say) is not rejected by the range
    check, which only rejects what compares below 0 or above 100: the
    resolved revenue share is [NaN], the request is not answered 400, and
    [NaN] is the revenue share of the license terms given to the chain
    registration and the one echoed in the response. *)
Theorem unparsable_share_passes_validation (w : World) (req : Request) (p : Process) :
  otherwise_valid w req ->
  is_undefined (commercialRevShare req) = false ->
  parseInt (commercialRevShare req) = Ok NaN ->
  resolveRevShare w req = Ok NaN
  /\ out_of_range NaN = false
  /\ status (fst (register_ip w req p)) <> 400
  /\ (forall a r, In (ChainRegister a r) (calls w req p) -> terms_commercialRevShare a = NaN)
  /\ (status (fst (register_ip w req p)) = 200 ->
      echoed (fst (register_ip w req p)) "commercialRevShare" = VNum NaN).
Proof.
  intros Hvalid Hgiven Hparse.
  assert (Hshare : resolveRevShare w req = Ok NaN).
  { unfold resolveRevShare. rewrite Hgiven. simpl. exact Hparse. }
  split; [exact Hshare |]. split; [reflexivity |].
  apply accepted_share_is_used; [exact Hvalid | exact Hshare | reflexivity].
Qed.

Lemma unparsable_share_passes_validation_witness :
  otherwise_valid Scenario.happy Scenario.share_abc
  /\ commercialRevShare Scenario.share_abc = VStr "abc"
  /\ parseInt (commercialRevShare Scenario.share_abc) = Ok NaN
  /\ status (fst (register_ip Scenario.happy Scenario.share_abc startup)) = 200
  /\ (exists a resp,
        In (ChainRegister a (Resolved resp)) (calls Scenario.happy Scenario.share_abc startup)
        /\ terms_commercialRevShare a = NaN)
  /\ echoed (fst (register_ip Scenario.happy Scenario.share_abc startup)) "commercialRevShare"
     = VNum NaN.
Proof.
  assert (V : otherwise_valid Scenario.happy Scenario.share_abc).
  { split; [reflexivity |]. split; [intros H; discriminate H |].
    eexists. vm_compute. reflexivity. }
  assert (H200 : status (fst (register_ip Scenario.happy Scenario.share_abc startup)) = 200)
    by (vm_compute; reflexivity).
  assert (Hin : exists a resp,
             In (ChainRegister a (Resolved resp))
                (calls Scenario.happy Scenario.share_abc startup)).
  { vm_compute. do 2 eexists. do 3 right. left. reflexivity. }
  destruct Hin as (a & resp & Hin).
  destruct (unparsable_share_passes_validation Scenario.happy Scenario.share_abc startup
              V eq_refl eq_refl) as (_ & _ & _ & Hterms & Hecho).
  split; [exact V |]. split; [reflexivity |]. split; [reflexivity |].
  split; [exact H200 |]. split.
  - exists a, resp. split; [exact Hin | exact (Hterms a _ Hin)].
  - exact (Hecho H200).
Defined.

(* ================================================================== *)
(** * Further properties of the code *)
(* ================================================================== *)

Local Open Scope list_scope.

(** ** The responses *)

(** X1.  The handler answers 200, 400 or 500 and nothing else.  A 200 body
    has [success: true]; a 500 body has [success: false] and the message of
    the error; a 400 body has an [error] text but no [success] field. *)
Theorem three_kinds_of_response (w : World) (req : Request) (p : Process) :
  (status (fst (register_ip w req p)) = 200
   /\ field (body (fst (register_ip w req p))) "success" = VBool true)
  \/ (status (fst (register_ip w req p)) = 400
      /\ field (body (fst (register_ip w req p))) "success" = VUndefined
      /\ exists text, field (body (fst (register_ip w req p))) "error" = VStr text)
  \/ (status (fst (register_ip w req p)) = 500
      /\ field (body (fst (register_ip w req p))) "success" = VBool false
      /\ exists text, field (body (fst (register_ip w req p))) "error" = VStr text).
Proof.
  shape_of w req p Hshape.
  destruct Hshape as [ | fetch o q e t ? ? Hr ? | fetch fdm q fee share ? ? Hr ? ? ?
                       | fetch fdm q fee share evs e c t ? ? Hr ? ? ? Hp
                       | fetch fdm q fee share evs res c ? ? Hr ? ? ? Hp ].
  - right. left. unfold missing_fields. simpl. eauto.
  - right. right. unfold failure. simpl. eauto.
  - right. left. unfold share_out_of_range. simpl. eauto.
  - right. right. unfold failure. simpl. eauto.
  - left. inversion Hp; subst. unfold success. simpl. auto.
Qed.

(** ** The order of the calls *)

(** X2.  The calls of a run follow the stages of the pipeline, with no way
    back: at most one fetch from the gateway, then at most one creation of
    the collection, then at most two publishes, then at most one
    registration, then the calls to the record store.  The registration is
    called only after two publishes, and the record store only after a
    registration that resolved. *)
Theorem calls_follow_the_stages (w : World) (req : Request) (p : Process) :
  exists fetch create pubs reg recs,
    calls w req p = fetch ++ create ++ pubs ++ reg ++ recs
    /\ Forall is_fetch fetch /\ (List.length fetch <= 1)%nat
    /\ Forall is_create create /\ (List.length create <= 1)%nat
    /\ Forall is_publish pubs /\ (List.length pubs <= 2)%nat
    /\ Forall is_register reg /\ (List.length reg <= 1)%nat
    /\ Forall is_record recs
    /\ (reg <> [] -> List.length pubs = 2%nat)
    /\ (recs <> [] -> exists a r, reg = [ChainRegister a (Resolved r)]).
Proof.
  assert (Hfetch : forall fetch o q,
             resolution w req p fetch o q ->
             Forall is_fetch fetch /\ (List.length fetch <= 1)%nat).
  { intros fetch o q Hr. destruct Hr; simpl; split; repeat constructor. }
  assert (Hnone : staged [] [] [] []).
  { unfold staged. simpl. repeat split; auto; try lia; congruence. }
  shape_of w req p Hshape.
  destruct Hshape as [ | fetch o q e t ? ? Hr ? | fetch fdm q fee share ? ? Hr ? ? ?
                       | fetch fdm q fee share evs e c t ? ? Hr ? ? ? Hp
                       | fetch fdm q fee share evs res c ? ? Hr ? ? ? Hp ];
    try (destruct (Hfetch _ _ _ Hr) as (Ff & Lf));
    try (apply pipeline_stages in Hp;
         destruct Hp as (create & pubs & reg & recs & -> & Hstaged)).
  - exists [], [], [], [], []. split; [reflexivity |].
    split; [constructor |]. split; [simpl; lia | exact Hnone].
  - exists fetch, [], [], [], []. split; [simpl; rewrite app_nil_r; reflexivity |].
    split; [assumption |]. split; [assumption | exact Hnone].
  - exists fetch, [], [], [], []. split; [simpl; rewrite app_nil_r; reflexivity |].
    split; [assumption |]. split; [assumption | exact Hnone].
  - exists fetch, create, pubs, reg, recs. split; [reflexivity |].
    split; [assumption |]. split; [assumption | exact Hstaged].
  - exists fetch, create, pubs, reg, recs. split; [reflexivity |].
    split; [assumption |]. split; [assumption | exact Hstaged].
Qed.

(** ** The collection *)



(** X4.  In a run that no other request overlaps, the handle of a
    collection is cached as soon as the chain has created it, whatever
    happens later in the run: after a run that made a creation call which
    resolved, the cache holds the [spgNftContract] of the answer (which is
    [undefined] if the answer has none), even when the response is a 500;
    and the run began with no handle cached.  With or without overlap, the
    write is made in the step in which the creation call resolves: from any
    process, the resumed [getOrCreateCollection] returns the handle of the
    answer and leaves it in the cache, whatever the cache held. *)
Theorem created_handle_is_cached_at_once
    (w : World) (req : Request) (p : Process) (created : Collection) :
  In (ChainCreateCollection (Resolved created)) (calls w req p) ->
  spgNftContract (snd (register_ip w req p))
  = opt_value (collection_spgNftContract created)
  /\ truthy (spgNftContract p) = false
  /\ forall q,
       createNFTCollection w (history q) = Resolved created ->
       getOrCreateCollection_resume w q
       = (Ok (opt_value (collection_spgNftContract created)),
          cache (opt_value (collection_spgNftContract created))
                (record (ChainCreateCollection (Resolved created)) q)).
Proof.
  intros Hin.
  assert (Hresume : forall q,
             createNFTCollection w (history q) = Resolved created ->
             getOrCreateCollection_resume w q
             = (Ok (opt_value (collection_spgNftContract created)),
                cache (opt_value (collection_spgNftContract created))
                      (record (ChainCreateCollection (Resolved created)) q))).
  { intros q Hq. unfold getOrCreateCollection_resume, bind, await. rewrite Hq. reflexivity. }
  reach_collection w req p Hin.
  - inversion Hv; subst; simpl in Hin;
      try contradiction; destruct Hin as [Hin | []]; inversion Hin; subst.
    split; [reflexivity |]. split; [congruence | exact Hresume].
  - inversion Hv; subst; simpl in Hin;
      try contradiction; destruct Hin as [Hin | []]; inversion Hin; subst.
    split; [reflexivity |]. split; [congruence | exact Hresume].
Qed.

Lemma created_handle_is_cached_at_once_witness :
  exists created,
    In (ChainCreateCollection (Resolved created))
       (calls Scenario.no_pinning Scenario.basic startup)
    /\ status (fst (register_ip Scenario.no_pinning Scenario.basic startup)) = 500
    /\ spgNftContract (snd (register_ip Scenario.no_pinning Scenario.basic startup))
       = VStr "0xC011ec7104".
Proof.
  assert (Hin : exists created,
             In (ChainCreateCollection (Resolved created))
                (calls Scenario.no_pinning Scenario.basic startup)
             /\ opt_value (collection_spgNftContract created) = VStr "0xC011ec7104").
  { vm_compute. eexists. split; [left; reflexivity | reflexivity]. }
  destruct Hin as (created & Hin & Hhandle). exists created.
  destruct (created_handle_is_cached_at_once Scenario.no_pinning Scenario.basic startup
              created Hin) as (Hcache & _).
  split; [exact Hin |]. split; [vm_compute; reflexivity |].
  rewrite Hcache. exact Hhandle.
Defined.

(** ** The registration *)

(** X5.  When the chain rejects the registration the run ends there: the
    response is 500 with the message of the chain's error, the rejected
    call is the last one, and it comes right after the two publishes, both
    of which had succeeded; the two documents stay published and the record
    store is not called. *)
Theorem rejected_registration_ends_the_run
    (w : World) (req : Request) (p : Process) (a : RegisterRequest) (e : error) :
  In (ChainRegister a (Rejected e)) (calls w req p) ->
  (exists t, fst (register_ip w req p) = failure e t)
  /\ exists before doc1 r1 id1 doc2 r2 id2,
       calls w req p
       = before ++ [publish doc1 r1; publish doc2 r2; ChainRegister a (Rejected e)]
       /\ upload_outcome r1 = Ok id1
       /\ upload_outcome r2 = Ok id2
       /\ Forall (fun ev => is_fetch ev \/ is_create ev) before.
Proof.
  intros Hin.
  destruct (registration_call w req p _ _ Hin)
    as (fetch & fdm & q & fee & share & rest & o & Hr & _ & _ & _ & Hc & Hin' & Hrun & Hans).
  destruct (registration_run_call _ _ _ _ _ _ _ _ _ _ Hrun Hin')
    as (cre & nft & q' & cid & iurl & murl & fields & r1 & h1 & s1 & nftMetadata & r2 & h2
        & s2 & recs & Hv & _ & _ & _ & _ & Hu1 & _ & _ & Hu2 & _ & _ & _ & _ & Hend & ->).
  simpl in Hend. destruct Hend as (-> & ->). simpl in Hans.
  split; [exact Hans |].
  exists (fetch ++ cre), (generateIpMetadata w fields), r1, h1, nftMetadata, r2, h2.
  split; [rewrite Hc, app_nil_r, app_assoc; reflexivity |].
  split; [exact Hu1 |]. split; [exact Hu2 |].
  apply Forall_app. split.
  - eapply Forall_impl; [| exact (resolution_events _ _ _ _ _ _ Hr)].
    intros ev Hev. left. exact Hev.
  - pose proof (provision_events _ _ _ _ _ Hv) as (Hcre & _).
    eapply Forall_impl; [| exact Hcre]. intros ev Hev. right. exact Hev.
Qed.

Lemma rejected_registration_ends_the_run_witness :
  exists a e,
    In (ChainRegister a (Rejected e)) (calls Incident.no_registration Scenario.basic startup)
    /\ (exists t, fst (register_ip Incident.no_registration Scenario.basic startup)
                  = failure e t)
    /\ message e = "execution reverted".
Proof.
  assert (Hin : exists a e,
             In (ChainRegister a (Rejected e))
                (calls Incident.no_registration Scenario.basic startup)
             /\ message e = "execution reverted").
  { vm_compute. do 2 eexists. split; [do 3 right; left; reflexivity | reflexivity]. }
  destruct Hin as (a & e & Hin & Hmsg). exists a, e.
  destruct (rejected_registration_ends_the_run Incident.no_registration Scenario.basic
              startup a e Hin) as (Hres & _).
  split; [exact Hin |]. split; [exact Hres | exact Hmsg].
Defined.

(** X6.  The two metadata addresses given to the registration are
    [https://ipfs.io/ipfs/] followed by what the pinning service returned
    as [IpfsHash] for the asset document and for the collectible document,
    the two calls made just before the registration; what follows the
    registration are calls to the record store only. *)
Theorem registration_points_at_the_published_documents
    (w : World) (req : Request) (p : Process) (a : RegisterRequest)
    (r : reply Registration) :
  In (ChainRegister a r) (calls w req p) ->
  exists before doc1 pinned1 id1 s1 doc2 pinned2 id2 s2 after,
    calls w req p
    = before ++ [publish doc1 (Resolved pinned1); publish doc2 (Resolved pinned2);
                 ChainRegister a r] ++ after
    /\ get (snd pinned1) "IpfsHash" = Ok id1 /\ ToString id1 = Ok s1
    /\ get (snd pinned2) "IpfsHash" = Ok id2 /\ ToString id2 = Ok s2
    /\ ipMetadataURI a = "https://ipfs.io/ipfs/" +++ s1
    /\ nftMetadataURI a = "https://ipfs.io/ipfs/" +++ s2
    /\ Forall is_record after.
Proof.
  intros Hin.
  destruct (registration_call w req p _ _ Hin)
    as (fetch & fdm & q & fee & share & rest & o & Hr & _ & _ & _ & Hc & Hin' & Hrun & Hans).
  destruct (registration_run_call _ _ _ _ _ _ _ _ _ _ Hrun Hin')
    as (cre & nft & q' & cid & iurl & murl & fields & r1 & h1 & s1 & nftMetadata & r2 & h2
        & s2 & recs & Hv & _ & _ & _ & _ & Hu1 & Hs1 & _ & Hu2 & Hs2 & _ & Huri1 & Huri2
        & Hend & ->).
  destruct (upload_outcome_inv _ _ Hu1) as (pinned1 & -> & Hid1).
  destruct (upload_outcome_inv _ _ Hu2) as (pinned2 & -> & Hid2).
  exists (fetch ++ cre), (generateIpMetadata w fields), pinned1, h1, s1,
         nftMetadata, pinned2, h2, s2, recs.
  split; [rewrite Hc, app_assoc; reflexivity |].
  repeat (split; [assumption |]).
  eapply settlement_records. exact Hend.
Qed.

Lemma registration_points_at_the_published_documents_witness :
  exists a r,
    In (ChainRegister a r) (calls Scenario.happy Scenario.basic startup)
    /\ ipMetadataURI a = "https://ipfs.io/ipfs/QmDoc0"
    /\ nftMetadataURI a = "https://ipfs.io/ipfs/QmDoc1"
    /\ exists before doc1 pinned1 doc2 pinned2 after,
         calls Scenario.happy Scenario.basic startup
         = before ++ [publish doc1 (Resolved pinned1); publish doc2 (Resolved pinned2);
                      ChainRegister a r] ++ after.
Proof.
  assert (Hin : exists a r,
             In (ChainRegister a r) (calls Scenario.happy Scenario.basic startup)
             /\ ipMetadataURI a = "https://ipfs.io/ipfs/QmDoc0"
             /\ nftMetadataURI a = "https://ipfs.io/ipfs/QmDoc1").
  { vm_compute. do 2 eexists.
    split; [do 3 right; left; reflexivity | split; reflexivity]. }
  destruct Hin as (a & r & Hin & Huri1 & Huri2). exists a, r.
  destruct (registration_points_at_the_published_documents Scenario.happy Scenario.basic
              startup a r Hin)
    as (before & doc1 & pinned1 & id1 & s1 & doc2 & pinned2 & id2 & s2 & after & Hc & _).
  split; [exact Hin |]. split; [exact Huri1 |]. split; [exact Huri2 |].
  exists before, doc1, pinned1, doc2, pinned2, after. exact Hc.
Defined.

(** X7.  An answer of the pinning service that has no [IpfsHash] is not
    treated as a failed upload: the upload returns [undefined], and a
    registration made in such a run is given the address
    [https://ipfs.io/ipfs/undefined] for the document concerned. *)
Theorem answer_without_identifier_is_registered_as_undefined
    (w : World) (req : Request) (p : Process) (a : RegisterRequest)
    (r : reply Registration) :
  (forall doc pinned,
      In (publish doc (Resolved pinned)) (calls w req p) ->
      get (snd pinned) "IpfsHash" = Ok VUndefined) ->
  In (ChainRegister a r) (calls w req p) ->
  ipMetadataURI a = "https://ipfs.io/ipfs/undefined"
  /\ nftMetadataURI a = "https://ipfs.io/ipfs/undefined".
Proof.
  intros Hblank Hin.
  destruct (registration_call w req p _ _ Hin)
    as (fetch & fdm & q & fee & share & rest & o & Hr & _ & _ & _ & Hc & Hin' & Hrun & Hans).
  destruct (registration_run_call _ _ _ _ _ _ _ _ _ _ Hrun Hin')
    as (cre & nft & q' & cid & iurl & murl & fields & r1 & h1 & s1 & nftMetadata & r2 & h2
        & s2 & recs & Hv & _ & _ & _ & _ & Hu1 & Hs1 & _ & Hu2 & Hs2 & _ & Huri1 & Huri2
        & Hend & ->).
  destruct (upload_outcome_inv _ _ Hu1) as (pinned1 & -> & Hid1).
  destruct (upload_outcome_inv _ _ Hu2) as (pinned2 & -> & Hid2).
  assert (H1 : get (snd pinned1) "IpfsHash" = Ok VUndefined).
  { apply (Hblank (generateIpMetadata w fields)). rewrite Hc.
    apply in_or_app. right. apply in_or_app. right. left. reflexivity. }
  assert (H2 : get (snd pinned2) "IpfsHash" = Ok VUndefined).
  { apply (Hblank nftMetadata). rewrite Hc.
    apply in_or_app. right. apply in_or_app. right. right. left. reflexivity. }
  rewrite H1 in Hid1. rewrite H2 in Hid2. inversion Hid1; subst h1. inversion Hid2; subst h2.
  simpl in Hs1, Hs2. inversion Hs1; subst s1. inversion Hs2; subst s2.
  split; assumption.
Qed.

Lemma answer_without_identifier_is_registered_as_undefined_witness :
  exists a r,
    In (ChainRegister a r) (calls Incident.blank_pins Scenario.basic startup)
    /\ status (fst (register_ip Incident.blank_pins Scenario.basic startup)) = 200
    /\ ipMetadataURI a = "https://ipfs.io/ipfs/undefined"
    /\ nftMetadataURI a = "https://ipfs.io/ipfs/undefined".
Proof.
  assert (Hin : exists a r,
             In (ChainRegister a r) (calls Incident.blank_pins Scenario.basic startup)).
  { vm_compute. do 2 eexists. do 3 right. left. reflexivity. }
  destruct Hin as (a & r & Hin). exists a, r.
  assert (Hblank : forall doc pinned,
             In (publish doc (Resolved pinned))
                (calls Incident.blank_pins Scenario.basic startup) ->
             get (snd pinned) "IpfsHash" = Ok VUndefined).
  { assert (Hcalls : exists l,
               calls Incident.blank_pins Scenario.basic startup = l
               /\ Forall (fun ev => forall doc pinned,
                             ev = publish doc (Resolved pinned) ->
                             get (snd pinned) "IpfsHash" = Ok VUndefined) l).
    { eexists. split; [vm_compute; reflexivity |].
      repeat (apply Forall_cons;
              [intros doc pinned E; try discriminate E; inversion E; reflexivity |]).
      apply Forall_nil. }
    destruct Hcalls as (l & -> & Hall).
    intros doc pinned H. exact (proj1 (Forall_forall _ _) Hall _ H doc pinned eq_refl). }
  split; [exact Hin |]. split; [vm_compute; reflexivity |].
  exact (answer_without_identifier_is_registered_as_undefined Incident.blank_pins
           Scenario.basic startup a r Hblank Hin).
Defined.

(** ** The record store *)

(** X8.  Every call the handler makes to the record store follows a
    registration that resolved, and addresses the rows of the images table
    whose [image_cid] is the [imageCid] of the request: a read of the row,
    a write of exactly two columns ([ip], the explorer address of the new
    asset, and [tx_hash], the hash of the registration transaction), or
    the read that verifies the write. *)
Theorem record_store_calls_concern_this_image
    (w : World) (req : Request) (p : Process) (ev : event) :
  In ev (calls w req p) -> is_record ev ->
  exists a registered base cid,
    In (ChainRegister a (Resolved registered)) (calls w req p)
    /\ SUPABASE_URL (config w) = Some base
    /\ imageCid req = VStr cid
    /\ ((exists r, ev = RecordGet (imagesUrl base cid checkSuffix) r)
        \/ (exists r,
              ev = RecordPatch (imagesUrl base cid EmptyString)
                     (VObj [("ip", VStr ("https://aeneid.explorer.story.foundation/ipa/"
                                         +++ optional_string (ipId registered)));
                            ("tx_hash", opt_value (txHash registered))]) r)
        \/ (exists r, ev = RecordGet (imagesUrl base cid verifySuffix) r)).
Proof.
  intros Hin Hrec.
  assert (Hnf : ~ is_fetch ev) by (destruct ev; simpl in *; tauto).
  destruct (beyond_fetch w req p _ Hin Hnf)
    as (fetch & fdm & q & fee & share & rest & o & Hr & _ & _ & _ & Hc & Hin' & Hrun & _).
  destruct Hrun as [Hun | Hrun];
    [destruct (unfinished_kinds _ _ _ _ Hun) as (Hkinds & _) |].
  { exfalso. pose proof (kind_of_member _ _ _ Hkinds Hin') as Hk.
    destruct ev; simpl in *; tauto. }
  destruct Hrun as [cre nft q' cid iurl murl fields r1 h1 s1 nftMetadata
                    r2 h2 s2 args r0 recs o Hv Hcid Hi Hm Hf Hdoc1 Hu1 Hs1
                    Hd Hdoc2 Hu2 Hs2 Hargs Huri1 Huri2 Hend].
  assert (Hin2 : In ev recs).
  { pose proof (provision_events _ _ _ _ _ Hv) as (Hcre & _).
    apply in_app_or in Hin'. destruct Hin' as [Hin' | Hin'].
    - exfalso. pose proof (kind_of_member _ _ _ Hcre Hin') as Hk.
      destruct ev; simpl in *; tauto.
    - simpl in Hin'. destruct Hin' as [E | [E | [E | Hin']]];
        try (subst ev; simpl in Hrec; contradiction).
      exact Hin'. }
  destruct r0 as [registered | e]; simpl in Hend.
  2:{ destruct Hend as (-> & _). contradiction. }
  destruct Hend as (row & t & Hrecs & _).
  assert (Hreg : In (ChainRegister args (Resolved registered)) (calls w req p)).
  { rewrite Hc. apply in_or_app. right. apply in_or_app. right.
    right. right. left. reflexivity. }
  assert (Hsame : forall cid', ToString (imageCid req) = Ok cid' -> cid' = cid).
  { intros cid' E. rewrite Hcid in E. inversion E. reflexivity. }
  unfold explorerUrl in Hrecs.
  inversion Hrecs; subst; simpl in Hin2;
    repeat match goal with
      | H : ToString (imageCid req) = Ok _ |- _ => apply Hsame in H; subst
      end;
    try contradiction;
    exists args, registered, base, cid;
    (split; [exact Hreg |]); (split; [assumption |]); (split; [assumption |]);
    repeat (destruct Hin2 as [Hin2 | Hin2]; [subst ev; eauto |]);
    contradiction.
Qed.

Lemma record_store_calls_concern_this_image_witness :
  exists r registered a,
    In (RecordPatch "https://db.example.co/rest/v1/images?image_cid=eq.Qimg1"
          (VObj [("ip", VStr "https://aeneid.explorer.story.foundation/ipa/0x1Pa55e7");
                 ("tx_hash", VStr "0x7a5c")]) r)
       (calls Scenario.happy Scenario.basic startup)
    /\ In (ChainRegister a (Resolved registered)) (calls Scenario.happy Scenario.basic startup).
Proof.
  assert (Hin : exists r,
             In (RecordPatch "https://db.example.co/rest/v1/images?image_cid=eq.Qimg1"
                   (VObj [("ip", VStr "https://aeneid.explorer.story.foundation/ipa/0x1Pa55e7");
                          ("tx_hash", VStr "0x7a5c")]) r)
                (calls Scenario.happy Scenario.basic startup)).
  { vm_compute. eexists. do 5 right. left. reflexivity. }
  destruct Hin as (r & Hin). exists r.
  destruct (record_store_calls_concern_this_image Scenario.happy Scenario.basic startup _
              Hin Logic.I) as (a & registered & base & cid & Hreg & _).
  exists registered, a. split; [exact Hin | exact Hreg].
Defined.

(** X9.  When the credentials of the record store are not configured (no
    URL, or neither key), no run of the handler calls the record store. *)
Theorem record_store_is_left_alone_without_credentials
    (w : World) (req : Request) (p : Process) :
  credentials_missing w = true ->
  Forall (fun ev => ~ is_record ev) (calls w req p).
Proof.
  intros Hmissing. apply Forall_forall. intros ev Hin Hrec.
  assert (Hnf : ~ is_fetch ev) by (destruct ev; simpl in *; tauto).
  destruct (beyond_fetch w req p _ Hin Hnf)
    as (fetch & fdm & q & fee & share & rest & o & Hr & _ & _ & _ & Hc & Hin' & Hrun & _).
  destruct Hrun as [Hun | Hrun];
    [destruct (unfinished_kinds _ _ _ _ Hun) as (Hkinds & _) |].
  { pose proof (kind_of_member _ _ _ Hkinds Hin') as Hk.
    destruct ev; simpl in *; tauto. }
  destruct Hrun as [cre nft q' cid iurl murl fields r1 h1 s1 nftMetadata
                    r2 h2 s2 args r0 recs o Hv Hcid Hi Hm Hf Hdoc1 Hu1 Hs1
                    Hd Hdoc2 Hu2 Hs2 Hargs Huri1 Huri2 Hend].
  assert (Hin2 : In ev recs).
  { pose proof (provision_events _ _ _ _ _ Hv) as (Hcre & _).
    apply in_app_or in Hin'. destruct Hin' as [Hin' | Hin'].
    - exfalso. pose proof (kind_of_member _ _ _ Hcre Hin') as Hk.
      destruct ev; simpl in *; tauto.
    - simpl in Hin'. destruct Hin' as [E | [E | [E | Hin']]];
        try (subst ev; simpl in Hrec; contradiction).
      exact Hin'. }
  destruct r0 as [registered | e]; simpl in Hend.
  2:{ destruct Hend as (-> & _). contradiction. }
  destruct Hend as (row & t & Hrecs & _).
  inversion Hrecs; subst; try congruence. contradiction.
Qed.

Lemma record_store_is_left_alone_without_credentials_witness :
  status (fst (register_ip Incident.unconfigured Scenario.basic startup)) = 200
  /\ Forall (fun ev => ~ is_record ev) (calls Incident.unconfigured Scenario.basic startup).
Proof.
  split; [vm_compute; reflexivity |].
  apply (record_store_is_left_alone_without_credentials Incident.unconfigured
           Scenario.basic startup).
  vm_compute. reflexivity.
Defined.

(** ** The fetch of the depth metadata *)

(** X10.  The gateway is called at most once in a run, before any other
    call, and only when the request has a [metadataCid] and no inline depth
    metadata; the address is the configured gateway followed by [/ipfs/]
    and the identifier. *)
Theorem metadata_is_fetched_from_the_configured_gateway
    (w : World) (req : Request) (p : Process) (url : string) (r : reply http_response) :
  In (StorageFetch url r) (calls w req p) ->
  fetch_needed req = true
  /\ exists m rest,
       ToString (metadataCid req) = Ok m
       /\ url = IPFS_GATEWAY (config w) +++ "/ipfs/" +++ m
       /\ r = axios_get w (history p) url
       /\ calls w req p = StorageFetch url r :: rest
       /\ Forall (fun e => ~ is_fetch e) rest.
Proof.
  intros Hin.
  destruct (truthy (imageCid req) && truthy (deviceAddress req)) eqn:Hvalid.
  2:{ pose proof (register_ip_course w req p) as Hc. unfold course in Hc.
      rewrite Hvalid in Hc. destruct Hc as (Hc & _). rewrite Hc in Hin. contradiction. }
  destruct (calls_after_resolution w req p Hvalid) as (rest & Hc & Hrest).
  rewrite Hc in Hin. apply in_app_or in Hin.
  assert (Hno : In (StorageFetch url r) rest -> False).
  { intros H. exact (kind_of_member _ _ _ Hrest H Logic.I). }
  destruct (fetch_needed req); [| destruct Hin as [[] | Hin]; contradiction].
  split; [reflexivity |].
  destruct (ToString (metadataCid req)) as [m | e];
    [| destruct Hin as [[] | Hin]; contradiction].
  destruct Hin as [[Hin | []] | Hin]; [| contradiction].
  inversion Hin; subst url r.
  exists m, rest. split; [reflexivity |]. split; [reflexivity |]. split; [reflexivity |].
  split; [exact Hc | exact Hrest].
Qed.

Lemma metadata_is_fetched_from_the_configured_gateway_witness :
  exists r rest,
    In (StorageFetch "https://ipfs.example.org/ipfs/Qmeta1" r)
       (calls Incident.own_gateway Scenario.with_metadata startup)
    /\ calls Incident.own_gateway Scenario.with_metadata startup
       = StorageFetch "https://ipfs.example.org/ipfs/Qmeta1" r :: rest
    /\ Forall (fun e => ~ is_fetch e) rest.
Proof.
  assert (Hin : exists r,
             In (StorageFetch "https://ipfs.example.org/ipfs/Qmeta1" r)
                (calls Incident.own_gateway Scenario.with_metadata startup)).
  { vm_compute. eexists. left. reflexivity. }
  destruct Hin as (r & Hin). exists r.
  destruct (metadata_is_fetched_from_the_configured_gateway Incident.own_gateway
              Scenario.with_metadata startup _ r Hin)
    as (_ & m & rest & _ & _ & _ & Hc & Hrest).
  exists rest. split; [exact Hin |]. split; [exact Hc | exact Hrest].
Defined.

(** ** The response to a successful registration *)

(** X11.  A 200 response reports the registration that resolved in the
    run: the asset identifier and the transaction hash the chain returned,
    the explorer addresses built from them, the collection and the terms
    given to the registration.  The two gateway addresses are built on the
    fixed Pinata gateway, not on the configured one: the image address from
    [imageCid], the metadata address from [metadataCid], or from [imageCid]
    again when the request has no [metadataCid], in which case the echoed
    [metadataCid] is [null]. *)
Theorem success_reports_the_registration (w : World) (req : Request) (p : Process) :
  status (fst (register_ip w req p)) = 200 ->
  exists a registered cid mid,
    In (ChainRegister a (Resolved registered)) (calls w req p)
    /\ imageCid req = VStr cid
    /\ media_id req = VStr mid
    /\ echoed (fst (register_ip w req p)) "ipId" = opt_value (ipId registered)
    /\ echoed (fst (register_ip w req p)) "txHash" = opt_value (txHash registered)
    /\ echoed (fst (register_ip w req p)) "explorerUrl"
       = VStr ("https://aeneid.explorer.story.foundation/ipa/"
               +++ optional_string (ipId registered))
    /\ echoed (fst (register_ip w req p)) "transactionUrl"
       = VStr ("https://aeneid.storyscan.io/tx/" +++ optional_string (txHash registered))
    /\ echoed (fst (register_ip w req p)) "nftContract" = nft_spgNftContract a
    /\ echoed (fst (register_ip w req p)) "mintingFee"
       = tokens_of_wei w (terms_defaultMintingFee a)
    /\ echoed (fst (register_ip w req p)) "commercialRevShare"
       = VNum (terms_commercialRevShare a)
    /\ echoed (fst (register_ip w req p)) "imageCid" = VStr cid
    /\ echoed (fst (register_ip w req p)) "imageUrl"
       = VStr ("https://gateway.pinata.cloud/ipfs/" +++ cid)
    /\ echoed (fst (register_ip w req p)) "metadataUrl"
       = VStr ("https://gateway.pinata.cloud/ipfs/" +++ mid)
    /\ echoed (fst (register_ip w req p)) "metadataCid"
       = (if truthy (metadataCid req) then VStr mid else VNull).
Proof.
  intros H200.
  destruct (success_run w req p H200)
    as (fetch & fdm & q & fee & share & rest & Hr & _ & _ & _ & Hc & Hrun).
  remember (fst (register_ip w req p)) as res eqn:Hres. clear Hres H200.
  remember (Ok res) as o eqn:Ho.
  destruct Hrun as [cre nft q' cid iurl murl fields r1 h1 s1 nftMetadata
                    r2 h2 s2 args r0 recs o Hv Hcid Hi Hm Hf Hdoc1 Hu1 Hs1
                    Hd Hdoc2 Hu2 Hs2 Hargs Huri1 Huri2 Hend].
  destruct r0 as [registered | e]; simpl in Hend.
  2:{ destruct Hend as (_ & ->). discriminate Ho. }
  destruct Hend as (row & t & _ & ->). inversion Ho; subst res. clear Ho.
  destruct Hargs as (j1 & j2 & _ & _ & Hnft & Hshare & Hfee & _).
  destruct Hf as (cid' & mid & fs & Hcid' & Hmid & _).
  exists args, registered, cid, mid.
  split; [rewrite Hc; apply in_or_app; right; apply in_or_app; right;
          right; right; left; reflexivity |].
  split; [exact Hcid |]. split; [exact Hmid |].
  unfold echoed, success, registrationResult. simpl.
  rewrite Hnft, Hshare, Hfee, Hcid, Hi.
  assert (Hmurl : murl = pinataGateway +++ mid
                  /\ (if truthy (metadataCid req) then metadataCid req else VNull)
                     = (if truthy (metadataCid req) then VStr mid else VNull)).
  { unfold media_id in Hmid. destruct (truthy (metadataCid req)).
    - destruct Hm as (m & Hm1 & Hm2). rewrite Hm1 in Hmid. inversion Hmid; subst m.
      split; [exact Hm2 | rewrite Hm1; reflexivity].
    - rewrite Hcid in Hmid. inversion Hmid; subst mid. split; [congruence | reflexivity]. }
  destruct Hmurl as (-> & ->).
  repeat (split; [reflexivity |]). reflexivity.
Qed.

Lemma success_reports_the_registration_witness :
  status (fst (register_ip Incident.own_gateway Scenario.with_metadata startup)) = 200
  /\ echoed (fst (register_ip Incident.own_gateway Scenario.with_metadata startup)) "imageUrl"
     = VStr "https://gateway.pinata.cloud/ipfs/Qimg1"
  /\ echoed (fst (register_ip Incident.own_gateway Scenario.with_metadata startup))
            "metadataUrl"
     = VStr "https://gateway.pinata.cloud/ipfs/Qmeta1".
Proof.
  assert (H200 : status (fst (register_ip Incident.own_gateway Scenario.with_metadata
                                startup)) = 200).
  { vm_compute. reflexivity. }
  split; [exact H200 |].
  destruct (success_reports_the_registration Incident.own_gateway Scenario.with_metadata
              startup H200)
    as (a & registered & cid & mid & _ & Hcid & Hmid & _ & _ & _ & _ & _ & _ & _ & _
        & Himage & Hmeta & _).
  inversion Hcid; subst cid. inversion Hmid; subst mid.
  split; [exact Himage | exact Hmeta].
Defined.

(** ** The terms of the license *)

(** X12.  The minting fee given to the registration is the parsed
    [mintingFee] of the request when that is truthy, and the parsed default
    otherwise: a request whose fee is absent, [null], the empty string or
    the number 0 gets the default fee, so that a fee of zero cannot be asked
    for with the number 0. *)
Theorem falsy_minting_fee_gets_the_default
    (w : World) (req : Request) (p : Process) (a : RegisterRequest)
    (r : reply Registration) :
  In (ChainRegister a r) (calls w req p) ->
  (truthy (mintingFee req) = false ->
   parseEther w (DEFAULT_MINTING_FEE (config w)) = Ok (terms_defaultMintingFee a))
  /\ (truthy (mintingFee req) = true ->
      exists s, ToString (mintingFee req) = Ok s
                /\ parseEther w s = Ok (terms_defaultMintingFee a)).
Proof.
  intros Hin.
  destruct (registration_call w req p _ _ Hin)
    as (fetch & fdm & q & fee & share & rest & o & _ & Hfee & _ & _ & _ & Hin' & Hrun & _).
  destruct (registration_run_call _ _ _ _ _ _ _ _ _ _ Hrun Hin')
    as (cre & nft & q' & cid & iurl & murl & fields & r1 & h1 & s1 & nftMetadata & r2 & h2
        & s2 & recs & _ & _ & _ & _ & _ & _ & _ & _ & _ & _ & Hargs & _).
  destruct Hargs as (j1 & j2 & _ & _ & _ & _ & Hterms & _). rewrite Hterms.
  unfold resolveMintingFee in Hfee.
  destruct (truthy (mintingFee req)); split; intros E; try discriminate E.
  - destruct (ToString (mintingFee req)) as [s | e]; [| discriminate Hfee].
    exists s. split; [reflexivity | exact Hfee].
  - exact Hfee.
Qed.

Lemma falsy_minting_fee_gets_the_default_witness :
  exists a r,
    In (ChainRegister a r) (calls Scenario.happy Incident.fee_zero startup)
    /\ mintingFee Incident.fee_zero = VNum (Int 0)
    /\ terms_defaultMintingFee a = 10 ^ 18.
Proof.
  assert (Hin : exists a r,
             In (ChainRegister a r) (calls Scenario.happy Incident.fee_zero startup)).
  { vm_compute. do 2 eexists. do 3 right. left. reflexivity. }
  destruct Hin as (a & r & Hin). exists a, r.
  destruct (falsy_minting_fee_gets_the_default Scenario.happy Incident.fee_zero startup a r
              Hin) as (Hdefault & _).
  split; [exact Hin |]. split; [reflexivity |].
  specialize (Hdefault eq_refl).
  assert (E : parseEther Scenario.happy (DEFAULT_MINTING_FEE (config Scenario.happy))
              = Ok (10 ^ 18)) by reflexivity.
  rewrite E in Hdefault. injection Hdefault as Hd. symmetry. exact Hd.
Defined.

(** X13.  A minting fee that [parseEther] refuses is answered 500, not
    400, with the message of the parser's error, and this before the
    revenue share is looked at: the request is answered 500 even when its
    revenue share is out of range.  The only call made is the fetch of the
    metadata. *)
Theorem refused_minting_fee_is_a_server_error
    (w : World) (req : Request) (p : Process) (e : error) :
  truthy (imageCid req) && truthy (deviceAddress req) = true ->
  (fetch_needed req = true -> exists s, ToString (metadataCid req) = Ok s) ->
  resolveMintingFee w req = Throw e ->
  (exists t, fst (register_ip w req p) = failure e t)
  /\ Forall is_fetch (calls w req p).
Proof.
  intros Hvalid Hcid Hfee.
  pose proof (register_ip_course w req p) as Hc. unfold course in Hc.
  rewrite Hvalid in Hc. destruct Hc as (fetch & o & q & Hrd & Hr & Hc).
  pose proof (resolution_events _ _ _ _ _ _ Hr) as Hfetch.
  destruct o as [fdm | e'].
  - rewrite Hfee in Hc. destruct Hc as (-> & Hans). split; [exact Hans | exact Hfetch].
  - exfalso. inversion Hr; subst.
    match goal with
    | Hn : fetch_needed req = true, Ht : ToString (metadataCid req) = Throw _ |- _ =>
        destruct (Hcid Hn) as (s & Hs); rewrite Hs in Ht; discriminate Ht
    end.
Qed.

Lemma refused_minting_fee_is_a_server_error_witness :
  (exists share, resolveRevShare Scenario.happy Incident.fee_abc = Ok share
                 /\ out_of_range share = true)
  /\ status (fst (register_ip Scenario.happy Incident.fee_abc startup)) = 500
  /\ Forall is_fetch (calls Scenario.happy Incident.fee_abc startup).
Proof.
  split; [exists (Int 101); split; reflexivity |].
  assert (Hfee : exists e, resolveMintingFee Scenario.happy Incident.fee_abc = Throw e).
  { eexists. vm_compute. reflexivity. }
  destruct Hfee as (e & Hfee).
  destruct (refused_minting_fee_is_a_server_error Scenario.happy Incident.fee_abc startup e)
    as ((t & Hres) & Hcalls).
  - reflexivity.
  - intros _. exists "Qmeta1". reflexivity.
  - exact Hfee.
  - split; [rewrite Hres; reflexivity | exact Hcalls].
Defined.

(** X14.  A request without [commercialRevShare] gets the configured
    default, and the default goes through the same range check: with a
    default outside 0..100 every such request is answered 400; otherwise
    the default is the revenue share of the license terms. *)
Theorem default_share_is_range_checked (w : World) (req : Request) (p : Process) :
  is_undefined (commercialRevShare req) = true ->
  otherwise_valid w req ->
  (out_of_range (DEFAULT_COMMERCIAL_REV_SHARE (config w)) = true ->
   fst (register_ip w req p)
   = share_out_of_range (DEFAULT_COMMERCIAL_REV_SHARE (config w)))
  /\ (out_of_range (DEFAULT_COMMERCIAL_REV_SHARE (config w)) = false ->
      status (fst (register_ip w req p)) <> 400
      /\ forall a r, In (ChainRegister a r) (calls w req p) ->
                     terms_commercialRevShare a = DEFAULT_COMMERCIAL_REV_SHARE (config w)).
Proof.
  intros Hundef Hvalid.
  assert (Hshare : resolveRevShare w req = Ok (DEFAULT_COMMERCIAL_REV_SHARE (config w))).
  { unfold resolveRevShare. rewrite Hundef. reflexivity. }
  split.
  - intros Hrange. destruct Hvalid as (Hreq & Hcid & fee & Hfee).
    pose proof (register_ip_course w req p) as Hc. unfold course in Hc.
    rewrite Hreq in Hc. destruct Hc as (fetch & o & q & Hrd & Hr & Hc).
    destruct o as [fdm | e'].
    + rewrite Hfee, Hshare, Hrange in Hc. destruct Hc as (_ & Hc). exact Hc.
    + exfalso. inversion Hr; subst.
      match goal with
      | Hn : fetch_needed req = true, Ht : ToString (metadataCid req) = Throw _ |- _ =>
          destruct (Hcid Hn) as (s & Hs); rewrite Hs in Ht; discriminate Ht
      end.
  - intros Hrange.
    destruct (accepted_share_is_used w req p _ Hvalid Hshare Hrange) as (H400 & Hterms & _).
    split; assumption.
Qed.

Lemma default_share_is_range_checked_witness :
  fst (register_ip Incident.default_share_150 Incident.no_terms startup)
  = share_out_of_range (Int 150)
  /\ calls Incident.default_share_150 Incident.no_terms startup = [].
Proof.
  destruct (default_share_is_range_checked Incident.default_share_150 Incident.no_terms
              startup) as (Hout & _).
  - reflexivity.
  - split; [reflexivity |]. split; [intros H; discriminate H |].
    eexists. vm_compute. reflexivity.
  - split; [apply Hout; reflexivity | vm_compute; reflexivity].
Defined.

(** ** The depth metadata *)

(** X15.  The depth metadata used by a run is never empty: what
    [resolveDepthMetadata] returns is truthy, whatever the request and
    whatever the gateway answers (a payload that is [null], 0, false or the
    empty string is replaced by a note), and so is the [depthMetadata] of
    every 200 response. *)
Theorem depth_metadata_is_never_empty (w : World) (req : Request) (p : Process) :
  (forall fdm, fst (resolveDepthMetadata w req p) = Ok fdm -> truthy fdm = true)
  /\ (status (fst (register_ip w req p)) = 200 ->
      truthy (echoed (fst (register_ip w req p)) "depthMetadata") = true).
Proof.
  assert (Hres : forall fetch fdm q,
             resolution w req p fetch (Ok fdm) q -> truthy fdm = true).
  { intros fetch fdm q Hr. inversion Hr; subst; try reflexivity.
    - assumption.
    - unfold or_note. destruct (truthy (extractDepth req (snd resp))) eqn:E;
        [exact E | reflexivity]. }
  split.
  - intros fdm E. destruct (resolveDepthMetadata_spec w req p) as (fetch & Hr).
    rewrite E in Hr. eapply Hres. exact Hr.
  - intros H200.
    destruct (success_inv w req p H200)
      as (fetch & fdm & q & fee & share & evs & _ & Hr & _ & _ & _ & _ & Hp).
    destruct (pipeline_echo _ _ _ _ _ _ _ _ _ Hp) as (-> & _).
    eapply Hres. exact Hr.
Qed.

Lemma depth_metadata_is_never_empty_witness :
  status (fst (register_ip Scenario.happy Scenario.basic startup)) = 200
  /\ truthy (depthMetadata Scenario.basic) = false
  /\ truthy (echoed (fst (register_ip Scenario.happy Scenario.basic startup))
                    "depthMetadata") = true.
Proof.
  assert (H200 : status (fst (register_ip Scenario.happy Scenario.basic startup)) = 200).
  { vm_compute. reflexivity. }
  split; [exact H200 |]. split; [reflexivity |].
  exact (proj2 (depth_metadata_is_never_empty Scenario.happy Scenario.basic startup) H200).
Defined.

(** ** What validation lets through *)

(** X16.  The validation only asks that [imageCid] be truthy, but the
    hashing of the documents needs a string: a request whose [imageCid] is
    not a string (a number, an object) is never answered 200, and nothing is
    published or registered for it; yet the collection may have been
    created on chain by then. *)
Theorem image_identifier_must_be_a_string (w : World) (req : Request) (p : Process) :
  (forall s, imageCid req <> VStr s) ->
  status (fst (register_ip w req p)) <> 200
  /\ Forall (fun ev => is_fetch ev \/ is_create ev) (calls w req p).
Proof.
  intros Hcid.
  assert (Hfields : forall fields, asset_fields req fields -> False).
  { intros fields (cid & _ & _ & E & _). exact (Hcid _ E). }
  shape_of w req p Hshape.
  destruct Hshape as [ | fetch o q e t ? ? Hr ? | fetch fdm q fee share ? ? Hr ? ? ?
                       | fetch fdm q fee share evs e c t ? ? Hr ? ? ? Hp
                       | fetch fdm q fee share evs res c ? ? Hr ? ? ? Hp ];
    try (pose proof (resolution_events _ _ _ _ _ _ Hr) as Hfetch).
  - split; [unfold missing_fields; simpl; discriminate | constructor].
  - split; [unfold failure; simpl; discriminate |].
    eapply Forall_impl; [| exact Hfetch]. intros ev Hev. left. exact Hev.
  - split; [unfold share_out_of_range; simpl; discriminate |].
    eapply Forall_impl; [| exact Hfetch]. intros ev Hev. left. exact Hev.
  - split; [unfold failure; simpl; discriminate |].
    apply Forall_app. split.
    + eapply Forall_impl; [| exact Hfetch]. intros ev Hev. left. exact Hev.
    + inversion Hp; subst;
        try match goal with
          | Hf : asset_fields req _ |- _ => destruct (Hfields _ Hf)
          end;
        try constructor;
        match goal with
        | Hv : provision _ _ _ _ _ |- _ =>
            pose proof (provision_events _ _ _ _ _ Hv) as (Hcre & _);
            eapply Forall_impl; [| exact Hcre]; intros ev Hev; right; exact Hev
        end.
  - exfalso. inversion Hp; subst.
    match goal with
    | Hf : asset_fields req _ |- _ => destruct (Hfields _ Hf)
    end.
Qed.

Lemma image_identifier_must_be_a_string_witness :
  truthy (imageCid Incident.numeric_cid) = true
  /\ status (fst (register_ip Scenario.happy Incident.numeric_cid startup)) = 500
  /\ (exists created,
        calls Scenario.happy Incident.numeric_cid startup
        = [ChainCreateCollection (Resolved created)])
  /\ Forall (fun ev => is_fetch ev \/ is_create ev)
            (calls Scenario.happy Incident.numeric_cid startup).
Proof.
  split; [reflexivity |]. split; [vm_compute; reflexivity |].
  split; [eexists; vm_compute; reflexivity |].
  apply (image_identifier_must_be_a_string Scenario.happy Incident.numeric_cid startup).
  intros s E. discriminate E.
Defined.

(** ** The reconciler on its own *)

(** X17.  [updateSupabaseWithIPData] writes only to a row it has just
    found: a PATCH is made only right after the first read has resolved
    with an answer that is not empty, at most one PATCH is made, and what
    it writes are the two values it was given, to the rows of that image. *)
Theorem reconciler_writes_only_to_a_row_it_found
    (w : World) (imageCid : value) (ipUrl : string) (txHash : value) (p : Process)
    (recs : list event) (url : string) (data : value) (r : reply http_response) :
  history (snd (updateSupabaseWithIPData w imageCid ipUrl txHash p)) = history p ++ recs ->
  In (RecordPatch url data r) recs ->
  exists base cid found after,
    SUPABASE_URL (config w) = Some base
    /\ ToString imageCid = Ok cid
    /\ recs = RecordGet (imagesUrl base cid checkSuffix) (Resolved found)
              :: RecordPatch url data r :: after
    /\ row_absent (snd found) = false
    /\ url = imagesUrl base cid EmptyString
    /\ data = VObj [("ip", VStr ipUrl); ("tx_hash", txHash)]
    /\ Forall (fun ev => exists u a, ev = RecordGet u a) after.
Proof.
  intros Hh Hin.
  destruct (updateSupabaseWithIPData w imageCid ipUrl txHash p) as [o p'] eqn:Hrun.
  destruct (reconciliation_spec _ _ _ _ _ _ _ Hrun) as (recs' & Hh' & Hrec).
  simpl in Hh. rewrite Hh' in Hh. apply app_inv_head in Hh. subst recs'.
  inversion Hrec; subst; simpl in Hin;
    repeat (destruct Hin as [Hin | Hin]; [try discriminate Hin |]);
    try contradiction;
    inversion Hin; subst;
    exists base, cid, found; eexists;
    (split; [assumption |]); (split; [assumption |]); (split; [reflexivity |]);
    (split; [assumption |]); (split; [reflexivity |]); (split; [reflexivity |]);
    repeat constructor; eauto.
Qed.

Lemma reconciler_writes_only_to_a_row_it_found_witness :
  exists recs r found after,
    history (snd (updateSupabaseWithIPData Scenario.happy (VStr "Qimg1")
                    "https://aeneid.explorer.story.foundation/ipa/0x1Pa55e7"
                    (VStr "0x7a5c") startup)) = history startup ++ recs
    /\ recs = RecordGet (imagesUrl "https://db.example.co" "Qimg1" checkSuffix)
                        (Resolved found)
              :: RecordPatch "https://db.example.co/rest/v1/images?image_cid=eq.Qimg1"
                   (VObj [("ip", VStr "https://aeneid.explorer.story.foundation/ipa/0x1Pa55e7");
                          ("tx_hash", VStr "0x7a5c")]) r
              :: after.
Proof.
  assert (Hrun : exists recs r,
             history (snd (updateSupabaseWithIPData Scenario.happy (VStr "Qimg1")
                             "https://aeneid.explorer.story.foundation/ipa/0x1Pa55e7"
                             (VStr "0x7a5c") startup)) = history startup ++ recs
             /\ In (RecordPatch "https://db.example.co/rest/v1/images?image_cid=eq.Qimg1"
                      (VObj [("ip", VStr "https://aeneid.explorer.story.foundation/ipa/0x1Pa55e7");
                             ("tx_hash", VStr "0x7a5c")]) r) recs).
  { do 2 eexists. split; [vm_compute; reflexivity |]. right. left. reflexivity. }
  destruct Hrun as (recs & r & Hh & Hin). exists recs, r.
  destruct (reconciler_writes_only_to_a_row_it_found _ _ _ _ _ _ _ _ _ Hh Hin)
    as (base & cid & found & after & Hbase & Hcid & Hrecs & _).
  inversion Hbase; subst base. inversion Hcid; subst cid.
  exists found, after. split; [exact Hh | exact Hrecs].
Defined.

(** X18.  [updateSupabaseWithIPData] returns a row only when the write is
    verified: a result other than [null] is the first row of a read made
    after the write had resolved, and its [ip] and [tx_hash] are strictly
    equal to the two values given.  In every other case (no credentials, no
    row, a call that fails, a row that does not show the values) the result
    is [null]. *)
Theorem reconciler_returns_a_row_only_when_verified
    (w : World) (imageCid : value) (ipUrl : string) (txHash : value) (p : Process)
    (row : value) :
  fst (updateSupabaseWithIPData w imageCid ipUrl txHash p) = Ok row ->
  row <> VNull ->
  row_confirms row ipUrl txHash
  /\ exists check written patched verify verified,
       history (snd (updateSupabaseWithIPData w imageCid ipUrl txHash p))
       = history p ++ [check; RecordPatch written (VObj [("ip", VStr ipUrl);
                                                         ("tx_hash", txHash)])
                                          (Resolved patched);
                       RecordGet verify (Resolved verified)]
       /\ row = first (snd verified).
Proof.
  intros Hrow Hnull.
  destruct (updateSupabaseWithIPData w imageCid ipUrl txHash p) as [o p'] eqn:Hrun.
  destruct (reconciliation_spec _ _ _ _ _ _ _ Hrun) as (recs & Hh & Hrec).
  simpl in Hrow. subst o. simpl.
  inversion Hrec; subst; try congruence.
  match goal with
  | H : _ \/ _ |- _ => destruct H as [-> | (verified & -> & Hfirst & Hconf)]
  end; [congruence |].
  split; [exact Hconf |].
  do 3 eexists. exists (imagesUrl base cid verifySuffix), verified.
  split; [exact Hh | exact Hfirst].
Qed.

Lemma reconciler_returns_a_row_only_when_verified_witness :
  exists row,
    fst (updateSupabaseWithIPData Scenario.happy (VStr "Qimg1")
           "https://aeneid.explorer.story.foundation/ipa/0x1Pa55e7"
           (VStr "0x7a5c") startup) = Ok row
    /\ row_confirms row "https://aeneid.explorer.story.foundation/ipa/0x1Pa55e7"
                    (VStr "0x7a5c")
    /\ fst (updateSupabaseWithIPData Incident.frozen_store (VStr "Qimg1")
              "https://aeneid.explorer.story.foundation/ipa/0x1Pa55e7"
              (VStr "0x7a5c") startup) = Ok VNull.
Proof.
  assert (Hrow : exists row,
             fst (updateSupabaseWithIPData Scenario.happy (VStr "Qimg1")
                    "https://aeneid.explorer.story.foundation/ipa/0x1Pa55e7"
                    (VStr "0x7a5c") startup) = Ok row
             /\ row <> VNull).
  { eexists. split; [vm_compute; reflexivity | intros E; discriminate E]. }
  destruct Hrow as (row & Hrow & Hnull). exists row.
  split; [exact Hrow |].
  split; [| vm_compute; reflexivity].
  exact (proj1 (reconciler_returns_a_row_only_when_verified _ _ _ _ _ _ Hrow Hnull)).
Defined.

(** ** Start-up *)

(** X19.  The key handed to the signer always starts with [0x]: a key
    that has the prefix is taken as it is, any other gets the prefix put in
    front, so that formatting twice changes nothing and the key given is
    always the end of the formatted key. *)
Theorem signing_key_always_has_the_prefix (key : string) :
  String.prefix "0x" (formatPrivateKey key) = true
  /\ formatPrivateKey (formatPrivateKey key) = formatPrivateKey key
  /\ exists front, formatPrivateKey key = front +++ key
                   /\ (front = EmptyString \/ front = "0x").
Proof.
  unfold formatPrivateKey.
  destruct (String.prefix "0x" key) eqn:Hp.
  - rewrite Hp. split; [reflexivity |]. split; [reflexivity |].
    exists EmptyString. split; [reflexivity | left; reflexivity].
  - rewrite (prefix_append "0x" key). split; [reflexivity |]. split; [reflexivity |].
    exists "0x". split; [reflexivity | right; reflexivity].
Qed.

(** X20.  The configuration block at the top of the server exits exactly
    when [PRIVATE_KEY] is unset or empty (the initialisation of the client,
    which follows it, is not part of this).  When it goes through, a
    variable that is set to the empty string counts as unset: the revenue
    share defaults to 10 and the minting fee to [0.1]; the service-role key
    is preferred to the anonymous key; and the reconciler is switched off
    exactly when the URL of the record store is missing or both keys are. *)
Theorem start_up_reads_the_environment (env : Environment) :
  (loadStartup env = None <-> env_truthy (env "PRIVATE_KEY") = false)
  /\ forall s,
       loadStartup env = Some s ->
       String.prefix "0x" (formattedPrivateKey s) = true
       /\ (env_truthy (env "DEFAULT_COMMERCIAL_REV_SHARE") = false ->
           DEFAULT_COMMERCIAL_REV_SHARE (settings s) = Int 10)
       /\ (env_truthy (env "DEFAULT_MINTING_FEE") = false ->
           DEFAULT_MINTING_FEE (settings s) = "0.1")
       /\ (env_truthy (env "SUPABASE_SERVICE_ROLE_KEY") = true ->
           SUPABASE_KEY (settings s) = env "SUPABASE_SERVICE_ROLE_KEY")
       /\ forall w,
            config w = settings s ->
            (credentials_missing w = true
             <-> env_truthy (env "SUPABASE_URL") = false
                 \/ (env_truthy (env "SUPABASE_SERVICE_ROLE_KEY") = false
                     /\ env_truthy (env "SUPABASE_ANON_KEY") = false)).
Proof.
  unfold loadStartup. split.
  - destruct (env "PRIVATE_KEY") as [key |]; unfold env_truthy; simpl.
    + destruct (String.eqb key EmptyString); simpl; split; intros H;
        first [reflexivity | discriminate H].
    + split; reflexivity.
  - intros s Hs.
    destruct (env "PRIVATE_KEY") as [key |]; [| discriminate Hs].
    destruct (String.eqb key EmptyString); [discriminate Hs |].
    inversion Hs; subst s; clear Hs. simpl.
    split; [exact (formatPrivateKey_prefix key) |].
    split; [intros H; rewrite (env_or_unset _ _ H); reflexivity |].
    split; [intros H; apply env_or_unset; exact H |].
    split; [intros H; unfold or_else; rewrite H; reflexivity |].
    intros w Hw. unfold credentials_missing. rewrite Hw. simpl.
    unfold or_else.
    destruct (env_truthy (env "SUPABASE_URL")); simpl;
      destruct (env_truthy (env "SUPABASE_SERVICE_ROLE_KEY")) eqn:Hk; simpl;
      try rewrite Hk; simpl;
      destruct (env_truthy (env "SUPABASE_ANON_KEY")); simpl;
      split; intros H; auto; try discriminate H;
      destruct H as [H | [H1 H2]]; congruence.
Qed.

Lemma start_up_reads_the_environment_witness :
  exists s,
    loadStartup (Incident.environment [("PRIVATE_KEY", "ab12"); ("SUPABASE_URL", EmptyString);
                                       ("SUPABASE_ANON_KEY", "anon")]) = Some s
    /\ formattedPrivateKey s = "0xab12"
    /\ DEFAULT_COMMERCIAL_REV_SHARE (settings s) = Int 10
    /\ SUPABASE_KEY (settings s) = Some "anon"
    /\ String.prefix "0x" (formattedPrivateKey s) = true.
Proof.
  eexists. split; [reflexivity |]. split; [reflexivity |]. split; [reflexivity |].
  split; [reflexivity |].
  exact (proj1 (proj2 (start_up_reads_the_environment
                         (Incident.environment [("PRIVATE_KEY", "ab12");
                                                ("SUPABASE_URL", EmptyString);
                                                ("SUPABASE_ANON_KEY", "anon")])) _ eq_refl)).
Defined.

(** ** The diagnostic script *)

(** X21.  The diagnostic script only reads: it makes at most one call, a
    GET of one row of the images table, and none at all when the URL or the
    key of the record store is missing; it never writes to the store. *)
Theorem diagnostic_script_only_reads (w : World) (p : Process) :
  exists made,
    history (snd (checkSupabase w p)) = history p ++ made
    /\ (List.length made <= 1)%nat
    /\ (credentials_missing w = true -> made = [])
    /\ forall ev, In ev made ->
         exists base r,
           SUPABASE_URL (config w) = Some base
           /\ ev = RecordGet (checkUrlOf base) r.
Proof.
  destruct (checkSupabase_cases w p) as [(Hm & -> & _) | (Hm & base & Hbase & -> & _)].
  - exists []. rewrite app_nil_r. split; [reflexivity |]. split; [simpl; lia |].
    split; [reflexivity | intros ev []].
  - eexists. split; [reflexivity |]. split; [simpl; lia |].
    split; [intros H; congruence |].
    intros ev [<- | []]. exists base. eexists. split; [exact Hbase | reflexivity].
Qed.

(** X22.  What the script reports.  It says that both columns exist only
    when the first row of the answer is an object that has an [ip] and a
    [tx_hash] property.  When it reports a column as not found it still
    ends with the notice that the setup looks good: that notice only means
    that the connection worked and nothing was thrown, and it is never given
    together with the failure notice. *)
Theorem diagnostic_verdicts (w : World) (p : Process) :
  (In BothColumnsExist (fst (checkSupabase w p)) ->
   exists base answer fs,
     SUPABASE_URL (config w) = Some base
     /\ axios_get w (history p) (checkUrlOf base) = Resolved answer
     /\ first (snd answer) = VObj fs
     /\ has_own "ip" fs = true /\ has_own "tx_hash" fs = true)
  /\ (forall column, In (ColumnNotFound column) (fst (checkSupabase w p)) ->
        In SetupLooksGood (fst (checkSupabase w p)))
  /\ (In SetupLooksGood (fst (checkSupabase w p)) ->
      In ConnectionSuccessful (fst (checkSupabase w p))
      /\ forall msg, ~ In (ConnectionFailed msg) (fst (checkSupabase w p))).
Proof.
  destruct (checkSupabase_cases w p)
    as [(_ & _ & [-> | ->])
       | (_ & base & Hbase & _ & [(e & Hget & ->) | (answer & Hget & ->)])].
  - split; [intros H; in_cases |]. split; [intros c H; in_cases |]. intros H; in_cases.
  - split; [intros H; in_cases |]. split; [intros c H; in_cases |]. intros H; in_cases.
  - split; [intros H; in_cases |]. split; [intros c H; in_cases |]. intros H; in_cases.
  - destruct (inspect_verdicts w (snd answer)) as (Hboth & Hcolumn & Hgood & Hnofail).
    assert (Hin : forall x,
               In x ([CredentialsFound; TestingConnection; ConnectionSuccessful]
                     ++ fst (inspect w (snd answer))
                     ++ match snd (inspect w (snd answer)) with
                        | Some e => [ConnectionFailed (message e)]
                        | None => []
                        end) ->
               x = CredentialsFound \/ x = TestingConnection \/ x = ConnectionSuccessful
               \/ In x (fst (inspect w (snd answer)))
               \/ exists e, snd (inspect w (snd answer)) = Some e
                            /\ x = ConnectionFailed (message e)).
    { intros x H. simpl in H.
      destruct H as [H | [H | [H | H]]]; auto.
      apply in_app_or in H. destruct H as [H | H]; auto.
      destruct (snd (inspect w (snd answer))) as [e |]; [| destruct H].
      destruct H as [H | []]. do 4 right. exists e. split; [reflexivity | auto]. }
    assert (Hgood' : forall x, In x (fst (inspect w (snd answer))) ->
               In x ([CredentialsFound; TestingConnection; ConnectionSuccessful]
                     ++ fst (inspect w (snd answer))
                     ++ match snd (inspect w (snd answer)) with
                        | Some e => [ConnectionFailed (message e)]
                        | None => []
                        end)).
    { intros x H. simpl. do 3 right. apply in_or_app. left. exact H. }
    split; [| split].
    + intros H. apply Hin in H.
      destruct H as [H | [H | [H | [H | (e & _ & H)]]]]; try discriminate H.
      destruct (Hboth H) as (fs & Hfs & Hip & Htx).
      exists base, answer, fs. repeat (split; [assumption |]). assumption.
    + intros c H. apply Hin in H.
      destruct H as [H | [H | [H | [H | (e & _ & H)]]]]; try discriminate H.
      apply Hgood'. eapply Hcolumn. exact H.
    + intros H. apply Hin in H.
      destruct H as [H | [H | [H | [H | (e & _ & H)]]]]; try discriminate H.
      split; [simpl; tauto |].
      intros msg Hf. apply Hin in Hf.
      destruct Hf as [Hf | [Hf | [Hf | [Hf | (e & He & Hf)]]]]; try discriminate Hf.
      * exact (Hnofail _ Hf).
      * rewrite (Hgood H) in He. discriminate He.
Qed.

Lemma diagnostic_verdicts_witness :
  fst (checkSupabase Incident.missing_column startup)
  = [CredentialsFound; TestingConnection; ConnectionSuccessful; SampleRow;
     ColumnNotFound "tx_hash"; SetupLooksGood]
  /\ In SetupLooksGood (fst (checkSupabase Incident.missing_column startup)).
Proof.
  split; [reflexivity |].
  apply (proj1 (proj2 (diagnostic_verdicts Incident.missing_column startup)) "tx_hash").
  vm_compute. do 4 right. left. reflexivity.
Defined.

(** ** The digests *)

(** X23.  The two hashes given to the registration always have the form
    the chain expects of a 32-byte value: [0x] followed by 64 characters,
    whatever the documents hold. *)
Theorem registration_hashes_are_32_bytes
    (w : World) (req : Request) (p : Process) (a : RegisterRequest)
    (r : reply Registration) :
  In (ChainRegister a r) (calls w req p) ->
  String.prefix "0x" (ipMetadataHash a) = true
  /\ String.length (ipMetadataHash a) = 66%nat
  /\ String.prefix "0x" (nftMetadataHash a) = true
  /\ String.length (nftMetadataHash a) = 66%nat.
Proof.
  intros Hin.
  destruct (registration_call w req p _ _ Hin)
    as (fetch & fdm & q & fee & share & rest & o & _ & _ & _ & _ & _ & Hin' & Hrun & _).
  destruct (registration_run_call _ _ _ _ _ _ _ _ _ _ Hrun Hin')
    as (cre & nft & q' & cid & iurl & murl & fields & r1 & h1 & s1 & nftMetadata & r2 & h2
        & s2 & recs & _ & _ & _ & _ & _ & _ & _ & _ & _ & _ & Hargs & _).
  destruct Hargs as (j1 & j2 & _ & _ & _ & _ & _ & -> & ->).
  split; [apply prefix_append |].
  split; [simpl; rewrite sha256_hex_length; reflexivity |].
  split; [apply prefix_append |].
  simpl. rewrite sha256_hex_length. reflexivity.
Qed.

Lemma registration_hashes_are_32_bytes_witness :
  exists a r,
    In (ChainRegister a r) (calls Scenario.happy Scenario.basic startup)
    /\ String.length (ipMetadataHash a) = 66%nat
    /\ String.length (nftMetadataHash a) = 66%nat.
Proof.
  assert (Hin : exists a r,
             In (ChainRegister a r) (calls Scenario.happy Scenario.basic startup)).
  { vm_compute. do 2 eexists. do 3 right. left. reflexivity. }
  destruct Hin as (a & r & Hin). exists a, r.
  destruct (registration_hashes_are_32_bytes Scenario.happy Scenario.basic startup a r Hin)
    as (_ & H1 & _ & H2).
  split; [exact Hin |]. split; [exact H1 | exact H2].
Defined.

(** ** Integers given as the revenue share *)

(** X24.  An integer of magnitude at most 2^53 (the integers a JavaScript
    number holds exactly and prints as a decimal numeral) given as
    [commercialRevShare], as a JSON number or as its decimal numeral in a
    string, is read back as that integer, and the range check is exact on
    it: every such integer below 0 or above 100 is answered 400 with the
    integer as [provided], and every integer from 0 to 100 passes and is the
    revenue share given to the registration.  Nothing is said of integers
    beyond 2^53. *)
Theorem integer_shares_are_validated_exactly
    (w : World) (req : Request) (p : Process) (n : Z) :
  Z.abs n <= 2 ^ 53 ->
  commercialRevShare req = VNum (Int n) \/ commercialRevShare req = VStr (decimal n) ->
  otherwise_valid w req ->
  resolveRevShare w req = Ok (Int n)
  /\ (n < 0 \/ 100 < n -> fst (register_ip w req p) = share_out_of_range (Int n))
  /\ (0 <= n <= 100 ->
      status (fst (register_ip w req p)) <> 400
      /\ forall a r, In (ChainRegister a r) (calls w req p) ->
                     terms_commercialRevShare a = Int n).
Proof.
  intros _ Hgiven Hvalid.
  assert (Hshare : resolveRevShare w req = Ok (Int n)).
  { unfold resolveRevShare, parseInt.
    destruct Hgiven as [-> | ->]; simpl; rewrite parseInt_string_decimal; reflexivity. }
  split; [exact Hshare |]. split.
  - intros Hout.
    assert (Hrange : out_of_range (Int n) = true).
    { unfold out_of_range. simpl. apply orb_true_iff.
      destruct Hout as [Hout | Hout]; [left | right]; apply Z.ltb_lt; exact Hout. }
    destruct Hvalid as (Hreq & Hcid & fee & Hfee).
    pose proof (register_ip_course w req p) as Hc. unfold course in Hc.
    rewrite Hreq in Hc. destruct Hc as (fetch & o & q & Hrd & Hr & Hc).
    destruct o as [fdm | e'].
    + rewrite Hfee, Hshare, Hrange in Hc. destruct Hc as (_ & Hc). exact Hc.
    + exfalso. inversion Hr; subst.
      match goal with
      | Hn : fetch_needed req = true, Ht : ToString (metadataCid req) = Throw _ |- _ =>
          destruct (Hcid Hn) as (s & Hs); rewrite Hs in Ht; discriminate Ht
      end.
  - intros Hin.
    assert (Hrange : out_of_range (Int n) = false).
    { unfold out_of_range. simpl. apply orb_false_iff.
      split; apply Z.ltb_ge; lia. }
    destruct (accepted_share_is_used w req p _ Hvalid Hshare Hrange) as (H400 & Hterms & _).
    split; assumption.
Qed.

Lemma integer_shares_are_validated_exactly_witness :
  resolveRevShare Scenario.happy Scenario.basic = Ok (Int 15)
  /\ status (fst (register_ip Scenario.happy Scenario.basic startup)) <> 400
  /\ forall a r, In (ChainRegister a r) (calls Scenario.happy Scenario.basic startup) ->
                 terms_commercialRevShare a = Int 15.
Proof.
  destruct (integer_shares_are_validated_exactly Scenario.happy Scenario.basic startup 15)
    as (Hshare & _ & Hin).
  - vm_compute. intros H. discriminate H.
  - left. reflexivity.
  - split; [reflexivity |]. split; [intros H; discriminate H |].
    eexists. vm_compute. reflexivity.
  - split; [exact Hshare |]. apply Hin. lia.
Defined.

(** ** The collection of a registration *)

(** X25.  In a run that no other request overlaps, a registration mints
    into the collection the cache holds when the run ends: the handle that
    was cached before the run, if there was one, and otherwise the handle
    returned by the creation call of this very run. *)
Theorem registration_uses_the_cached_collection
    (w : World) (req : Request) (p : Process) (a : RegisterRequest)
    (r : reply Registration) :
  In (ChainRegister a r) (calls w req p) ->
  nft_spgNftContract a = spgNftContract (snd (register_ip w req p))
  /\ (truthy (spgNftContract p) = true -> nft_spgNftContract a = spgNftContract p)
  /\ (truthy (spgNftContract p) = false ->
      exists created,
        In (ChainCreateCollection (Resolved created)) (calls w req p)
        /\ nft_spgNftContract a = opt_value (collection_spgNftContract created)).
Proof.
  intros Hin.
  destruct (registration_state w req p a r Hin)
    as (fdm & q & fee & share & rest & o & Hrd & Hin' & (fetch0 & Hcalls) & Hrun & _).
  destruct (registration_run_call _ _ _ _ _ _ _ _ _ _ Hrun Hin')
    as (cre & nft & q' & cid & iurl & murl & fields & r1 & h1 & s1 & nftMetadata & r2 & h2
        & s2 & recs & Hv & _ & _ & _ & _ & _ & _ & _ & _ & _ & Hargs & _ & _ & _ & Hrest).
  destruct Hargs as (j1 & j2 & _ & _ & Hnft & _).
  destruct (resolveDepthMetadata_spec w req p) as (fetch & Hresol).
  rewrite Hrd in Hresol. simpl in Hresol.
  destruct (resolution_history _ _ _ _ _ _ Hresol) as (_ & Hsame & _).
  split; [| split].
  - shape_of w req p Hshape.
    destruct Hshape as [ | fetch' o' q2 e t ? Hrd' Hr ? | fetch' fdm' q2 fee' share' ? Hrd' Hr ? ? ?
                         | fetch' fdm' q2 fee' share' evs' e c t ? Hrd' Hr ? ? ? Hp
                         | fetch' fdm' q2 fee' share' evs' res c ? Hrd' Hr ? ? ? Hp ];
      try contradiction;
      try (exfalso; exact (kind_of_member _ _ _ (resolution_events _ _ _ _ _ _ Hr) Hin));
      rewrite Hrd in Hrd'; inversion Hrd'; subst fdm' q2;
      (destruct (pipeline_provision _ _ _ _ _ _ _ _ _ Hp)
        as [(-> & _) | (cre' & ov & q'' & rest' & Hv' & _ & -> & _)];
       [ rewrite app_nil_r in Hin;
         exfalso; exact (kind_of_member _ _ _ (resolution_events _ _ _ _ _ _ Hr) Hin) |]);
      destruct (provision_functional _ _ _ _ _ _ _ _ Hv Hv') as (_ & _ & <-);
      rewrite Hnft;
      exact (proj2 (proj2 (proj2 (provision_cache _ _ _ _ _ Hv))) _ eq_refl).
  - intros Hcached. rewrite Hnft. rewrite <- Hsame in Hcached.
    inversion Hv; subst; [congruence | congruence].
  - intros Hnone. rewrite <- Hsame in Hnone.
    rewrite Hnft. rewrite Hrest in Hcalls. clear Hnft Hrest Hrun Hin Hin'.
    inversion Hv; subst; [congruence |].
    exists c. split; [| reflexivity].
    rewrite Hcalls. apply in_or_app. right. left. reflexivity.
Qed.

Lemma registration_uses_the_cached_collection_witness :
  exists a r,
    In (ChainRegister a r) (calls Scenario.happy Scenario.basic startup)
    /\ nft_spgNftContract a = VStr "0xC011ec7104"
    /\ spgNftContract (snd (register_ip Scenario.happy Scenario.basic startup))
       = VStr "0xC011ec7104".
Proof.
  assert (Hin : exists a r,
             In (ChainRegister a r) (calls Scenario.happy Scenario.basic startup)
             /\ nft_spgNftContract a = VStr "0xC011ec7104").
  { vm_compute. do 2 eexists. split; [do 3 right; left; reflexivity | reflexivity]. }
  destruct Hin as (a & r & Hin & Hnft). exists a, r.
  destruct (registration_uses_the_cached_collection Scenario.happy Scenario.basic startup
              a r Hin) as (Hcache & _).
  split; [exact Hin |]. split; [exact Hnft |]. rewrite <- Hcache. exact Hnft.
Defined.

(** ** The addresses inside the documents *)

(** X26.  Every document published in a run is one of the two the handler
    builds.  In both, the content is addressed with the [ipfs://] scheme: the
    [image] and [mediaUrl] of the object handed to [generateIpMetadata], the
    [image] and [animation_url] of the collectible document (which has no
    [animation_url] when the request has no [metadataCid]).  The links meant
    for a browser are HTTP addresses on the fixed Pinata gateway: the
    [external_url] of the collectible document (the address of the metadata,
    or of the image when the request has no [metadataCid]) and, when the
    request has a [metadataCid], the [DepthDataURL] attribute and the end of
    the [description] of the asset document; without a [metadataCid] that
    attribute is [N/A] and the description names the device. *)
Theorem documents_use_the_ipfs_scheme
    (w : World) (req : Request) (p : Process) (doc : value) (r : reply http_response) :
  In (publish doc r) (calls w req p) ->
  exists cid mid,
    imageCid req = VStr cid
    /\ media_id req = VStr mid
    /\ ((exists fields attrs,
           doc = generateIpMetadata w fields
           /\ field fields "image" = VStr ("ipfs://" +++ cid)
           /\ field fields "mediaUrl" = VStr ("ipfs://" +++ mid)
           /\ field fields "attributes" = VArr attrs
           /\ In (VObj [("key", VStr "DepthDataURL");
                        ("value", VStr (if truthy (metadataCid req)
                                        then "https://gateway.pinata.cloud/ipfs/" +++ mid
                                        else "N/A"))]) attrs
           /\ (if truthy (metadataCid req)
               then field fields "description"
                    = VStr ("Evidence capture with depth mapping. Full depth data stored at: "
                            +++ "https://gateway.pinata.cloud/ipfs/" +++ mid)
               else exists device,
                      ToString (deviceAddress req) = Ok device
                      /\ field fields "description"
                         = VStr ("Evidence capture. Device: " +++ device)))
        \/ (field doc "image" = VStr ("ipfs://" +++ cid)
            /\ field doc "animation_url"
               = (if truthy (metadataCid req) then VStr ("ipfs://" +++ mid) else VUndefined)
            /\ field doc "external_url"
               = VStr ("https://gateway.pinata.cloud/ipfs/" +++ mid))).
Proof.
  intros Hin. apply published_document in Hin.
  destruct Hin as (cid & mid & q & q' & Hcid & Hmid & [(fields & Hrun & ->) | Hrun]).
  - exists cid, mid. split; [exact Hcid |]. split; [exact Hmid |]. left.
    destruct (ipMetadataFields_addresses _ _ _ _ _ _ Hrun)
      as (cid' & mid' & attrs & Hcid' & Hmid' & Himage & Hmedia & Hattrs & Hurl & Hdesc).
    assert (cid' = cid) by congruence. assert (mid' = mid) by congruence. subst cid' mid'.
    exists fields, attrs. split; [reflexivity |].
    do 3 (split; [assumption |]). split; [exact Hurl | exact Hdesc].
  - exists cid, mid. split; [exact Hcid |]. split; [exact Hmid |]. right.
    destruct (nftMetadataFields_addresses _ _ _ _ _ _ _ Hrun) as ((c & Hc & Himage) & Hrest).
    rewrite Hcid in Hc. simpl in Hc. injection Hc as <-.
    split; [exact Himage |].
    unfold media_id in Hmid.
    destruct (truthy (metadataCid req)).
    + destruct Hrest as (m & Hm & Hanim & Hext). rewrite Hmid in Hm. simpl in Hm.
      injection Hm as <-. split; [exact Hanim | exact Hext].
    + destruct Hrest as (Hanim & Hext). split; [exact Hanim |].
      rewrite Hext. assert (mid = cid) by congruence. subst mid. reflexivity.
Qed.

Lemma documents_use_the_ipfs_scheme_witness :
  exists doc r,
    In (publish doc r) (calls Scenario.happy Scenario.with_metadata startup)
    /\ field doc "external_url" = VStr "https://gateway.pinata.cloud/ipfs/Qmeta1"
    /\ field doc "image" = VStr "ipfs://Qimg1".
Proof.
  assert (Hin : exists doc r,
             In (publish doc r) (calls Scenario.happy Scenario.with_metadata startup)
             /\ field doc "external_url" = VStr "https://gateway.pinata.cloud/ipfs/Qmeta1").
  { vm_compute. do 2 eexists. split; [do 3 right; left; reflexivity | reflexivity]. }
  destruct Hin as (doc & r & Hin & Hurl). exists doc, r.
  split; [exact Hin |]. split; [exact Hurl |].
  destruct (documents_use_the_ipfs_scheme Scenario.happy Scenario.with_metadata startup
              doc r Hin) as (cid & mid & Hcid & _ & [Hasset | Hcollectible]).
  - destruct Hasset as (fields & attrs & Hdoc & Himage & _).
    change (doc = fields) in Hdoc. subst fields.
    injection Hcid as <-. exact Himage.
  - destruct Hcollectible as (Himage & _). injection Hcid as <-. exact Himage.
Defined.
